(** * pagecapture: scroll, capture and merge

    A shallow embedding of the screenshot code of the repository:

    - [methods.py]   : module-level [get_max_height], [get_page_height],
                       [get_combined_screenshot], [capture_remaining_page],
                       [get_screenshot_using_cut_and_merger];
    - [main.py]      : [get_screenshot];
    - [browser_handler] : class [BrowserHandler] ([get_max_height],
                       [get_screenshot], the tiled path, the remainder capture);
    - [helper]       : class [ScreenshotHelper].

    The two pairs are two variants of the same algorithm: probe the page
    height until two readings agree, capture the page in one shot or in
    tiles, and paste the tiles into one image.

    The Selenium session is an oracle that answers every request from the
    history of the requests made so far; the Python code is written in a
    small monad that records the requests it issues, propagates exceptions
    and runs [while] loops on fuel. *)

From Stdlib Require Import ZArith List Lia Bool String.
Import ListNotations.
Local Open Scope Z_scope.

(** ** Python values, exceptions and outcomes *)

Definition bytes := list Byte.byte.

Inductive exn : Set :=
| WebDriverException
| TypeError
| IndexError
| ZeroDivisionError
| ValueError
| OverflowError
| MemoryError
| UnidentifiedImageError.

(** What a call produces: a value, a raised exception, or nothing because a
    loop ran out of fuel. *)
Inductive outcome (A : Type) : Type :=
| Ok (a : A)
| Raise (e : exn)
| Diverge.
Arguments Ok {A} a.
Arguments Raise {A} e.
Arguments Diverge {A}.

(** Sequencing of code that touches no session. *)
Definition and_then {A B} (o : outcome A) (f : A -> outcome B) : outcome B :=
  match o with
  | Ok a => f a
  | Raise e => Raise e
  | Diverge => Diverge
  end.

(** Values that come back from the driver: [None], an integer, a [bytes]
    object. JavaScript numbers that are not integers are not modelled. *)
Inductive value : Type :=
| VNone
| VInt (z : Z)
| VBytes (b : bytes).

(** ** The remote session *)

(** The six height metrics read by the probes. *)
Inductive metric : Set :=
| body_scrollHeight
| body_clientHeight
| body_offsetHeight
| documentElement_offsetHeight
| documentElement_clientHeight
| documentElement_scrollHeight.

(** The JavaScript snippets the code sends through [execute_script]:
    - [Return m]            : ['return document.body.scrollHeight'] and the like;
    - [ScrollTo x y]        : ["window.scrollTo({0}, {1})".format(x, y)];
    - [ChromeOffset]        : ["return window.outerHeight - window.innerHeight"];
    - [InnerHeight]         : ["return window.innerHeight"];
    - [OuterHeight]         : ["return window.outerHeight"];
    - [SetBodyHeight h]     : ["return document.body.style.height = {0}+'px'".format(h)]. *)
Inductive script : Set :=
| Return (m : metric)
| ScrollTo (x y : Z)
| ChromeOffset
| InnerHeight
| OuterHeight
| SetBodyHeight (h : Z).

(** Requests seen by the session, [time.sleep] included: the page may change
    while the code waits. *)
Inductive command : Set :=
| ExecuteScript (s : script)
| SetWindowSize (w h : Z)
| GetScreenshotAsPng
| Sleep (d : Z).

Inductive reply : Type :=
| Returns (v : value)
| Throws.

Definition history := list command.

(** A session answers a request from the requests made before it. *)
Definition browser := history -> command -> reply.

(** ** The monad of driver scripts

    A computation reads the history so far and gives its outcome with the
    requests it issued itself, oldest first. *)
Definition M (A : Type) : Type := history -> outcome A * list command.

Definition ret {A} (a : A) : M A := fun _ => (Ok a, []).

Definition raise {A} (e : exn) : M A := fun _ => (Raise e, []).

Definition lift {A} (o : outcome A) : M A := fun _ => (o, []).

Definition bind {A B} (m : M A) (f : A -> M B) : M B := fun h =>
  match m h with
  | (Ok a, t) => let (r, t') := f a (h ++ t) in (r, t ++ t')
  | (Raise e, t) => (Raise e, t)
  | (Diverge, t) => (Diverge, t)
  end.

(** [try: m  except Exception as e: handler e] *)
Definition try_except {A} (m : M A) (handler : exn -> M A) : M A := fun h =>
  match m h with
  | (Raise e, t) => let (r, t') := handler e (h ++ t) in (r, t ++ t')
  | rt => rt
  end.

Declare Scope py_scope.
Delimit Scope py_scope with py.
Notation "x <- m ;; k" := (bind m (fun x => k))
  (at level 61, m at next level, right associativity) : py_scope.
Notation "' p <- m ;; k" := (bind m (fun x => match x with p => k end))
  (at level 61, p pattern, m at next level, right associativity) : py_scope.
Notation "m ;; k" := (bind m (fun _ => k))
  (at level 61, right associativity) : py_scope.
Local Open Scope py_scope.

(** One round trip to the session. *)
Definition call (wd : browser) (c : command) : M value := fun h =>
  match wd h c with
  | Returns v => (Ok v, [c])
  | Throws => (Raise WebDriverException, [c])
  end.

Definition execute_script (wd : browser) (s : script) : M value :=
  call wd (ExecuteScript s).

Definition set_window_size (wd : browser) (w h : Z) : M unit :=
  call wd (SetWindowSize w h) ;; ret tt.

(** Selenium decodes the screenshot payload into a [bytes] object. *)
Definition get_screenshot_as_png (wd : browser) : M bytes :=
  v <- call wd GetScreenshotAsPng ;;
  match v with
  | VBytes b => ret b
  | _ => raise TypeError
  end.

(** [time.sleep(d)] on whole seconds. The duration is first converted to
    the clock's signed 64-bit count of nanoseconds, which raises
    [OverflowError] beyond [(2^63 - 1) / 10^9 = 9223372036] seconds either
    way; a negative duration then raises [ValueError]; otherwise the wait
    is recorded among the requests. *)
Definition time_sleep (d : Z) : M unit := fun _ =>
  if 9223372036 <? Z.abs d then (Raise OverflowError, [])
  else if d <? 0 then (Raise ValueError, [])
  else (Ok tt, [Sleep d]).

(** [int(v)], and the use of a script result as a number. *)
Definition int (v : value) : M Z :=
  match v with
  | VInt z => ret z
  | _ => raise TypeError
  end.

(** *** [math.floor(a / b)]

    [a / b] on Python integers is the float nearest to the quotient (ties
    to even), and [math.floor] floors that float. *)

(** The integer nearest to [n / d], ties to even, for [0 <= n] and [0 < d]. *)
Definition round_half_even (n d : Z) : Z :=
  let q := n / d in
  let r := n mod d in
  if 2 * r <? d then q
  else if d <? 2 * r then q + 1
  else if Z.even q then q else q + 1.

(** [A / (B * 2^e)] as a fraction. *)
Definition scaled (A B e : Z) : Z * Z :=
  if 0 <=? e then (A, B * 2 ^ e) else (A * 2 ^ (- e), B).

(** [math.floor(a / b)] for [b <> 0]. The float is [m * 2^e] with a
    mantissa [m] of 53 bits (fewer below [2^-1022]); a quotient of at most
    [2^-1075] in magnitude is the float zero, one that rounds to [2^1024]
    or more raises [OverflowError]. *)
Definition float_floor (a b : Z) : outcome Z :=
  let A := Z.abs a in
  let B := Z.abs b in
  if A =? 0 then Ok 0
  else if A * 2 ^ 1075 <=? B then Ok 0
  else
    let e0 := Z.log2 A - Z.log2 B - 52 in
    let e1 := if fst (scaled A B e0) <? 2 ^ 52 * snd (scaled A B e0)
              then e0 - 1 else e0 in
    let e := Z.max e1 (- 1074) in
    let m := round_half_even (fst (scaled A B e)) (snd (scaled A B e)) in
    if (0 <=? e) && (2 ^ 1024 <=? m * 2 ^ e) then Raise OverflowError
    else
      let signed_m := if xorb (a <? 0) (b <? 0) then - m else m in
      if 0 <=? e then Ok (signed_m * 2 ^ e) else Ok (signed_m / 2 ^ (- e)).

(** [math.floor(a / b)]: a zero divisor raises. *)
Definition floor_div (a b : Z) : M Z :=
  if b =? 0 then raise ZeroDivisionError else lift (float_floor a b).

(** [a % b] on Python integers. *)

Definition py_mod (a b : Z) : M Z :=
  if b =? 0 then raise ZeroDivisionError else ret (a mod b).

(** *** [while] on fuel *)

Inductive ctl (S : Type) : Type :=
| Continue (s : S)
| Break (s : S).
Arguments Continue {S} s.
Arguments Break {S} s.

Fixpoint while {S} (fuel : nat) (cond : S -> bool) (body : S -> M (ctl S))
  (s : S) : M S :=
  match fuel with
  | O => if cond s then (fun _ => (Diverge, [])) else ret s
  | Datatypes.S fuel' =>
      if cond s then
        r <- body s ;;
        match r with
        | Continue s' => while fuel' cond body s'
        | Break s' => ret s'
        end
      else ret s
  end.

(** ** PIL images *)

Module PIL.

(** An opened image: what the code reads of it. Sizes are never negative. *)
Record Image : Type := { mode : string; size : N * N }.

Definition width (img : Image) : Z := Z.of_N (fst (size img)).
Definition height (img : Image) : Z := Z.of_N (snd (size img)).

(** A canvas made by [Image.new], with the pastes made on it in order. *)
Record Canvas : Type :=
  { canvas_mode : string;
    canvas_size : Z * Z;
    pasted : list (Image * (Z * Z)) }.

(** The library on the machine it runs on: the PNG codec,
    [Image.open(io.BytesIO(b))] and [canvas.save(buffer, format=...)]
    followed by reading the buffer, and whether [Image.new] finds the
    memory for an image of a mode and size ([allocates]). *)
Class Codec : Type :=
  { open : bytes -> outcome Image;
    save : Canvas -> string -> outcome bytes;
    allocates : string -> Z * Z -> bool }.

(** [Image.new(mode, size)]: a negative size raises [ValueError], a size
    that does not fit a C [int] raises [OverflowError], and an image that
    cannot be allocated raises [MemoryError]: whatever the machine, one
    wider than [INT_MAX / 4 - 1 = 2^29 - 2] pixels, whose lines the
    library refuses to size. *)
Definition new `{Codec} (m : string) (sz : Z * Z) : outcome Canvas :=
  if (fst sz <? 0) || (snd sz <? 0) then Raise ValueError
  else if (2 ^ 31 <=? fst sz) || (2 ^ 31 <=? snd sz) then Raise OverflowError
  else if (2 ^ 29 - 2 <? fst sz) || negb (allocates m sz) then Raise MemoryError
  else Ok {| canvas_mode := m; canvas_size := sz; pasted := [] |}.

(** [canvas.paste(img, box)] *)
Definition paste (c : Canvas) (img : Image) (box : Z * Z) : Canvas :=
  {| canvas_mode := canvas_mode c;
     canvas_size := canvas_size c;
     pasted := pasted c ++ [(img, box)] |}.

End PIL.

(** [Image.open(io.BytesIO(wd.get_screenshot_as_png()))] *)
Definition capture_image `{PIL.Codec} (wd : browser) : M PIL.Image :=
  png <- get_screenshot_as_png wd ;;
  lift (PIL.open png).

(** ** [methods.py] *)

Module methods.
Section WithCodec.
Context `{PIL.Codec}.

(** [get_page_height(wd)]: six metrics, read in this order, and their
    maximum. *)
Definition get_page_height (wd : browser) : M Z :=
  scroll_height <- (v <- execute_script wd (Return body_scrollHeight) ;; int v) ;;
  client_height <- (v <- execute_script wd (Return body_clientHeight) ;; int v) ;;
  offset_height <- (v <- execute_script wd (Return body_offsetHeight) ;; int v) ;;
  document_offset_height <-
    (v <- execute_script wd (Return documentElement_offsetHeight) ;; int v) ;;
  document_client_height <-
    (v <- execute_script wd (Return documentElement_clientHeight) ;; int v) ;;
  document_scroll_height <-
    (v <- execute_script wd (Return documentElement_scrollHeight) ;; int v) ;;
  ret (Z.max scroll_height (Z.max client_height (Z.max offset_height
        (Z.max document_scroll_height
           (Z.max document_client_height document_offset_height))))).

(** One turn of the loop of [get_max_height]; the state of the loop is
    [max_height]. *)
Definition get_max_height_body (wd : browser) (max_width max_height : Z)
  : M (ctl Z) :=
  previous_max_height <- get_page_height wd ;;
  set_window_size wd max_width previous_max_height ;;
  execute_script wd (ScrollTo 0 previous_max_height) ;;
  time_sleep 20 ;;
  new_max_height <- get_page_height wd ;;
  if previous_max_height =? new_max_height
  then ret (Break new_max_height)
  else ret (Continue max_height).

(** [get_max_height(wd, max_width=1367)]: [while True] with a [break] on
    two equal reads. *)
Definition get_max_height (fuel : nat) (wd : browser) (max_width : Z) : M Z :=
  while fuel (fun _ => true) (get_max_height_body wd max_width) 0.

(** [get_window_height(wd, viewport)] *)
Definition get_window_height (wd : browser) (viewport : Z) : M Z :=
  chrome <- (v <- execute_script wd ChromeOffset ;; int v) ;;
  ret (viewport + chrome).

(** [total_height += image.height] over the slices. *)
Definition sum_heights (slices : list PIL.Image) : Z :=
  fold_left (fun total image => total + PIL.height image) slices 0.

(** The paste loop: the canvas and the running offset. *)
Definition paste_all (screenshot : PIL.Canvas) (slices : list PIL.Image)
  : PIL.Canvas * Z :=
  fold_left
    (fun '(screenshot, offset) img =>
       (PIL.paste screenshot img (0, offset), offset + PIL.height img))
    slices (screenshot, 0).

(** [get_combined_screenshot(slices, width)] up to the encoding: the
    canvas with every slice pasted. [width] is a one-element list;
    [slices[0]] and [width[0]] raise on an empty list. *)
Definition combined_canvas (slices : list PIL.Image) (width : list Z)
  : outcome PIL.Canvas :=
  let total_height := sum_heights slices in
  match slices with
  | [] => Raise IndexError
  | first :: _ =>
      match width with
      | [] => Raise IndexError
      | width0 :: _ =>
          and_then (PIL.new (PIL.mode first) (width0, total_height + 150))
            (fun screenshot => Ok (fst (paste_all screenshot slices)))
      end
  end.

(** [get_combined_screenshot(slices, width)]: the canvas saved as PNG.
    The [try ... except Exception as e: raise e] re-raises. *)
Definition get_combined_screenshot (slices : list PIL.Image) (width : list Z)
  : outcome bytes :=
  and_then (combined_canvas slices width)
    (fun screenshot => PIL.save screenshot "PNG").

(** [capture_remaining_page(wd, ss_chunks, total_height, win_width,
    viewport, scroll_x, screenshot_delay)] *)
Definition capture_remaining_page (wd : browser) (ss_chunks : list PIL.Image)
  (total_height win_width viewport scroll_x screenshot_delay : Z)
  : M (option PIL.Image) :=
  try_except
    (remaining_page_height <- py_mod total_height viewport ;;
     if remaining_page_height =? 0 then ret None
     else
       execute_script wd (SetBodyHeight total_height) ;;
       scroll_offset <-
         match ss_chunks with
         | [] => raise IndexError
         | first :: _ => ret (PIL.height first * Z.of_nat (List.length ss_chunks))
         end ;;
       new_win_height <- get_window_height wd remaining_page_height ;;
       set_window_size wd win_width new_win_height ;;
       time_sleep screenshot_delay ;;
       execute_script wd (ScrollTo scroll_x scroll_offset) ;;
       time_sleep screenshot_delay ;;
       image <- capture_image wd ;;
       ret (Some image))
    (fun e => raise e).

(** The first lines of the tiled path: probe, resize the window to the
    probed height, read the viewport back. Gives [(max_height, viewport)]. *)
Definition cut_and_merger_viewport (fuel : nat) (wd : browser)
  (win_width screenshot_delay : Z) : M (Z * Z) :=
  let window_width := win_width in
  max_height <- get_max_height fuel wd window_width ;;
  set_window_size wd win_width max_height ;;
  execute_script wd OuterHeight ;;
  time_sleep screenshot_delay ;;
  viewport <- (v <- execute_script wd InnerHeight ;; int v) ;;
  ret (max_height, viewport).

(** One turn of the tile loop; the state of the loop is
    [(ss_chunks, offset, total_ss_count)]. *)
Definition tile_loop_body (wd : browser) (scroll_x screenshot_delay : Z)
  (s : list PIL.Image * Z * Z) : M (ctl (list PIL.Image * Z * Z)) :=
  let '(ss_chunks, offset, total_ss_count) := s in
  execute_script wd (ScrollTo scroll_x offset) ;;
  time_sleep screenshot_delay ;;
  img <- capture_image wd ;;
  ret (Continue (ss_chunks ++ [img], offset + PIL.height img,
                 total_ss_count + 1)).

(** [while total_ss_count < max_ss_count: ...] *)
Definition tile_loop (fuel : nat) (wd : browser)
  (scroll_x screenshot_delay max_ss_count : Z)
  : M (list PIL.Image * Z * Z) :=
  while fuel
    (fun '(ss_chunks, offset, total_ss_count) => total_ss_count <? max_ss_count)
    (tile_loop_body wd scroll_x screenshot_delay)
    ([], 0, 0).

(** [get_screenshot_using_cut_and_merger(wd, win_width, screenshot_delay,
    debug=False, win_height=15000)]; [win_height] is never read. *)
Definition get_screenshot_using_cut_and_merger (fuel : nat) (wd : browser)
  (win_width screenshot_delay : Z) (debug : bool) (win_height : Z) : M bytes :=
  let scroll_x := 0 in
  let window_width := win_width in
  '(max_height, viewport) <-
    cut_and_merger_viewport fuel wd win_width screenshot_delay ;;
  max_ss_count <- floor_div max_height viewport ;;
  '(ss_chunks, offset, total_ss_count) <-
    tile_loop fuel wd scroll_x screenshot_delay max_ss_count ;;
  last_image <- capture_remaining_page wd ss_chunks max_height window_width
                  viewport scroll_x screenshot_delay ;;
  let ss_chunks :=
    match last_image with
    | Some img => ss_chunks ++ [img]
    | None => ss_chunks
    end in
  let width := [window_width] in
  lift (get_combined_screenshot ss_chunks width).

End WithCodec.
End methods.

(** ** [main.py] *)

Module main.
Section WithCodec.
Context `{PIL.Codec}.

(** [get_screenshot(wd, full=False, df_wd=1366, df_ht=900,
    default_height=15000, debug=False, screenshot_delay=20)].
    [png_ss] is still [None] wherever the body can raise, so the handler's
    [return png_ss] gives [None]. *)
Definition get_screenshot (fuel : nat) (wd : browser) (full : bool)
  (df_wd df_ht default_height : Z) (debug : bool) (screenshot_delay : Z)
  : M (option bytes) :=
  let user_wd := df_wd in
  let user_ht := df_ht in
  let cut_merge_threshold := default_height in
  try_except
    (let max_width := user_wd in
     if full then
       max_height <- methods.get_max_height fuel wd max_width ;;
       if max_height <=? cut_merge_threshold then
         new_window_height <- methods.get_window_height wd max_height ;;
         set_window_size wd max_width new_window_height ;;
         time_sleep screenshot_delay ;;
         execute_script wd (ScrollTo max_width max_height) ;;
         time_sleep screenshot_delay ;;
         execute_script wd (ScrollTo 0 0) ;;
         time_sleep screenshot_delay ;;
         png_ss <- get_screenshot_as_png wd ;;
         ret (Some png_ss)
       else
         png_ss <- methods.get_screenshot_using_cut_and_merger fuel wd user_wd
                     screenshot_delay true 15000 ;;
         ret (Some png_ss)
     else
       let max_height := user_ht in
       set_window_size wd max_width max_height ;;
       time_sleep screenshot_delay ;;
       png_ss <- get_screenshot_as_png wd ;;
       ret (Some png_ss))
    (fun e => ret None).

End WithCodec.
End main.

(** ** [helper]: class [ScreenshotHelper] *)

Module ScreenshotHelper.
Section WithCodec.
Context `{PIL.Codec}.

(** [sys.getsizeof] of a [bytes] object: 33 bytes of header and the
    payload. *)
Definition getsizeof (p : bytes) : Z := 33 + Z.of_nat (List.length p).

(** [is_valid_screenshot(p_object, size)]: [p_object and
    sys.getsizeof(p_object) > size]; [None] and [b''] are falsy. *)
Definition is_valid_screenshot (p_object : option bytes) (size : Z) : bool :=
  match p_object with
  | None => false
  | Some [] => false
  | Some p => size <? getsizeof p
  end.

(** [total_image_height += img.size[1]] over the slices. *)
Definition total_image_height (slices : list PIL.Image) : Z :=
  fold_left (fun total img => total + Z.of_N (snd (PIL.size img))) slices 0.

(** The paste loop: the canvas and the running offset. *)
Definition paste_all (screenshot : PIL.Canvas) (slices : list PIL.Image)
  : PIL.Canvas * Z :=
  fold_left
    (fun '(screenshot, offset) img =>
       (PIL.paste screenshot img (0, offset),
        offset + Z.of_N (snd (PIL.size img))))
    slices (screenshot, 0).

(** [get_combined_screenshot(slices, width)] up to the encoding: the
    canvas with every slice pasted. *)
Definition combined_canvas (slices : list PIL.Image) (width : list Z)
  : outcome PIL.Canvas :=
  let total := total_image_height slices in
  match slices with
  | [] => Raise IndexError
  | first :: _ =>
      match width with
      | [] => Raise IndexError
      | width0 :: _ =>
          and_then (PIL.new (PIL.mode first) (width0, total + 150))
            (fun screenshot => Ok (fst (paste_all screenshot slices)))
      end
  end.

(** [get_combined_screenshot(slices, width)], a static method of two
    parameters: the canvas saved as PNG. *)
Definition get_combined_screenshot (slices : list PIL.Image) (width : list Z)
  : outcome bytes :=
  and_then (combined_canvas slices width)
    (fun screenshot => PIL.save screenshot "PNG").

(** Positional arguments as they appear at a call site. *)
Inductive argument : Type :=
| Images (l : list PIL.Image)
| Ints (l : list Z)
| Int (z : Z).

(** A call of [ScreenshotHelper.get_combined_screenshot]: Python
    binds the positional arguments to the two parameters before the body
    runs, and raises [TypeError] when their number is not two. *)
Definition get_combined_screenshot_call (args : list argument) : outcome bytes :=
  match args with
  | [Images slices; Ints width] => get_combined_screenshot slices width
  | _ => Raise TypeError
  end.

End WithCodec.
End ScreenshotHelper.

(** ** [browser_handler]: class [BrowserHandler] *)

Module BrowserHandler.

(** The fields of [self] the capture code reads, on a handler whose
    [create_webdriver] has run (so [self.webdriver] is a live session and
    the guards on [self.webdriver is None] do not fire). The UI-automation
    strategy (xdotool keystrokes, polling a download directory) is carried
    as an opaque method. *)
Record handler : Type :=
  { webdriver : browser;
    kwargs : string -> option Z;
    __get_screenshot_using_automation :
      Z -> Z -> Z -> Z -> bool -> M (option bytes) }.

(** [d.get(key, default)] *)
Definition dict_get (d : string -> option Z) (key : string) (default : Z) : Z :=
  match d key with
  | Some v => v
  | None => default
  end.

Section WithCodec.
Context `{PIL.Codec}.

(** [__get_actual_height(self)] *)
Definition __get_actual_height (self : handler) : M Z :=
  max_body_height <-
    (v <- execute_script (webdriver self) (Return body_scrollHeight) ;; int v) ;;
  max_document_height <-
    (v <- execute_script (webdriver self) (Return documentElement_scrollHeight) ;;
     int v) ;;
  ret (Z.max max_body_height max_document_height).

(** One turn of the loop of [get_max_height]; the state of the loop is
    [(max_height, calculation_count)]. *)
Definition get_max_height_body (self : handler) (delay : Z) (s : Z * Z)
  : M (ctl (Z * Z)) :=
  let '(max_height, calculation_count) := s in
  previous_max_height <- __get_actual_height self ;;
  execute_script (webdriver self) (ScrollTo 0 previous_max_height) ;;
  time_sleep delay ;;
  new_max_height <- __get_actual_height self ;;
  if new_max_height =? previous_max_height
  then ret (Break (new_max_height, calculation_count))
  else ret (Continue (max_height, calculation_count + 1)).

(** The loop of [get_max_height]: [while calculation_count <
    calculation_times: ...], from [max_height = 0] and
    [calculation_count = 0]. *)
Definition get_max_height_loop (fuel : nat) (self : handler) (delay : Z)
  : M (Z * Z) :=
  let calculation_times := 5 in
  while fuel
    (fun '(max_height, calculation_count) =>
       calculation_count <? calculation_times)
    (get_max_height_body self delay)
    (0, 0).

(** [get_max_height(self, df_ht=0, delay=5)] *)
Definition get_max_height (fuel : nat) (self : handler) (df_ht delay : Z) : M Z :=
  '(max_height, _) <- get_max_height_loop fuel self delay ;;
  ret (if max_height =? 0 then df_ht else max_height).

(** [capture_remaining_section(self, ss_chunks, total_height, win_width,
    win_height, scroll_x, screenshot_delay, debug=False)] *)
Definition capture_remaining_section (self : handler)
  (ss_chunks : list PIL.Image)
  (total_height win_width win_height scroll_x screenshot_delay : Z)
  (debug : bool) : M (option PIL.Image) :=
  try_except
    (remaining_page_height <- py_mod total_height win_height ;;
     if remaining_page_height =? 0 then ret None
     else
       execute_script (webdriver self)
         (SetBodyHeight (total_height + win_height)) ;;
       scroll_offset <-
         match ss_chunks with
         | [] => raise IndexError
         | first :: _ => ret (PIL.height first * Z.of_nat (List.length ss_chunks))
         end ;;
       chrome <- (v <- execute_script (webdriver self) ChromeOffset ;; int v) ;;
       let new_win_height := remaining_page_height + chrome in
       set_window_size (webdriver self) win_width (new_win_height + 3500) ;;
       time_sleep screenshot_delay ;;
       execute_script (webdriver self) (ScrollTo scroll_x scroll_offset) ;;
       time_sleep screenshot_delay ;;
       image <- capture_image (webdriver self) ;;
       ret (Some image))
    (fun e => raise e).

(** One turn of the tile loop; the state of the loop is
    [(slices, offset, ss_count)]. *)
Definition tile_loop_body (self : handler) (scroll_x screenshot_delay : Z)
  (s : list PIL.Image * Z * Z) : M (ctl (list PIL.Image * Z * Z)) :=
  let '(slices, offset, ss_count) := s in
  execute_script (webdriver self) (ScrollTo scroll_x offset) ;;
  time_sleep screenshot_delay ;;
  img <- capture_image (webdriver self) ;;
  ret (Continue (slices ++ [img], offset + Z.of_N (snd (PIL.size img)),
                 ss_count + 1)).

(** [while ss_count < max_ss_count: ...] *)
Definition tile_loop (fuel : nat) (self : handler)
  (scroll_x screenshot_delay max_ss_count : Z)
  : M (list PIL.Image * Z * Z) :=
  while fuel
    (fun '(slices, offset, ss_count) => ss_count <? max_ss_count)
    (tile_loop_body self scroll_x screenshot_delay)
    ([], 0, 0).

(** [__get_screenshot_using_cut_and_merger] up to the merge: the probe,
    the resize, the tile loop and the remainder capture. Gives the slices
    and the offset that are handed to the merge. *)
Definition cut_and_merger_slices (fuel : nat) (self : handler)
  (max_width screenshot_delay : Z) (debug : bool)
  : M (list PIL.Image * Z) :=
  let scroll_x := 0 in
  let window_height := 15000 in
  max_height <- get_max_height fuel self 0 5 ;;
  max_ss_count <- floor_div max_height window_height ;;
  chrome <- (v <- execute_script (webdriver self) ChromeOffset ;; int v) ;;
  let new_window_height := window_height + chrome in
  set_window_size (webdriver self) max_width new_window_height ;;
  '(slices, offset, ss_count) <-
    tile_loop fuel self scroll_x screenshot_delay max_ss_count ;;
  last_image <- capture_remaining_section self slices max_height max_width
                  window_height scroll_x screenshot_delay debug ;;
  let slices :=
    match last_image with
    | Some img => slices ++ [img]
    | None => slices
    end in
  ret (slices, offset).

(** [__get_screenshot_using_cut_and_merger(self, max_width,
    screenshot_delay, debug=False)]: the merge is called with three
    positional arguments. *)
Definition __get_screenshot_using_cut_and_merger (fuel : nat) (self : handler)
  (max_width screenshot_delay : Z) (debug : bool) : M bytes :=
  '(slices, offset) <-
    cut_and_merger_slices fuel self max_width screenshot_delay debug ;;
  let width := [max_width] in
  lift (ScreenshotHelper.get_combined_screenshot_call
          [ScreenshotHelper.Images slices; ScreenshotHelper.Ints width;
           ScreenshotHelper.Int offset]).

(** [get_screenshot(self, full=False, df_wd=980, df_ht=1000,
    default_height=22000, maximum_length_image=600000, debug=False,
    screenshot_delay=5)]. The [try] body gives [inl png_ss] when it falls
    through to the validity check; the handler's [return png_ss] leaves
    the method at once, with [png_ss] still [None]. *)
Definition get_screenshot (fuel : nat) (self : handler) (full : bool)
  (df_wd df_ht default_height maximum_length_image : Z) (debug : bool)
  (screenshot_delay : Z) : M (option bytes) :=
  let user_wd := df_wd in
  let user_ht := df_ht in
  let cut_merge_threshold := default_height in
  let cut_merge_maximum_length_image := maximum_length_image in
  r <- try_except
         (let max_width := user_wd in
          png_ss <-
            (if full then
               max_height <- get_max_height fuel self user_ht screenshot_delay ;;
               let sc_capture_type := dict_get (kwargs self) "sc_capture_type" 1 in
               let crawl_ss_type :=
                 dict_get (kwargs self) "crawl_ss_type" sc_capture_type in
               if crawl_ss_type =? sc_capture_type then
                 if max_height <=? cut_merge_threshold then
                   chrome <- (v <- execute_script (webdriver self) ChromeOffset ;;
                              int v) ;;
                   let window_height := max_height + chrome in
                   set_window_size (webdriver self) max_width window_height ;;
                   execute_script (webdriver self) (ScrollTo max_width max_height) ;;
                   time_sleep screenshot_delay ;;
                   execute_script (webdriver self) (ScrollTo 0 0) ;;
                   time_sleep screenshot_delay ;;
                   png <- get_screenshot_as_png (webdriver self) ;;
                   ret (Some png)
                 else
                   png <- __get_screenshot_using_cut_and_merger fuel self max_width
                            screenshot_delay debug ;;
                   ret (Some png)
               else
                 __get_screenshot_using_automation self
                   cut_merge_maximum_length_image max_height max_width
                   screenshot_delay debug
             else
               let max_height := user_ht in
               set_window_size (webdriver self) max_width max_height ;;
               time_sleep screenshot_delay ;;
               png <- get_screenshot_as_png (webdriver self) ;;
               ret (Some png)) ;;
          ret (inl png_ss))
         (fun e => ret (inr None)) ;;
  match r with
  | inr early => ret early
  | inl png_ss =>
      if negb (ScreenshotHelper.is_valid_screenshot png_ss 1000)
      then raise TypeError
      else ret png_ss
  end.

End WithCodec.
End BrowserHandler.

(** ** Observations on a run *)

Definition is_capture (c : command) : bool :=
  match c with
  | GetScreenshotAsPng => true
  | _ => false
  end.

Definition is_scroll (c : command) : bool :=
  match c with
  | ExecuteScript (ScrollTo _ _) => true
  | _ => false
  end.

(** The number of capture calls, and of scroll requests, among the requests
    of a run. *)
Definition captures (t : list command) : nat := List.length (filter is_capture t).
Definition scrolls (t : list command) : nat := List.length (filter is_scroll t).

(** The sum of the heights of a sequence of tiles. *)
Definition heights (slices : list PIL.Image) : Z :=
  fold_right Z.add 0 (map PIL.height slices).

(** Tiles stacked from a vertical offset on: each with the box it lands in. *)
Fixpoint stacked (offset : Z) (slices : list PIL.Image)
  : list (PIL.Image * (Z * Z)) :=
  match slices with
  | [] => []
  | img :: rest => (img, (0, offset)) :: stacked (offset + PIL.height img) rest
  end.

(** The probe on a sequence [rs] of height readings, two readings per
    turn: of [n] turns from turn [i] on, the first whose second reading
    equals its first gives that reading; [0] when there is none. *)
Fixpoint first_stable (rs : nat -> Z) (n i : nat) : Z :=
  match n with
  | O => 0
  | S n' =>
      if rs (2 * i + 1)%nat =? rs (2 * i)%nat then rs (2 * i + 1)%nat
      else first_stable rs n' (S i)
  end.

(** The same readings under a probe without a bound on its turns: the
    first stable reading among [fuel] turns, no result when there is none. *)
Fixpoint first_stable_unbounded (rs : nat -> Z) (fuel i : nat) : outcome Z :=
  match fuel with
  | O => Diverge
  | S fuel' =>
      if rs (2 * i)%nat =? rs (2 * i + 1)%nat then Ok (rs (2 * i + 1)%nat)
      else first_stable_unbounded rs fuel' (S i)
  end.

(** [post m h Q]: run from the history [h], the computation [m] ends with
    an outcome and requests that satisfy [Q]. *)
Definition post {A} (m : M A) (h : history)
  (Q : outcome A -> list command -> Prop) : Prop :=
  Q (fst (m h)) (snd (m h)).

(** Requests that the session answers; [time.sleep] is not one. *)
Definition is_request (c : command) : bool :=
  match c with
  | Sleep _ => false
  | _ => true
  end.

(** [aborts_on_throw wd m]: whenever the session throws on a request of a
    run of [m], that request is the last one of the run and the run raises
    [WebDriverException]: nothing is retried and nothing follows. *)
Definition aborts_on_throw (wd : browser) {A} (m : M A) : Prop :=
  forall h t1 c t2,
    snd (m h) = t1 ++ c :: t2 -> is_request c = true ->
    wd (h ++ t1) c = Throws ->
    t2 = [] /\ fst (m h) = Raise WebDriverException.

(** The requests of a tile loop that captures the tiles [slices] from the
    vertical offset [offset] on: scroll, wait, capture, and the next scroll
    goes down by the height of the tile just captured. *)
Fixpoint tile_requests (scroll_x screenshot_delay offset : Z)
  (slices : list PIL.Image) : list command :=
  match slices with
  | [] => []
  | img :: rest =>
      ExecuteScript (ScrollTo scroll_x offset) :: Sleep screenshot_delay
      :: GetScreenshotAsPng
      :: tile_requests scroll_x screenshot_delay (offset + PIL.height img) rest
  end.

(** The images of the screenshots taken among the requests [t] made
    after [h], in the order they were taken. *)
Fixpoint captured `{PIL.Codec} (wd : browser) (h : history) (t : list command)
  : list PIL.Image :=
  match t with
  | [] => []
  | c :: t' =>
      match c with
      | GetScreenshotAsPng =>
          match wd h c with
          | Returns (VBytes b) =>
              match PIL.open b with
              | Ok img => [img]
              | _ => []
              end
          | _ => []
          end
      | _ => []
      end ++ captured wd (h ++ [c]) t'
  end.

(** Scripts that read a number from the page. *)
Definition is_read (s : script) : bool :=
  match s with
  | Return _ | ChromeOffset | InnerHeight | OuterHeight => true
  | ScrollTo _ _ | SetBodyHeight _ => false
  end.

(** A session without faults: no request throws, every read gives an
    integer, every screenshot is a payload the codec opens. *)
Record healthy `{PIL.Codec} (wd : browser) : Prop :=
  { never_throws : forall h c, wd h c <> Throws;
    reads_int : forall h s, is_read s = true ->
                  exists z, wd h (ExecuteScript s) = Returns (VInt z);
    shots_open : forall h, exists b img,
                  wd h GetScreenshotAsPng = Returns (VBytes b) /\
                  PIL.open b = Ok img }.

(** ** Sessions and a codec to run the code on *)

Module Fixtures.

(** A codec for runs: a payload of [n] bytes opens as an RGB image 980
    wide and [1000 * n] high; saving gives the PNG signature byte; the
    machine has memory for images of up to 2^30 pixels. *)
#[export] Instance codec : PIL.Codec :=
  {| PIL.open := fun b =>
       Ok {| PIL.mode := "RGB"; PIL.size := (980, 1000 * N.of_nat (List.length b))%N |};
     PIL.save := fun _ _ => Ok [Byte.x89];
     PIL.allocates := fun _ sz => fst sz * snd sz <=? 2 ^ 30 |}.

Definition tile (n : nat) : bytes := repeat Byte.x00 n.

(** The height given by the last resize in [h]; [current] before any. *)
Fixpoint window_height (h : history) (current : Z) : Z :=
  match h with
  | [] => current
  | SetWindowSize _ x :: h' => window_height h' x
  | _ :: h' => window_height h' current
  end.

(** A page whose height metrics read [page h] after the requests [h], in a
    window of inner height [inner h] without chrome, whose screenshots are
    [shot] thousand pixels high; [fault h c] makes the request [c] made
    after [h] throw. *)
Definition session (page : history -> Z) (inner : history -> Z) (shot : nat)
  (fault : history -> command -> bool) : browser :=
  fun h c =>
    if fault h c then Throws
    else
      match c with
      | ExecuteScript (Return _) => Returns (VInt (page h))
      | ExecuteScript ChromeOffset => Returns (VInt 0)
      | ExecuteScript InnerHeight => Returns (VInt (inner h))
      | ExecuteScript OuterHeight => Returns (VInt (inner h))
      | ExecuteScript (ScrollTo _ _) => Returns VNone
      | ExecuteScript (SetBodyHeight _) => Returns VNone
      | SetWindowSize _ _ => Returns VNone
      | GetScreenshotAsPng => Returns (VBytes (tile shot))
      | Sleep _ => Returns VNone
      end.

Definition no_fault : history -> command -> bool := fun _ _ => false.

(** A static page of height [page]; screenshots are 15000 high. *)
Definition static_page (page : Z) : browser :=
  session (fun _ => page) (fun _ => 15000) 15 no_fault.

(** Every probe reads [document.documentElement.scrollHeight] last: the
    number of height readings completed in [h]. *)
Definition is_last_metric (c : command) : bool :=
  match c with
  | ExecuteScript (Return documentElement_scrollHeight) => true
  | _ => false
  end.

Definition readings (h : history) : nat := List.length (filter is_last_metric h).

(** A page that gives the sequence [rs] of height readings: all the
    metrics of reading number [k] are [rs k]. *)
Definition scripted (rs : nat -> Z) : browser :=
  session (fun h => rs (readings h)) (fun _ => 15000) 15 no_fault.

(** A page that grows between any two readings: 2000, 4000, 6000, ... *)
Definition growing (k : nat) : Z := 2000 * (Z.of_nat k + 1).
Definition growing_page : browser := scripted growing.

(** A static page whose driver throws on the capture that follows [n]
    earlier captures. *)
Definition flaky_page (page : Z) (n : nat) : browser :=
  session (fun _ => page) (fun _ => 15000) 15
    (fun h c => is_capture c && (captures h =? n)%nat).

(** A static page in a window that renders 14000 pixels per screenshot. *)
Definition short_window_page (page : Z) : browser :=
  session (fun _ => page) (fun _ => 14000) 14 no_fault.

(** A static page in a window whose inner height follows the last resize. *)
Definition resizable_page (page : Z) : browser :=
  session (fun _ => page) (fun h => window_height h 900) 15 no_fault.

(** A handler on a session, with default [kwargs]; the automation
    strategy is not available. *)
Definition handler_on (wd : browser) : BrowserHandler.handler :=
  {| BrowserHandler.webdriver := wd;
     BrowserHandler.kwargs := fun _ => None;
     BrowserHandler.__get_screenshot_using_automation :=
       fun _ _ _ _ _ => raise TypeError |}.

(** A static page whose driver throws on every read of the chrome
    offset. *)
Definition chrome_fault_page (page : Z) : browser :=
  session (fun _ => page) (fun _ => 15000) 15
    (fun _ c => match c with
                | ExecuteScript ChromeOffset => true
                | _ => false
                end).

(** A page that settles on its second turn: readings 100, 200, 300, 300,
    300, ... *)
Definition settling (k : nat) : Z :=
  if (k <? 2)%nat then 100 * (Z.of_nat k + 1) else 300.

(** A static page whose screenshots are payloads of 1200 bytes. *)
Definition large_shot_page (page : Z) : browser :=
  session (fun _ => page) (fun _ => 15000) 1200 no_fault.

End Fixtures.

(** ** The rest of [BrowserHandler]: the driver and the machine it runs on

    The methods below also switch frames, click, read the page source, run
    [xdotool] and touch the file system. Their requests go to a host that
    answers the driver requests modelled above and the calls listed here,
    again from the history of all the requests made so far. *)

Module Host.

(** The JavaScript snippets of these methods:
    - [AllHrefs]       : the script of [get_page_links];
    - [SrcUrls]        : the script of [get_page_src_urls];
    - [ViewportHeight] : ["return Math.max(document.documentElement.clientHeight
                           || 0, window.innerHeight || 0);"];
    - [PageYOffset]    : ["return window.pageYOffset;"]. *)
Inductive js : Set :=
| AllHrefs
| SrcUrls
| ViewportHeight
| PageYOffset.

(** Calls answered by the host besides the driver requests of [command];
    [Wait ms] is [time.sleep], in milliseconds. *)
Inductive call : Type :=
| ExecuteJs (s : js)
| PageSource
| Close
| Quit
| SwitchToFrame (name : string)
| SwitchToDefaultContent
| FindElementByClassName (name : string)
| Click (name : string)
| GetWindowSize
| Subprocess (cmd : string)
| Listdir (path : option string)
| OpenRead (path : string)
| Rmtree (path : option string)
| PathExists (path : string)
| Wait (ms : Z).

Inductive request : Type :=
| Driver (c : command)
| Os (c : call).

(** Python objects that come back from a call. *)
Inductive data : Type :=
| DNone
| DInt (z : Z)
| DStr (s : string)
| DBytes (b : bytes)
| DStrings (l : list string)
| DBool (b : bool)
| DSize (width height : Z)
| DElement.

(** Exceptions: the ones of the capture code, and those these methods
    meet or raise themselves; [PlainException] is [raise Exception(...)]. *)
Inductive error : Set :=
| Builtin (e : exn)
| AttributeError
| UnboundLocalError
| FileNotFoundError
| OSError
| CalledProcessError
| PlainException.

Inductive answer : Type :=
| Gives (d : data)
| Fails (e : error).

Inductive result (A : Type) : Type :=
| Done (a : A)
| Raised (e : error)
| Stuck.
Arguments Done {A} a.
Arguments Raised {A} e.
Arguments Stuck {A}.

(** The host: how it answers the driver requests of the capture code and
    the other calls, after the requests made so far. *)
Record world : Type :=
  { on_driver : list request -> command -> reply;
    on_call : list request -> call -> answer }.

Definition H (A : Type) : Type := list request -> result A * list request.

Definition hret {A} (a : A) : H A := fun _ => (Done a, []).

Definition hraise {A} (e : error) : H A := fun _ => (Raised e, []).

Definition hbind {A B} (m : H A) (f : A -> H B) : H B := fun h =>
  match m h with
  | (Done a, t) => let (r, t') := f a (h ++ t) in (r, t ++ t')
  | (Raised e, t) => (Raised e, t)
  | (Stuck, t) => (Stuck, t)
  end.

(** [try: m  except ...: handler e] *)
Definition htry {A} (m : H A) (handler : error -> H A) : H A := fun h =>
  match m h with
  | (Raised e, t) => let (r, t') := handler e (h ++ t) in (r, t ++ t')
  | rt => rt
  end.

(** [try: m  finally: cleanup]: the cleanup runs after [m] however it
    ends; an exception of the cleanup replaces the outcome of [m]. *)
Definition hfinally {A} (m : H A) (cleanup : H unit) : H A := fun h =>
  let (r, t) := m h in
  match r with
  | Stuck => (Stuck, t)
  | _ =>
      match cleanup (h ++ t) with
      | (Done _, t') => (r, t ++ t')
      | (Raised e, t') => (Raised e, t ++ t')
      | (Stuck, t') => (Stuck, t ++ t')
      end
  end.

Declare Scope host_scope.
Delimit Scope host_scope with host.
Notation "x <- m ;; k" := (hbind m (fun x => k))
  (at level 61, m at next level, right associativity) : host_scope.
Notation "' p <- m ;; k" := (hbind m (fun x => match x with p => k end))
  (at level 61, p pattern, m at next level, right associativity) : host_scope.
Notation "m ;; k" := (hbind m (fun _ => k))
  (at level 61, right associativity) : host_scope.
Local Open Scope host_scope.

Definition ask (w : world) (c : call) : H data := fun h =>
  match on_call w h c with
  | Gives d => (Done d, [Os c])
  | Fails e => (Raised e, [Os c])
  end.

(** [time.sleep(seconds)], recorded in milliseconds: a duration beyond
    the clock's signed 64-bit count of nanoseconds (more than 9223372036
    seconds either way) raises [OverflowError], a negative one
    [ValueError]. *)
Definition time_sleep (ms : Z) : H unit := fun _ =>
  if 9223372036000 <? Z.abs ms then (Raised (Builtin OverflowError), [])
  else if ms <? 0 then (Raised (Builtin ValueError), [])
  else (Done tt, [Os (Wait ms)]).

Definition of_outcome {A} (o : outcome A) : result A :=
  match o with
  | Ok a => Done a
  | Raise e => Raised (Builtin e)
  | Diverge => Stuck
  end.

(** A piece of the capture code run on the host: its session answers from
    the history of the host. *)
Definition of_driver {A} (w : world) (m : browser -> M A) : H A := fun h =>
  let wd : browser := fun t c => on_driver w (h ++ map Driver t) c in
  let (r, t) := m wd [] in
  (of_outcome r, map Driver t).

Fixpoint hwhile {S} (fuel : nat) (cond : S -> bool) (body : S -> H (ctl S))
  (s : S) : H S :=
  match fuel with
  | O => if cond s then (fun _ => (Stuck, [])) else hret s
  | Datatypes.S fuel' =>
      if cond s then
        r <- body s ;;
        match r with
        | Continue s' => hwhile fuel' cond body s'
        | Break s' => hret s'
        end
      else hret s
  end.

(** [for _ in range(n): body] *)
Fixpoint for_range (n : nat) (body : H unit) : H unit :=
  match n with
  | O => hret tt
  | S n' => body ;; for_range n' body
  end.

Definition as_strings (d : data) : H (list string) :=
  match d with
  | DStrings l => hret l
  | _ => hraise (Builtin TypeError)
  end.

Definition as_bytes (d : data) : H bytes :=
  match d with
  | DBytes b => hret b
  | _ => hraise (Builtin TypeError)
  end.

(** [a == b] on the objects that come back from scripts. *)
Definition bool_int (b : bool) : Z := if b then 1 else 0.

Definition data_eqb (a b : data) : bool :=
  match a, b with
  | DNone, DNone => true
  | DInt x, DInt y => x =? y
  | DInt x, DBool y => x =? bool_int y
  | DBool x, DInt y => bool_int x =? y
  | DBool x, DBool y => Bool.eqb x y
  | DStr x, DStr y => String.eqb x y
  | DBytes x, DBytes y =>
      if list_eq_dec Byte.byte_eq_dec x y then true else false
  | DStrings x, DStrings y =>
      if list_eq_dec string_dec x y then true else false
  | DSize w1 h1, DSize w2 h2 => (w1 =? w2) && (h1 =? h2)
  | DElement, DElement => true
  | _, _ => false
  end.

(** [os.path.join(directory, name)] on POSIX paths; [None] as the
    directory raises [TypeError]. *)
Definition ends_with_slash (s : string) : bool :=
  String.eqb (String.substring (String.length s - 1) 1 s) "/".

Definition path_join (directory : option string) (name : string) : H string :=
  match directory with
  | None => hraise (Builtin TypeError)
  | Some d =>
      if String.prefix "/" name then hret name
      else if (String.length d =? 0)%nat || ends_with_slash d
           then hret (d ++ name)%string
           else hret (d ++ "/" ++ name)%string
  end.

(** [wd.execute_script(script)] of the capture code, under the name it has
    next to the method [execute_script] of the handler. *)
Definition webdriver_execute_script (wd : browser) (s : script) : M value :=
  execute_script wd s.

(** The fields of [self] these methods read. *)
Record handler : Type :=
  { webdriver_is_set : bool;
    tmp_ss_dir : option string;
    zoom_out : option (list (option Z));
    browser_profile_loc : option string }.

(** [self.webdriver.<call>]: on [None] the attribute lookup raises. *)
Definition driver_call (self : handler) (w : world) (c : call) : H data :=
  if webdriver_is_set self then ask w c else hraise AttributeError.

(** [self.webdriver.<request>] for the requests of the capture code. *)
Definition with_webdriver {A} (self : handler) (w : world)
  (m : browser -> M A) : H A :=
  if webdriver_is_set self then of_driver w m else hraise AttributeError.

(** A method of the capture code; its [execute_script] raises [TypeError]
    on a handler without webdriver. *)
Definition capture_method {A} (self : handler) (w : world)
  (m : browser -> M A) : H A :=
  if webdriver_is_set self then of_driver w m else hraise (Builtin TypeError).

(** [execute_script(self, script, *args)] *)
Definition execute_script (self : handler) (w : world) (s : js) : H data :=
  if webdriver_is_set self then ask w (ExecuteJs s)
  else hraise (Builtin TypeError).

(** The three retried lookups. The state of each loop is the value found
    so far and [retry]. *)

(** [get_page_links(self)] *)
Definition get_page_links (fuel : nat) (self : handler) (w : world) : H data :=
  '(links, _) <-
    hwhile fuel (fun '(links, retry) => 0 <? retry)
      (fun '(links, retry) =>
         htry (links' <- execute_script self w AllHrefs ;;
               hret (Break (links', retry)))
           (fun e => hret (Continue (links, retry - 1))))
      (DStrings [], 3) ;;
  hret links.

(** [get_page_src_urls(self)] *)
Definition get_page_src_urls (fuel : nat) (self : handler) (w : world) : H data :=
  '(src_urls, _) <-
    hwhile fuel (fun '(src_urls, retry) => 0 <? retry)
      (fun '(src_urls, retry) =>
         htry (src_urls' <- execute_script self w SrcUrls ;;
               hret (Break (src_urls', retry)))
           (fun e => hret (Continue (src_urls, retry - 1))))
      (DStrings [], 3) ;;
  hret src_urls.

(** [get_page_source(self)]; it sleeps half a second after a failure. *)
Definition get_page_source (fuel : nat) (self : handler) (w : world) : H data :=
  '(page_source, _) <-
    hwhile fuel (fun '(page_source, retry) => 0 <? retry)
      (fun '(page_source, retry) =>
         htry (page_source' <- driver_call self w PageSource ;;
               hret (Break (page_source', retry)))
           (fun e => time_sleep 500 ;;
                     hret (Continue (page_source, retry - 1))))
      (DNone, 3) ;;
  hret page_source.

(** [quit(self)] *)
Definition quit (self : handler) (w : world) : H unit :=
  htry (driver_call self w Quit ;; hret tt) (fun e => hret tt).

(** [os.path.exists(path)]: it never raises. *)
Definition path_exists (w : world) (path : string) : H bool := fun h =>
  match on_call w h (PathExists path) with
  | Gives (DBool true) => (Done true, [Os (PathExists path)])
  | _ => (Done false, [Os (PathExists path)])
  end.

(** [_browser_cleanup(self)] *)
Definition _browser_cleanup (self : handler) (w : world) : H unit :=
  match browser_profile_loc self with
  | None => hraise (Builtin TypeError)
  | Some loc =>
      if (String.length loc =? 0)%nat then hraise (Builtin TypeError)
      else
        found <- path_exists w loc ;;
        if found then
          htry (ask w (Rmtree (Some loc)) ;; hret tt) (fun e => hret tt)
        else hraise (Builtin TypeError)
  end.

(** [close(self, clean=True)] *)
Definition close (self : handler) (w : world) (clean : bool) : H unit :=
  htry (driver_call self w Close ;; hret tt) (fun e => hret tt) ;;
  if clean then _browser_cleanup self w else hret tt.

Definition screenshot_command : string := "xdotool key --delay 100 ctrl+shift+s".
Definition zoom_out_command : string := "xdotool key --delay 100 ctrl+minus".

(** [subprocess.run(cmd, shell=True, check=True)] *)
Definition subprocess_run (w : world) (cmd : string) : H unit :=
  ask w (Subprocess cmd) ;; hret tt.

(** [get_screenshot_xdotool(self)]. [zoom_out self] is the value under
    ['browser_ss_preference']['BrowserAutomation']['zoom_out'], a list
    whose first entry is the number of zoom-out keystrokes. *)
Definition get_screenshot_xdotool (self : handler) (w : world) : H unit :=
  htry
    (let zoom_out_value := zoom_out self in
     match zoom_out_value with
     | Some (Some n :: _) =>
         for_range (Z.to_nat n) (subprocess_run w zoom_out_command)
     | _ => hret tt
     end ;;
     time_sleep 3000 ;;
     subprocess_run w screenshot_command)
    (fun e => match e with
              | CalledProcessError => hret tt
              | _ => hraise e
              end).

Definition preselection_iframe : string := "firefox-screenshots-preselection-iframe".
Definition preview_iframe : string := "firefox-screenshots-preview-iframe".

(** [self.webdriver.find_element_by_class_name(name).click()] *)
Definition click_by_class_name (self : handler) (w : world) (name : string)
  : H unit :=
  driver_call self w (FindElementByClassName name) ;;
  ask w (Click name) ;;
  hret tt.

(** The loop of [browser_click_buttons] that waits for the preselection
    frame; its state is [(retry, success)]. *)
Definition switch_loop (fuel : nat) (self : handler) (w : world)
  : H (Z * bool) :=
  hwhile fuel (fun '(retry, success) => retry <? 6)
    (fun '(retry, success) =>
       htry (driver_call self w (SwitchToFrame preselection_iframe) ;;
             hret (Break (retry, true)))
         (fun e => time_sleep 1000 ;;
                   hret (Continue (retry + 1, success))))
    (1, false).

(** [browser_click_buttons(self, screenshot_delay)]: [True], or [None]
    when the preselection frame never appeared. *)
Definition browser_click_buttons (fuel : nat) (self : handler) (w : world)
  (screenshot_delay : Z) : H (option bool) :=
  time_sleep 1000 ;;
  get_screenshot_xdotool self w ;;
  time_sleep (1000 * screenshot_delay) ;;
  '(_, success) <- switch_loop fuel self w ;;
  click_by_class_name self w "full-page" ;;
  driver_call self w SwitchToDefaultContent ;;
  time_sleep (1000 * screenshot_delay) ;;
  driver_call self w (SwitchToFrame preview_iframe) ;;
  time_sleep 1000 ;;
  click_by_class_name self w "highlight-button-download" ;;
  time_sleep 1000 ;;
  driver_call self w SwitchToDefaultContent ;;
  time_sleep 1000 ;;
  if success then hret (Some true) else hret None.

(** The loop of [get_screenshot_by_automation] that waits for the
    download; its state is [(image_path, retry)], [image_path] being
    unbound ([None]) until a listing has exactly one file. *)
Definition listing_loop (fuel : nat) (w : world) (image_dir_path : option string)
  : H (option string * Z) :=
  hwhile fuel (fun '(image_path, retry) => retry <? 6)
    (fun '(image_path, retry) =>
       files <- (d <- ask w (Listdir image_dir_path) ;; as_strings d) ;;
       match files with
       | [file_name] =>
           image_path' <- path_join image_dir_path file_name ;;
           hret (Break (Some image_path', retry))
       | _ =>
           time_sleep 1000 ;;
           hret (Continue (image_path, retry + 1))
       end)
    (None, 1).

(** [get_screenshot_by_automation(self, screenshot_delay=10)] *)
Definition get_screenshot_by_automation (fuel : nat) (self : handler)
  (w : world) (screenshot_delay : Z) : H (option bytes) :=
  let image_dir_path := tmp_ss_dir self in
  time_sleep (1000 * screenshot_delay) ;;
  '(image_path, _) <- listing_loop fuel w image_dir_path ;;
  hfinally
    (htry
       (path <- match image_path with
                | Some p => hret p
                | None => hraise UnboundLocalError
                end ;;
        png_ss <- (d <- ask w (OpenRead path) ;; as_bytes d) ;;
        hret (Some png_ss))
       (fun e => hret None))
    (htry (ask w (Rmtree image_dir_path) ;; hret tt) (fun e => hret tt)).

(** [self] as the capture code reads it, driving the session [wd];
    [__get_actual_height] reads no other field. *)
Definition capture_self (wd : browser) : BrowserHandler.handler :=
  {| BrowserHandler.webdriver := wd;
     BrowserHandler.kwargs := fun _ => None;
     BrowserHandler.__get_screenshot_using_automation :=
       fun _ _ _ _ _ => raise TypeError |}.

(** [self.webdriver.get_window_size().get('height')] *)
Definition window_height (self : handler) (w : world) : H Z :=
  d <- driver_call self w GetWindowSize ;;
  match d with
  | DSize _ height => hret height
  | _ => hraise (Builtin TypeError)
  end.

(** [offset + view_port_height], the latter as the script returned it. *)
Definition add_height (offset : Z) (view_port_height : data) : H Z :=
  match view_port_height with
  | DInt v => hret (offset + v)
  | DBool b => hret (offset + bool_int b)
  | _ => hraise (Builtin TypeError)
  end.

(** One turn of the scroll loop of [__get_screenshot_using_automation];
    the state is [(offset, orig_page_y_offset, max_height)]. *)
Definition scroll_loop_body (self : handler) (w : world)
  (maximum_length_image max_width screenshot_delay : Z)
  (view_port_height : data) (s : Z * data * Z) : H (ctl (Z * data * Z)) :=
  let '(offset, orig_page_y_offset, max_height) := s in
  let scroll_x := 0 in
  with_webdriver self w
    (fun wd => webdriver_execute_script wd (ScrollTo scroll_x offset)) ;;
  time_sleep (1000 * screenshot_delay) ;;
  page_y_offset <- driver_call self w (ExecuteJs PageYOffset) ;;
  if data_eqb orig_page_y_offset page_y_offset then hret (Break s)
  else
    new_height <-
      capture_method self w
        (fun wd => BrowserHandler.__get_actual_height (capture_self wd)) ;;
    let max_height :=
      if (max_height <? new_height) && (new_height <? maximum_length_image)
      then new_height else max_height in
    win_height <- window_height self w ;;
    with_webdriver self w (fun wd => set_window_size wd max_width win_height) ;;
    offset <- add_height offset view_port_height ;;
    hret (Continue (offset, page_y_offset, max_height)).

Definition scroll_loop (fuel : nat) (self : handler) (w : world)
  (maximum_length_image max_height max_width screenshot_delay : Z)
  (view_port_height : data) : H (Z * data * Z) :=
  hwhile fuel (fun '(offset, _, max_height) => offset <? max_height)
    (scroll_loop_body self w maximum_length_image max_width screenshot_delay
       view_port_height)
    (0, DNone, max_height).

(** [__get_screenshot_using_automation(self, maximum_length_image,
    max_height, max_width, screenshot_delay, debug=False)] *)
Definition __get_screenshot_using_automation (fuel : nat) (self : handler)
  (w : world) (maximum_length_image max_height max_width screenshot_delay : Z)
  (debug : bool) : H (option bytes) :=
  let max_height :=
    if maximum_length_image <? max_height then maximum_length_image
    else max_height in
  view_port_height <- driver_call self w (ExecuteJs ViewportHeight) ;;
  scroll_loop fuel self w maximum_length_image max_height max_width
    screenshot_delay view_port_height ;;
  with_webdriver self w (fun wd => webdriver_execute_script wd (ScrollTo 0 0)) ;;
  is_success <- browser_click_buttons fuel self w screenshot_delay ;;
  match is_success with
  | Some true => get_screenshot_by_automation fuel self w screenshot_delay
  | _ => hraise PlainException
  end.

(** What a run asked of the host. *)
Definition is_call (c : call) (r : request) : bool :=
  match r, c with
  | Os (ExecuteJs a), ExecuteJs b =>
      match a, b with
      | AllHrefs, AllHrefs | SrcUrls, SrcUrls
      | ViewportHeight, ViewportHeight | PageYOffset, PageYOffset => true
      | _, _ => false
      end
  | Os PageSource, PageSource => true
  | Os (SwitchToFrame a), SwitchToFrame b => String.eqb a b
  | Os (Subprocess a), Subprocess b => String.eqb a b
  | Os (Listdir _), Listdir _ => true
  | Os (OpenRead _), OpenRead _ => true
  | Os (Rmtree _), Rmtree _ => true
  | _, _ => false
  end.

Definition calls (c : call) (t : list request) : nat :=
  List.length (filter (is_call c) t).

Definition is_page_scroll (r : request) : bool :=
  match r with
  | Driver c => is_scroll c
  | Os _ => false
  end.

Definition page_scrolls (t : list request) : nat :=
  List.length (filter is_page_scroll t).

(** [Q] holds of the result and of the requests of [m] run after [h]. *)
Definition hpost {A} (m : H A) (h : list request)
  (Q : result A -> list request -> Prop) : Prop :=
  Q (fst (m h)) (snd (m h)).

(** The requests of [n] failed attempts at the call [c], each followed by
    the requests [pause]. *)
Definition failed_attempts (c : call) (pause : list request) (n : nat)
  : list request :=
  List.concat (repeat (Os c :: pause) n).

(** A retried lookup [run] of the call [c]: [n] attempts fail, each
    followed by the requests [pause]; when [n < 3] the next attempt is
    answered and that answer is the result; after three failures the
    result is [default]. *)
Definition retried (c : call) (pause : list request) (default : data)
  (run : H data) (w : world) (h : list request) : Prop :=
  exists n, (n <= 3)%nat /\
    (forall j, (j < n)%nat ->
       exists e, on_call w (h ++ failed_attempts c pause j) c = Fails e) /\
    if (n <? 3)%nat then
      exists d,
        on_call w (h ++ failed_attempts c pause n) c = Gives d /\
        run h = (Done d, failed_attempts c pause n ++ [Os c])
    else
      run h = (Done default, failed_attempts c pause 3).

End Host.

Notation "x <- m ;; k" := (Host.hbind m (fun x => k))
  (at level 61, m at next level, right associativity) : host_scope.
Notation "' p <- m ;; k" := (Host.hbind m (fun x => match x with p => k end))
  (at level 61, p pattern, m at next level, right associativity) : host_scope.
Notation "m ;; k" := (Host.hbind m (fun _ => k))
  (at level 61, right associativity) : host_scope.

(** A host for runs. *)
Module HostFixtures.

(** The driver requests among the requests made so far. *)
Definition driver_history (h : list Host.request) : history :=
  flat_map (fun r => match r with
                     | Host.Driver c => [c]
                     | Host.Os _ => []
                     end) h.

(** A host whose browser window is 900 pixels high and moves at every
    scroll, whose scripts and page source fail on the first attempt, whose
    download directory is empty at the first listing and holds
    [shot.png] afterwards, and that accepts everything else. *)
Definition answers (h : list Host.request) (c : Host.call) : Host.answer :=
  match c with
  | Host.ExecuteJs Host.ViewportHeight => Host.Gives (Host.DInt 900)
  | Host.ExecuteJs Host.PageYOffset =>
      Host.Gives (Host.DInt (Z.of_nat (List.length h)))
  | Host.ExecuteJs _ | Host.PageSource =>
      if (Host.calls c h =? 0)%nat
      then Host.Fails (Host.Builtin WebDriverException)
      else Host.Gives (Host.DStrings ["https://example.org/style.css"%string])
  | Host.Listdir _ =>
      if (Host.calls c h =? 0)%nat then Host.Gives (Host.DStrings [])
      else Host.Gives (Host.DStrings ["shot.png"%string])
  | Host.OpenRead _ => Host.Gives (Host.DBytes (Fixtures.tile 3))
  | Host.GetWindowSize => Host.Gives (Host.DSize 1366 900)
  | _ => Host.Gives Host.DNone
  end.

Definition host (wd : browser) : Host.world :=
  {| Host.on_driver := fun h c => wd (driver_history h) c;
     Host.on_call := answers |}.

Definition self : Host.handler :=
  {| Host.webdriver_is_set := true;
     Host.tmp_ss_dir := Some "/tmp/ss"%string;
     Host.zoom_out := Some [Some 2];
     Host.browser_profile_loc := Some "/tmp/profile"%string |}.

End HostFixtures.

(** * Properties *)

(** ** Running the monad *)

Lemma bind_Ok {A B} (m : M A) (f : A -> M B) h a t :
  m h = (Ok a, t) ->
  bind m f h = (fst (f a (h ++ t)), t ++ snd (f a (h ++ t))).
Proof. intros E. unfold bind. rewrite E. destruct (f a (h ++ t)); reflexivity. Qed.

Lemma bind_Raise {A B} (m : M A) (f : A -> M B) h e t :
  m h = (Raise e, t) -> bind m f h = (Raise e, t).
Proof. intros E. unfold bind. rewrite E. reflexivity. Qed.

Lemma bind_Diverge {A B} (m : M A) (f : A -> M B) h t :
  m h = (Diverge, t) -> bind m f h = (Diverge, t).
Proof. intros E. unfold bind. rewrite E. reflexivity. Qed.

Lemma captures_app t1 t2 : captures (t1 ++ t2) = (captures t1 + captures t2)%nat.
Proof. unfold captures. rewrite filter_app, length_app. reflexivity. Qed.

Lemma scrolls_app t1 t2 : scrolls (t1 ++ t2) = (scrolls t1 + scrolls t2)%nat.
Proof. unfold scrolls. rewrite filter_app, length_app. reflexivity. Qed.

Lemma captures_nil : captures [] = 0%nat.
Proof. reflexivity. Qed.

Lemma scrolls_nil : scrolls [] = 0%nat.
Proof. reflexivity. Qed.

Lemma captures_cons c t :
  captures (c :: t) = ((if is_capture c then 1 else 0) + captures t)%nat.
Proof. unfold captures. cbn [filter]. destruct (is_capture c); reflexivity. Qed.

Lemma scrolls_cons c t :
  scrolls (c :: t) = ((if is_scroll c then 1 else 0) + scrolls t)%nat.
Proof. unfold scrolls. cbn [filter]. destruct (is_scroll c); reflexivity. Qed.

(** ** Postconditions of runs *)

Lemma post_ret {A} (a : A) h Q : Q (Ok a) [] -> post (ret a) h Q.
Proof. exact (fun q => q). Qed.

Lemma post_raise {A} e h (Q : outcome A -> _) : Q (Raise e) [] -> post (raise e) h Q.
Proof. exact (fun q => q). Qed.

Lemma post_lift {A} (o : outcome A) h Q : Q o [] -> post (lift o) h Q.
Proof. exact (fun q => q). Qed.

Lemma post_sleep d h Q :
  (forall e, e = OverflowError \/ e = ValueError ->
             ~ 0 <= d <= 9223372036 -> Q (Raise e) []) ->
  (0 <= d <= 9223372036 -> Q (Ok tt) [Sleep d]) ->
  post (time_sleep d) h Q.
Proof.
  intros Hn Hp. unfold post, time_sleep.
  destruct (Z.ltb_spec 9223372036 (Z.abs d)); cbn; [apply Hn; auto; lia|].
  destruct (Z.ltb_spec d 0); cbn; [apply Hn; auto; lia|apply Hp; lia].
Qed.

Lemma post_sleep_nonneg d h Q :
  0 <= d <= 9223372036 -> Q (Ok tt) [Sleep d] -> post (time_sleep d) h Q.
Proof. intros Hd HQ. apply post_sleep; [intros; lia|auto]. Qed.

Lemma time_sleep_nonneg d h :
  0 <= d <= 9223372036 -> time_sleep d h = (Ok tt, [Sleep d]).
Proof.
  intros Hd. unfold time_sleep.
  destruct (Z.ltb_spec 9223372036 (Z.abs d)); [lia|].
  destruct (Z.ltb_spec d 0); [lia|reflexivity].
Qed.

(** *** The float quotient of operands below 2^53

    The rounded mantissa is within one half of the scaled quotient. *)
Lemma round_half_even_near n d :
  0 <= n -> 0 < d ->
  2 * n - d <= 2 * d * round_half_even n d <= 2 * n + d.
Proof.
  intros Hn Hd. unfold round_half_even. cbv zeta.
  pose proof (Z.div_mod n d ltac:(lia)) as E.
  pose proof (Z.mod_pos_bound n d Hd) as Hr.
  set (q := n / d) in *. set (r := n mod d) in *.
  destruct (Z.ltb_spec (2 * r) d); [nia|].
  destruct (Z.ltb_spec d (2 * r)); [nia|].
  destruct (Z.even q); nia.
Qed.

Lemma round_half_even_floor A B P :
  0 <= A -> 0 < B -> 0 < P -> B < 2 * P ->
  round_half_even (A * P) B / P = A / B.
Proof.
  intros HA HB HP HBP.
  pose proof (round_half_even_near (A * P) B ltac:(nia) HB) as Hm.
  set (m := round_half_even (A * P) B) in *.
  pose proof (Z.div_mod A B ltac:(lia)) as E.
  pose proof (Z.mod_pos_bound A B HB) as Hr.
  set (q := A / B) in *. set (r := A mod B) in *.
  symmetry. apply (Z.div_unique m P q (m - P * q)); [left|lia].
  assert (E1 : A * P = B * (q * P) + r * P) by (rewrite E; ring).
  assert (0 <= r * P) by nia.
  assert (r * P <= (B - 1) * P) by nia.
  assert (Hlo : B * (q * P - 1) < B * m) by nia.
  assert (Hhi : B * m < B * ((q + 1) * P)) by nia.
  apply Z.mul_lt_mono_pos_l in Hlo; [|lia].
  apply Z.mul_lt_mono_pos_l in Hhi; [|lia].
  lia.
Qed.

Lemma round_half_even_ceil A B P :
  0 <= A -> 0 < B -> 0 < P -> B < 2 * P ->
  (- round_half_even (A * P) B) / P = (- A) / B.
Proof.
  intros HA HB HP HBP.
  pose proof (round_half_even_near (A * P) B ltac:(nia) HB) as Hm.
  set (m := round_half_even (A * P) B) in *.
  pose proof (Z.div_mod A B ltac:(lia)) as E.
  pose proof (Z.mod_pos_bound A B HB) as Hr.
  set (q := A / B) in *. set (r := A mod B) in *.
  assert (E1 : A * P = B * (q * P) + r * P) by (rewrite E; ring).
  assert (0 <= r * P) by nia.
  assert (r * P <= (B - 1) * P) by nia.
  destruct (Z.eq_dec r 0) as [Hr0|Hr0].
  - assert (Hlo : B * (q * P - 1) < B * m) by nia.
    assert (Hhi : B * m < B * (q * P + 1)) by nia.
    apply Z.mul_lt_mono_pos_l in Hlo; [|lia].
    apply Z.mul_lt_mono_pos_l in Hhi; [|lia].
    rewrite <- (Z.div_unique (- m) P (- q) 0); [|lia|lia].
    apply (Z.div_unique (- A) B (- q) 0); lia.
  - assert (P <= r * P) by nia.
    assert (Hlo : B * (q * P) < B * m) by nia.
    assert (Hhi : B * m < B * ((q + 1) * P)) by nia.
    apply Z.mul_lt_mono_pos_l in Hlo; [|lia].
    apply Z.mul_lt_mono_pos_l in Hhi; [|lia].
    rewrite <- (Z.div_unique (- m) P (- (q + 1)) ((q + 1) * P - m)); [|lia|lia].
    apply (Z.div_unique (- A) B (- (q + 1)) (B - r)); lia.
Qed.

(** On operands below 2^53 in magnitude the float quotient floors to the
    integer quotient. *)
Lemma float_floor_exact a b :
  b <> 0 -> Z.abs a < 2 ^ 53 -> Z.abs b < 2 ^ 53 ->
  float_floor a b = Ok (a / b).
Proof.
  intros Hb Ha Hb'. unfold float_floor. cbv zeta.
  set (A := Z.abs a) in *. set (B := Z.abs b) in *.
  assert (HB : 0 < B) by (unfold B; lia).
  destruct (Z.eqb_spec A 0) as [HA0|HA0].
  { assert (a = 0) by (unfold A in HA0; lia). subst a. reflexivity. }
  assert (HA : 0 < A) by (unfold A in *; lia).
  assert (Hbig : 2 ^ 53 < 2 ^ 1075) by (apply Z.pow_lt_mono_r; lia).
  destruct (Z.leb_spec (A * 2 ^ 1075) B) as [Hle|_]; [nia|].
  assert (HlA : 0 <= Z.log2 A < 53)
    by (split; [apply Z.log2_nonneg|apply Z.log2_lt_pow2; lia]).
  assert (HlB : 0 <= Z.log2 B < 53)
    by (split; [apply Z.log2_nonneg|apply Z.log2_lt_pow2; lia]).
  pose proof (Z.log2_spec B HB) as HsB.
  set (e0 := Z.log2 A - Z.log2 B - 52).
  set (e1 := if fst (scaled A B e0) <? 2 ^ 52 * snd (scaled A B e0)
             then e0 - 1 else e0).
  assert (He1 : - 105 <= e1 <= 0 /\ Z.log2 B <= - e1).
  { unfold e1, e0. destruct (_ <? _); lia. }
  clearbody e1. clear e0. destruct He1 as [He1 Hk].
  rewrite (Z.max_l e1 (- 1074)) by lia.
  assert (HP : B < 2 * 2 ^ (- e1)).
  { rewrite <- Z.pow_succ_r by lia.
    eapply Z.lt_le_trans; [apply HsB|].
    apply Z.pow_le_mono_r; lia. }
  assert (HP0 : 0 < 2 ^ (- e1)) by (apply Z.pow_pos_nonneg; lia).
  assert (Hsign : forall m,
            m / 2 ^ (- e1) = A / B -> (- m) / 2 ^ (- e1) = (- A) / B ->
            (if xorb (a <? 0) (b <? 0) then - m else m) / 2 ^ (- e1) = a / b).
  { intros m Hf Hc. unfold A, B in Hf, Hc.
    destruct (Z.ltb_spec a 0), (Z.ltb_spec b 0); cbn [xorb].
    - rewrite Hf, Z.abs_neq, Z.abs_neq by lia. apply Z.div_opp_opp. lia.
    - rewrite Hc, Z.abs_neq, Z.abs_eq by lia. rewrite Z.opp_involutive. reflexivity.
    - rewrite Hc, Z.abs_eq, Z.abs_neq by lia. apply Z.div_opp_opp. lia.
    - rewrite Hf, Z.abs_eq, Z.abs_eq by lia. reflexivity. }
  unfold scaled. destruct (Z.leb_spec 0 e1) as [Hz|Hneg].
  - assert (e1 = 0) by lia. subst e1. cbn [fst snd andb].
    change (- 0) with 0 in *. change (2 ^ 0) with 1 in *.
    rewrite !Z.mul_1_r.
    pose proof (round_half_even_near A B ltac:(lia) HB) as Hm.
    set (m := round_half_even A B) in *.
    assert (Hm' : m < 2 ^ 1024).
    { assert (2 ^ 53 < 2 ^ 1024) by (apply Z.pow_lt_mono_r; lia). nia. }
    destruct (Z.leb_spec (2 ^ 1024) m); [lia|].
    f_equal.
    rewrite <- (Z.div_1_r (if xorb (a <? 0) (b <? 0) then - m else m)).
    apply Hsign; unfold m; rewrite <- (Z.mul_1_r A) at 1.
    + apply round_half_even_floor; lia.
    + apply round_half_even_ceil; lia.
  - cbn [fst snd andb]. f_equal.
    apply Hsign.
    + apply round_half_even_floor; lia.
    + apply round_half_even_ceil; lia.
Qed.

(** Above 2^53 the float quotient can floor to another integer than the
    exact quotient, and a quotient beyond the floats raises. *)
Lemma float_floor_beyond_range :
  float_floor (2 ^ 54 - 1) (2 ^ 53) = Ok 2 /\ (2 ^ 54 - 1) / 2 ^ 53 = 1 /\
  float_floor (10 ^ 400) 1 = Raise OverflowError /\
  float_floor (- 1) (10 ^ 300) = Ok (- 1) /\
  float_floor (- 1) (10 ^ 400) = Ok 0.
Proof. repeat split; vm_compute; reflexivity. Qed.

Lemma floor_div_exact a b h :
  b <> 0 -> Z.abs a < 2 ^ 53 -> Z.abs b < 2 ^ 53 ->
  floor_div a b h = (Ok (a / b), []).
Proof.
  intros Hb Ha Hb'. unfold floor_div.
  destruct (Z.eqb_spec b 0); [contradiction|].
  unfold lift. rewrite float_floor_exact by assumption. reflexivity.
Qed.

Lemma post_call wd c h Q :
  (forall v, wd h c = Returns v -> Q (Ok v) [c]) ->
  (wd h c = Throws -> Q (Raise WebDriverException) [c]) ->
  post (call wd c) h Q.
Proof.
  intros Hv Ht. unfold post, call. destruct (wd h c) as [v|]; simpl; auto.
Qed.

Lemma post_bind {A B} (m : M A) (f : A -> M B) h Q :
  post m h (fun r t =>
    match r with
    | Ok a => post (f a) (h ++ t) (fun r' t' => Q r' (t ++ t'))
    | Raise e => Q (Raise e) t
    | Diverge => Q Diverge t
    end) ->
  post (bind m f) h Q.
Proof.
  unfold post, bind. destruct (m h) as [[a|e|] t]; simpl; auto.
  destruct (f a (h ++ t)); simpl; auto.
Qed.

Lemma post_try {A} (m : M A) handler h Q :
  post m h (fun r t =>
    match r with
    | Raise e => post (handler e) (h ++ t) (fun r' t' => Q r' (t ++ t'))
    | _ => Q r t
    end) ->
  post (try_except m handler) h Q.
Proof.
  unfold post, try_except. destruct (m h) as [[a|e|] t]; simpl; auto.
  destruct (handler e (h ++ t)); simpl; auto.
Qed.

Lemma post_weaken {A} (m : M A) h (Q Q' : outcome A -> list command -> Prop) :
  post m h Q -> (forall r t, Q r t -> Q' r t) -> post m h Q'.
Proof. unfold post. auto. Qed.

Lemma post_eq {A} (m : M A) h r t Q : m h = (r, t) -> Q r t -> post m h Q.
Proof. unfold post. intros ->. auto. Qed.

Ltac step :=
  lazymatch goal with
  | |- post (bind _ _) _ _ => apply post_bind
  | |- post (ret _) _ _ => apply post_ret
  | |- post (raise _) _ _ => apply post_raise
  | |- post (lift _) _ _ => apply post_lift
  | |- post (time_sleep _) _ _ =>
      first [apply post_sleep_nonneg; [lia|]
            |apply post_sleep; [intros ? ? ?|intros ?]]
  | |- post (call _ _) _ _ => apply post_call; [intros ? ?|intros ?]
  | |- post (try_except _ _) _ _ => apply post_try
  | |- post (execute_script _ _) _ _ => unfold execute_script at 1
  | |- post (set_window_size _ _ _) _ _ => unfold set_window_size at 1
  | |- post (get_screenshot_as_png _) _ _ => unfold get_screenshot_as_png at 1
  | |- post (capture_image _) _ _ => unfold capture_image at 1
  | |- post (int ?v) _ _ => destruct v; unfold int at 1
  | |- post (floor_div _ _) _ _ => unfold floor_div at 1
  | |- post (py_mod _ _) _ _ => unfold py_mod at 1
  | |- post (if ?b then _ else _) _ _ => destruct b eqn:?
  | |- post (match ?x with _ => _ end) _ _ => destruct x eqn:?
  end; cbn beta iota.

Ltac steps := repeat step.

Ltac count_requests :=
  cbn beta in *;
  repeat first
    [ rewrite scrolls_app | rewrite captures_app
    | rewrite scrolls_cons | rewrite captures_cons
    | rewrite scrolls_nil | rewrite captures_nil ];
  cbn [is_scroll is_capture];
  try lia.

(** ** Loops *)

Lemma while_more_fuel {S} (cond : S -> bool) (body : S -> M (ctl S)) :
  forall fuel fuel' s h,
    (fuel <= fuel')%nat ->
    fst (while fuel cond body s h) <> Diverge ->
    while fuel' cond body s h = while fuel cond body s h.
Proof.
  induction fuel as [|fuel IH]; intros fuel' s h Hle Hnd.
  - simpl in *. destruct (cond s) eqn:E; [exfalso; apply Hnd; reflexivity|].
    destruct fuel'; simpl; rewrite E; reflexivity.
  - destruct fuel' as [|fuel']; [lia|]. simpl in *.
    destruct (cond s) eqn:E; [|reflexivity].
    unfold bind in *. destruct (body s h) as [[[s'|s']|e|] t]; try reflexivity.
    rewrite (IH fuel' s' (h ++ t)); [reflexivity|lia|].
    destruct (while fuel cond body s' (h ++ t)) as [r t'] eqn:E'. simpl in *. exact Hnd.
Qed.

(** ** The merge *)

Section Merge.
Context `{PIL.Codec}.

Lemma height_nonneg (img : PIL.Image) : 0 <= PIL.height img.
Proof. unfold PIL.height. lia. Qed.

Lemma heights_cons img l : heights (img :: l) = PIL.height img + heights l.
Proof. reflexivity. Qed.

Lemma heights_nonneg slices : 0 <= heights slices.
Proof.
  induction slices as [|img l IH].
  - unfold heights. simpl. lia.
  - rewrite heights_cons. pose proof (height_nonneg img). lia.
Qed.

Lemma heights_app l1 l2 : heights (l1 ++ l2) = heights l1 + heights l2.
Proof.
  induction l1 as [|img l IH]; simpl.
  - unfold heights. simpl. lia.
  - rewrite !heights_cons, IH. lia.
Qed.

Lemma fold_heights slices : forall total,
  fold_left (fun total image => total + PIL.height image) slices total
  = total + heights slices.
Proof.
  induction slices as [|img l IH]; intros total; simpl.
  - unfold heights. simpl. lia.
  - rewrite IH, heights_cons. lia.
Qed.

Lemma sum_heights_eq slices : methods.sum_heights slices = heights slices.
Proof. unfold methods.sum_heights. rewrite fold_heights. lia. Qed.

Lemma total_image_height_eq slices :
  ScreenshotHelper.total_image_height slices = heights slices.
Proof.
  unfold ScreenshotHelper.total_image_height.
  change (fun total img => total + Z.of_N (snd (PIL.size img)))
    with (fun total image => total + PIL.height image).
  rewrite fold_heights. lia.
Qed.

Lemma helper_paste_all_eq screenshot slices :
  ScreenshotHelper.paste_all screenshot slices = methods.paste_all screenshot slices.
Proof. reflexivity. Qed.

Lemma stacked_length slices : forall offset,
  List.length (stacked offset slices) = List.length slices.
Proof. induction slices as [|img l IH]; intros; simpl; [|rewrite IH]; reflexivity. Qed.

(** Each tile lands at the sum of the heights of the tiles before it. *)
Lemma stacked_nth slices : forall offset i img,
  nth_error slices i = Some img ->
  nth_error (stacked offset slices) i
  = Some (img, (0, offset + heights (firstn i slices))).
Proof.
  induction slices as [|img0 l IH]; intros offset i img E.
  - destruct i; discriminate.
  - destruct i as [|i]; simpl in *.
    + injection E as <-. unfold heights. simpl. do 3 f_equal. lia.
    + rewrite (IH _ _ _ E), heights_cons. do 3 f_equal. lia.
Qed.

(** The paste loop, from any canvas and any running offset. *)
Lemma paste_loop slices : forall screenshot offset,
  fold_left
    (fun '(screenshot, offset) img =>
       (PIL.paste screenshot img (0, offset), offset + PIL.height img))
    slices (screenshot, offset)
  = ({| PIL.canvas_mode := PIL.canvas_mode screenshot;
        PIL.canvas_size := PIL.canvas_size screenshot;
        PIL.pasted := PIL.pasted screenshot ++ stacked offset slices |},
     offset + heights slices).
Proof.
  induction slices as [|img l IH]; intros screenshot offset; simpl.
  - rewrite app_nil_r. destruct screenshot; simpl.
    unfold heights; simpl. f_equal. lia.
  - rewrite IH. simpl. rewrite <- app_assoc, heights_cons. simpl.
    f_equal. lia.
Qed.

Lemma methods_combined_canvas first rest w :
  0 <= w <= 2 ^ 29 - 2 -> heights (first :: rest) + 150 < 2 ^ 31 ->
  PIL.allocates (PIL.mode first) (w, heights (first :: rest) + 150) = true ->
  methods.combined_canvas (first :: rest) [w]
  = Ok {| PIL.canvas_mode := PIL.mode first;
          PIL.canvas_size := (w, heights (first :: rest) + 150);
          PIL.pasted := stacked 0 (first :: rest) |}.
Proof.
  intros Hw Hh' Hmem. unfold methods.combined_canvas, PIL.new.
  rewrite sum_heights_eq. cbn [fst snd].
  pose proof (heights_nonneg (first :: rest)) as Hh.
  destruct (Z.ltb_spec w 0); [lia|].
  destruct (Z.ltb_spec (heights (first :: rest) + 150) 0); [lia|].
  destruct (Z.leb_spec (2 ^ 31) w); [lia|].
  destruct (Z.leb_spec (2 ^ 31) (heights (first :: rest) + 150)); [lia|].
  destruct (Z.ltb_spec (2 ^ 29 - 2) w); [lia|].
  rewrite Hmem. cbn [orb negb and_then]. unfold methods.paste_all.
  rewrite paste_loop. reflexivity.
Qed.

Lemma helper_combined_canvas slices width :
  ScreenshotHelper.combined_canvas slices width
  = methods.combined_canvas slices width.
Proof.
  unfold ScreenshotHelper.combined_canvas, methods.combined_canvas.
  rewrite total_image_height_eq, sum_heights_eq. reflexivity.
Qed.

(** C5. Merging an empty sequence of tiles raises ([slices[0]] on an
    empty list, an [IndexError]) in both variants; no bytes are
    returned. *)
Theorem merge_empty_fails (width : list Z) :
  methods.get_combined_screenshot [] width = Raise IndexError /\
  ScreenshotHelper.get_combined_screenshot [] width = Raise IndexError /\
  (forall png, methods.get_combined_screenshot [] width <> Ok png) /\
  (forall png, ScreenshotHelper.get_combined_screenshot [] width <> Ok png).
Proof. repeat split; intros; try reflexivity; discriminate. Qed.

(** C4. For a non-empty sequence of tiles and a width for which
    [Image.new] makes the canvas (the width is between 0 and 2^29 - 2, the
    sum of the tiles' heights + 150 fits a C [int], and the machine has
    the memory), both variants of the merge build a canvas of size
    (width, sum of the tiles' heights + 150) on which the tiles are pasted
    in sequence order, tile [i] at the vertical offset that is the sum of
    the heights of the tiles before it, and return that canvas saved as
    PNG. *)
Theorem merge_size_and_offsets (first : PIL.Image) (rest : list PIL.Image)
  (w : Z) :
  0 <= w <= 2 ^ 29 - 2 -> heights (first :: rest) + 150 < 2 ^ 31 ->
  PIL.allocates (PIL.mode first) (w, heights (first :: rest) + 150) = true ->
  let slices := first :: rest in
  exists canvas,
    methods.combined_canvas slices [w] = Ok canvas /\
    ScreenshotHelper.combined_canvas slices [w] = Ok canvas /\
    methods.get_combined_screenshot slices [w] = PIL.save canvas "PNG" /\
    ScreenshotHelper.get_combined_screenshot slices [w] = PIL.save canvas "PNG" /\
    PIL.canvas_size canvas = (w, heights slices + 150) /\
    List.length (PIL.pasted canvas) = List.length slices /\
    forall i img, nth_error slices i = Some img ->
      nth_error (PIL.pasted canvas) i
      = Some (img, (0, heights (firstn i slices))).
Proof.
  intros Hw Hh Hmem slices. eexists.
  assert (E := methods_combined_canvas first rest w Hw Hh Hmem). fold slices in E.
  split; [exact E|].
  split; [rewrite helper_combined_canvas; exact E|].
  split; [unfold methods.get_combined_screenshot; rewrite E; reflexivity|].
  split; [unfold ScreenshotHelper.get_combined_screenshot;
          rewrite helper_combined_canvas, E; reflexivity|].
  split; [reflexivity|].
  split; [apply stacked_length|].
  intros i img Hi. cbn [PIL.pasted].
  rewrite (stacked_nth slices 0 i img Hi). reflexivity.
Qed.

End Merge.

Section MergeRuns.
#[local] Existing Instance Fixtures.codec.

(** The tiles of heights 100, 100 and 50 merged at width 800: a canvas of
    800 by 400 with the third tile at vertical offset 200. *)
Lemma merge_size_and_offsets_witness :
  let t100 := {| PIL.mode := "RGB"; PIL.size := (800, 100)%N |} in
  let t50 := {| PIL.mode := "RGB"; PIL.size := (800, 50)%N |} in
  0 <= 800 <= 2 ^ 29 - 2 /\
  exists canvas,
    methods.combined_canvas [t100; t100; t50] [800] = Ok canvas /\
    ScreenshotHelper.combined_canvas [t100; t100; t50] [800] = Ok canvas /\
    PIL.canvas_size canvas = (800, 250 + 150) /\
    nth_error (PIL.pasted canvas) 2 = Some (t50, (0, 200)).
Proof.
  intros t100 t50. split; [lia|].
  destruct (merge_size_and_offsets t100 [t100; t50] 800 ltac:(lia)
              ltac:(vm_compute; reflexivity) eq_refl)
    as (canvas & E1 & E2 & _ & _ & Hs & _ & Hn).
  exists canvas. repeat split; [exact E1|exact E2|exact Hs|].
  exact (Hn 2%nat t50 eq_refl).
Defined.

End MergeRuns.

(** ** The height probe *)

Section Probe.
Context `{PIL.Codec}.

Lemma readings_app h1 h2 :
  Fixtures.readings (h1 ++ h2) = (Fixtures.readings h1 + Fixtures.readings h2)%nat.
Proof. unfold Fixtures.readings. rewrite filter_app, length_app. reflexivity. Qed.

(** *** The probe of [BrowserHandler] on any session *)

Lemma actual_height_quiet self h :
  post (BrowserHandler.__get_actual_height self) h
    (fun r t => r <> Diverge /\ scrolls t = 0%nat /\ captures t = 0%nat).
Proof.
  unfold BrowserHandler.__get_actual_height. steps; repeat split; discriminate.
Qed.

Lemma handler_body_cases self delay mh count h :
  post (BrowserHandler.get_max_height_body self delay (mh, count)) h
    (fun r t =>
       (scrolls t <= 1)%nat /\ captures t = 0%nat /\
       match r with
       | Ok (Continue s') => s' = (mh, count + 1)
       | Ok (Break (v, c)) => c = count
       | Raise _ => True
       | Diverge => False
       end).
Proof.
  unfold BrowserHandler.get_max_height_body.
  step. eapply post_weaken; [apply actual_height_quiet|].
  intros [prev|e|] t1 (Hd & Hs & Hc); [|rewrite Hs; auto with arith|contradiction].
  steps; try solve [count_requests; rewrite ?Hs, ?Hc; auto].
  eapply post_weaken; [apply actual_height_quiet|].
  intros [new|e|] t2 (Hd2 & Hs2 & Hc2); [| |contradiction].
  - steps; count_requests; rewrite ?Hs, ?Hc, ?Hs2, ?Hc2; auto.
  - count_requests; rewrite ?Hs, ?Hc, ?Hs2, ?Hc2; auto.
Qed.
Lemma handler_loop_bounded self delay : forall fuel mh count h,
  0 <= count -> 5 - count <= Z.of_nat fuel ->
  post (while fuel (fun '(max_height, calculation_count) => calculation_count <? 5)
          (BrowserHandler.get_max_height_body self delay) (mh, count)) h
    (fun r t => r <> Diverge /\
                Z.of_nat (scrolls t) <= Z.max 0 (5 - count) /\
                captures t = 0%nat).
Proof.
  induction fuel as [|fuel IH]; intros mh count h Hc Hf.
  - cbn [while]. destruct (count <? 5) eqn:E; [lia|].
    apply post_ret. repeat split; [discriminate|cbn; lia].
  - cbn [while]. destruct (count <? 5) eqn:E.
    + apply post_bind. eapply post_weaken; [apply handler_body_cases|].
      intros [[s'|[v c]]|e|] t (Hs & Hcap & Hr); cbn beta iota.
      * subst s'. eapply post_weaken; [apply IH; lia|].
        intros r t' (Hd & Hs' & Hcap'). split; [exact Hd|].
        count_requests.
      * apply post_ret. rewrite app_nil_r.
        repeat split; [discriminate|lia|exact Hcap].
      * repeat split; [discriminate|lia|exact Hcap].
      * contradiction.
    + apply post_ret. repeat split; [discriminate|cbn; lia].
Qed.

(** The probe of [BrowserHandler] returns or raises on every session
    after at most five turns (one scroll each), and takes no capture. *)
Theorem handler_probe_bounded self df_ht delay fuel h :
  (5 <= fuel)%nat ->
  post (BrowserHandler.get_max_height fuel self df_ht delay) h
    (fun r t => r <> Diverge /\ (scrolls t <= 5)%nat /\ captures t = 0%nat).
Proof.
  intros Hf. unfold BrowserHandler.get_max_height, BrowserHandler.get_max_height_loop.
  apply post_bind. eapply post_weaken; [apply handler_loop_bounded; lia|].
  intros [[mh c]|e|] t (Hd & Hs & Hc); cbn beta iota.
  - apply post_ret. rewrite app_nil_r. repeat split; [discriminate|lia|exact Hc].
  - repeat split; [discriminate|lia|exact Hc].
  - contradiction.
Qed.

(** *** The probe of [BrowserHandler] on a sequence of readings *)

Lemma actual_height_scripted rs h :
  BrowserHandler.__get_actual_height (Fixtures.handler_on (Fixtures.scripted rs)) h
  = (Ok (rs (Fixtures.readings h)),
     [ExecuteScript (Return body_scrollHeight);
      ExecuteScript (Return documentElement_scrollHeight)]).
Proof.
  unfold BrowserHandler.__get_actual_height, bind, execute_script, call, int, ret.
  cbn. rewrite readings_app. cbn. rewrite Nat.add_0_r, Z.max_id. reflexivity.
Qed.

Lemma handler_body_scripted rs delay mh count h i :
  0 <= delay <= 9223372036 ->
  Fixtures.readings h = (2 * i)%nat ->
  post (BrowserHandler.get_max_height_body
          (Fixtures.handler_on (Fixtures.scripted rs)) delay (mh, count)) h
    (fun r t =>
       r = Ok (if rs (2 * i + 1)%nat =? rs (2 * i)%nat
               then Break (rs (2 * i + 1)%nat, count)
               else Continue (mh, count + 1)) /\
       Fixtures.readings (h ++ t) = (2 * S i)%nat).
Proof.
  intros Hdelay Hr. unfold BrowserHandler.get_max_height_body.
  step. eapply post_eq; [apply actual_height_scripted|]. cbn beta iota.
  steps; [|cbn in *; discriminate].
  eapply post_eq; [apply actual_height_scripted|]. cbn beta iota.
  assert (E : forall x y d,
             Fixtures.readings
               (((h ++ [ExecuteScript (Return body_scrollHeight);
                        ExecuteScript (Return documentElement_scrollHeight)])
                 ++ [ExecuteScript (ScrollTo x y)]) ++ [Sleep d])
             = (2 * i + 1)%nat).
  { intros. rewrite !readings_app, Hr. unfold Fixtures.readings.
    cbn [filter Fixtures.is_last_metric List.length]. lia. }
  rewrite E, Hr.
  destruct (rs (2 * i + 1)%nat =? rs (2 * i)%nat); apply post_ret;
    (split; [reflexivity|]); rewrite !readings_app, Hr; unfold Fixtures.readings;
    cbn [filter Fixtures.is_last_metric List.length]; lia.
Qed.

(** On the readings [rs], from a history with [2 * i] readings and with
    [n] turns left, the loop ends with [max_height] the first stable
    reading of those turns, or [0]. *)
Lemma handler_loop_scripted rs delay : 0 <= delay <= 9223372036 -> forall n fuel count i h,
  Z.of_nat n = 5 - count -> (n <= fuel)%nat ->
  Fixtures.readings h = (2 * i)%nat ->
  post (while fuel (fun '(max_height, calculation_count) => calculation_count <? 5)
          (BrowserHandler.get_max_height_body
             (Fixtures.handler_on (Fixtures.scripted rs)) delay) (0, count)) h
    (fun r t => exists c, r = Ok (first_stable rs n i, c)).
Proof.
  intros Hdelay. induction n as [|n IH]; intros fuel count i h Hn Hf Hr.
  - assert (E : (count <? 5) = false) by lia.
    destruct fuel; cbn [while]; rewrite E; apply post_ret; eexists; reflexivity.
  - assert (E : (count <? 5) = true) by lia.
    destruct fuel as [|fuel]; [lia|]. cbn [while]. rewrite E.
    apply post_bind.
    eapply post_weaken; [apply handler_body_scripted; [exact Hdelay|exact Hr]|].
    intros r t (-> & Hr'). cbn [first_stable].
    destruct (rs (2 * i + 1)%nat =? rs (2 * i)%nat).
    + apply post_ret. eexists; reflexivity.
    + apply IH; [lia|lia|exact Hr'].
Qed.

(** C1. On a page whose height grows between any two readings (2000,
    4000, ..., 20000 over the five turns) and with the fallback 1000,
    the probe of [BrowserHandler] exhausts its five turns and returns
    the fallback 1000: no reading is zero, no turn is stable, and the
    last candidate reading is 20000. *)
Theorem handler_probe_exhausted_returns_fallback :
  let self := Fixtures.handler_on Fixtures.growing_page in
  let run := BrowserHandler.get_max_height 5 self 1000 5 [] in
  fst run = Ok 1000 /\
  scrolls (snd run) = 5%nat /\
  (forall k, Fixtures.growing k <> 0) /\
  (forall i, Fixtures.growing (2 * i + 1) <> Fixtures.growing (2 * i)) /\
  BrowserHandler.__get_actual_height self (firstn 28 (snd run))
  = (Ok 20000, [ExecuteScript (Return body_scrollHeight);
                ExecuteScript (Return documentElement_scrollHeight)]).
Proof.
  cbv zeta. split; [vm_compute; reflexivity|].
  split; [vm_compute; reflexivity|].
  split; [intros k; unfold Fixtures.growing; lia|].
  split; [intros i; unfold Fixtures.growing; lia|].
  vm_compute. reflexivity.
Qed.

(** *** The probe of [methods.py] on a sequence of readings *)

Lemma page_height_scripted rs h :
  methods.get_page_height (Fixtures.scripted rs) h
  = (Ok (rs (Fixtures.readings h)),
     [ExecuteScript (Return body_scrollHeight);
      ExecuteScript (Return body_clientHeight);
      ExecuteScript (Return body_offsetHeight);
      ExecuteScript (Return documentElement_offsetHeight);
      ExecuteScript (Return documentElement_clientHeight);
      ExecuteScript (Return documentElement_scrollHeight)]).
Proof.
  unfold methods.get_page_height, bind, execute_script, call, int, ret.
  cbn. rewrite !readings_app. cbn. rewrite !Nat.add_0_r, !Z.max_id. reflexivity.
Qed.

Lemma module_body_scripted rs max_width mh h i :
  Fixtures.readings h = (2 * i)%nat ->
  post (methods.get_max_height_body (Fixtures.scripted rs) max_width mh) h
    (fun r t =>
       r = Ok (if rs (2 * i)%nat =? rs (2 * i + 1)%nat
               then Break (rs (2 * i + 1)%nat)
               else Continue mh) /\
       Fixtures.readings (h ++ t) = (2 * S i)%nat).
Proof.
  intros Hr. unfold methods.get_max_height_body.
  step. eapply post_eq; [apply page_height_scripted|]. cbn beta iota.
  steps; try (cbn in *; discriminate).
  eapply post_eq; [apply page_height_scripted|]. cbn beta iota.
  assert (E : forall a b x y d,
             Fixtures.readings
               ((((h ++ [ExecuteScript (Return body_scrollHeight);
                         ExecuteScript (Return body_clientHeight);
                         ExecuteScript (Return body_offsetHeight);
                         ExecuteScript (Return documentElement_offsetHeight);
                         ExecuteScript (Return documentElement_clientHeight);
                         ExecuteScript (Return documentElement_scrollHeight)])
                  ++ [SetWindowSize a b] ++ [])
                 ++ [ExecuteScript (ScrollTo x y)]) ++ [Sleep d])
             = (2 * i + 1)%nat).
  { intros. rewrite !readings_app, Hr. unfold Fixtures.readings.
    cbn [filter Fixtures.is_last_metric List.length]. lia. }
  rewrite E, Hr.
  destruct (rs (2 * i)%nat =? rs (2 * i + 1)%nat); apply post_ret;
    (split; [reflexivity|]); rewrite !readings_app, Hr; unfold Fixtures.readings;
    cbn [filter Fixtures.is_last_metric List.length app]; lia.
Qed.

(** The probe of [methods.py] on every sequence of readings: the first
    stable reading when the fuel reaches it, no result otherwise. *)
Lemma module_loop_scripted rs max_width : forall fuel mh i h,
  Fixtures.readings h = (2 * i)%nat ->
  post (while fuel (fun _ => true)
          (methods.get_max_height_body (Fixtures.scripted rs) max_width) mh) h
    (fun r t => r = first_stable_unbounded rs fuel i).
Proof.
  induction fuel as [|fuel IH]; intros mh i h Hr; cbn [while first_stable_unbounded].
  - reflexivity.
  - apply post_bind. eapply post_weaken; [apply module_body_scripted; exact Hr|].
    intros r t (-> & Hr').
    destruct (rs (2 * i)%nat =? rs (2 * i + 1)%nat).
    + apply post_ret. reflexivity.
    + apply IH. exact Hr'.
Qed.

Theorem module_probe_on_readings rs max_width fuel :
  fst (methods.get_max_height fuel (Fixtures.scripted rs) max_width [])
  = first_stable_unbounded rs fuel 0.
Proof.
  exact (module_loop_scripted rs max_width fuel 0 0%nat [] eq_refl).
Qed.

Lemma never_stable_unbounded rs :
  (forall i, rs (2 * i)%nat <> rs (2 * i + 1)%nat) ->
  forall fuel i, first_stable_unbounded rs fuel i = Diverge.
Proof.
  intros Hrs. induction fuel as [|fuel IH]; intros i; cbn [first_stable_unbounded].
  - reflexivity.
  - destruct (rs (2 * i)%nat =? rs (2 * i + 1)%nat) eqn:E; [|apply IH].
    apply Z.eqb_eq in E. destruct (Hrs i E).
Qed.

(** C10. On a page whose height grows between any two readings, the
    probe of [methods.py] ([while True]) gives no result, whatever the
    fuel: it never leaves its loop; the probe of [BrowserHandler] ends on
    the same page within its five turns. *)
Theorem module_probe_never_returns :
  (forall fuel,
     fst (methods.get_max_height fuel Fixtures.growing_page 1367 []) = Diverge) /\
  fst (BrowserHandler.get_max_height 5
         (Fixtures.handler_on Fixtures.growing_page) 0 5 []) = Ok 0.
Proof.
  split.
  - intros fuel. unfold Fixtures.growing_page.
    rewrite module_probe_on_readings. apply never_stable_unbounded.
    intros i. unfold Fixtures.growing. lia.
  - vm_compute. reflexivity.
Qed.
End Probe.

(** ** Runs on a session without faults *)

Section Healthy.
Context `{PIL.Codec}.
Variable wd : browser.
Hypothesis Hwd : healthy wd.

Lemma healthy_call c h (Q : outcome value -> list command -> Prop) :
  (forall v, Q (Ok v) [c]) -> post (call wd c) h Q.
Proof.
  intros HQ. apply post_call; [intros v _; apply HQ|].
  intros Ht. destruct (never_throws wd Hwd h c Ht).
Qed.

Lemma healthy_read s h (Q : outcome Z -> list command -> Prop) :
  is_read s = true ->
  (forall z, wd h (ExecuteScript s) = Returns (VInt z) ->
             Q (Ok z) [ExecuteScript s]) ->
  post (v <- execute_script wd s ;; int v) h Q.
Proof.
  intros Hs HQ. destruct (reads_int wd Hwd h s Hs) as [z Ez].
  unfold post, bind, execute_script, call. rewrite Ez. cbn. apply HQ, Ez.
Qed.

Lemma healthy_png h (Q : outcome bytes -> list command -> Prop) :
  (forall b, Q (Ok b) [GetScreenshotAsPng]) ->
  post (get_screenshot_as_png wd) h Q.
Proof.
  intros HQ. destruct (shots_open wd Hwd h) as (b & img & Eb & _).
  unfold post, get_screenshot_as_png, bind, call. rewrite Eb. cbn. apply HQ.
Qed.

Lemma healthy_capture h (Q : outcome PIL.Image -> list command -> Prop) :
  (forall img, Q (Ok img) [GetScreenshotAsPng]) ->
  post (capture_image wd) h Q.
Proof.
  intros HQ. destruct (shots_open wd Hwd h) as (b & img & Eb & Eo).
  unfold post, capture_image, get_screenshot_as_png, bind, call, lift.
  rewrite Eb. cbn. rewrite Eo. cbn. apply HQ.
Qed.
End Healthy.

Ltac healthy_step Hwd :=
  lazymatch goal with
  | |- post (bind (execute_script _ _) int) _ _ =>
      apply (healthy_read _ Hwd); [reflexivity|intros ? ?]
  | |- post (bind (execute_script _ _) (fun v => int v)) _ _ =>
      apply (healthy_read _ Hwd); [reflexivity|intros ? ?]
  | |- post (call _ _) _ _ => apply (healthy_call _ Hwd); intros ?
  | |- post (get_screenshot_as_png _) _ _ => apply (healthy_png _ Hwd); intros ?
  | |- post (capture_image _) _ _ => apply (healthy_capture _ Hwd); intros ?
  | |- _ => step
  end; cbn beta iota.

Ltac healthy_steps Hwd := repeat healthy_step Hwd.

Lemma post_run {A} (m : M A) h Q :
  post m h Q -> exists r t, m h = (r, t) /\ Q r t.
Proof. unfold post. destruct (m h) as [r t]. intros HQ. exists r, t. auto. Qed.

(** The sessions of [Fixtures] without a fault are healthy. *)
Lemma session_healthy page inner shot :
  @healthy Fixtures.codec (Fixtures.session page inner shot Fixtures.no_fault).
Proof.
  constructor.
  - intros h [[]| | |]; cbn; discriminate.
  - intros h [] Hs; try discriminate Hs; cbn; eexists; reflexivity.
  - intros h. cbn. eexists; eexists; split; reflexivity.
Qed.

Section Remainder.
Context `{PIL.Codec}.

Lemma handler_remainder_requests (self : BrowserHandler.handler)
  (first : PIL.Image) (rest : list PIL.Image)
  (total_height win_width win_height scroll_x screenshot_delay : Z)
  (debug : bool) (h : history) :
  healthy (BrowserHandler.webdriver self) -> 0 <= screenshot_delay <= 9223372036 ->
  win_height <> 0 -> total_height mod win_height <> 0 ->
  post (BrowserHandler.capture_remaining_section self (first :: rest)
          total_height win_width win_height scroll_x screenshot_delay debug) h
    (fun r t => exists chrome img,
       BrowserHandler.webdriver self
         (h ++ [ExecuteScript (SetBodyHeight (total_height + win_height))])
         (ExecuteScript ChromeOffset) = Returns (VInt chrome) /\
       r = Ok (Some img) /\
       t = [ExecuteScript (SetBodyHeight (total_height + win_height));
            ExecuteScript ChromeOffset;
            SetWindowSize win_width (total_height mod win_height + chrome + 3500);
            Sleep screenshot_delay;
            ExecuteScript
              (ScrollTo scroll_x
                 (PIL.height first * Z.of_nat (List.length (first :: rest))));
            Sleep screenshot_delay;
            GetScreenshotAsPng]).
Proof.
  intros Hwd Hdelay Hw Hrem. unfold BrowserHandler.capture_remaining_section.
  healthy_steps Hwd; try lia.
  eexists; eexists; split; [|split; reflexivity].
  rewrite !app_nil_r in *. eassumption.
Qed.

Lemma module_remainder_requests (wd : browser)
  (first : PIL.Image) (rest : list PIL.Image)
  (total_height win_width viewport scroll_x screenshot_delay : Z)
  (h : history) :
  healthy wd -> 0 <= screenshot_delay <= 9223372036 ->
  viewport <> 0 -> total_height mod viewport <> 0 ->
  post (methods.capture_remaining_page wd (first :: rest)
          total_height win_width viewport scroll_x screenshot_delay) h
    (fun r t => exists chrome img,
       r = Ok (Some img) /\
       t = [ExecuteScript (SetBodyHeight total_height);
            ExecuteScript ChromeOffset;
            SetWindowSize win_width (total_height mod viewport + chrome);
            Sleep screenshot_delay;
            ExecuteScript
              (ScrollTo scroll_x
                 (PIL.height first * Z.of_nat (List.length (first :: rest))));
            Sleep screenshot_delay;
            GetScreenshotAsPng]).
Proof.
  intros Hwd Hdelay Hw Hrem.
  unfold methods.capture_remaining_page, methods.get_window_height.
  healthy_steps Hwd; try lia.
  eexists; eexists; split; reflexivity.
Qed.

End Remainder.

Section RemainderRuns.
#[local] Existing Instance Fixtures.codec.



End RemainderRuns.

(** ** The tiled path of [BrowserHandler] and its merge *)

Section TiledMerge.
Context `{PIL.Codec}.

(** C3, as the code has it. No run of the tiled path of [BrowserHandler]
    returns a composite image, and every run that completes the tile loop
    and the remainder capture, and so reaches the merge, raises
    [TypeError] there: the merge is called with three positional
    arguments and takes two. *)
Theorem tiled_path_never_returns (fuel : nat) (self : BrowserHandler.handler)
  (max_width screenshot_delay : Z) (debug : bool) (h : history) :
  (forall png,
     fst (BrowserHandler.__get_screenshot_using_cut_and_merger fuel self
            max_width screenshot_delay debug h) <> Ok png) /\
  (forall slices offset t,
     BrowserHandler.cut_and_merger_slices fuel self max_width screenshot_delay
       debug h = (Ok (slices, offset), t) ->
     BrowserHandler.__get_screenshot_using_cut_and_merger fuel self max_width
       screenshot_delay debug h = (Raise TypeError, t)).
Proof.
  unfold BrowserHandler.__get_screenshot_using_cut_and_merger, bind, lift.
  destruct (BrowserHandler.cut_and_merger_slices fuel self max_width
              screenshot_delay debug h) as [[[slices offset]|e|] t] eqn:E;
    cbn; (split; [intros png; discriminate|]);
    intros slices' offset' t' E'; inversion E'; subst;
    rewrite ?app_nil_r; reflexivity.
Qed.

End TiledMerge.

Section TiledRuns.
#[local] Existing Instance Fixtures.codec.

(** A static page of 31000 pixels: two tiles and the remainder are captured,
    and the merge raises [TypeError]. *)
Lemma tiled_path_never_returns_witness :
  let self := Fixtures.handler_on (Fixtures.static_page 31000) in
  captures (snd (BrowserHandler.cut_and_merger_slices 5 self 980 5 false [])) = 3%nat /\
  fst (BrowserHandler.__get_screenshot_using_cut_and_merger 5 self 980 5 false [])
  = Raise TypeError.
Proof.
  intros self. split; [vm_compute; reflexivity|].
  destruct (BrowserHandler.cut_and_merger_slices 5 self 980 5 false [])
    as [[[slices offset]|e|] t] eqn:E; [|vm_compute in E; discriminate E..].
  rewrite (proj2 (tiled_path_never_returns 5 self 980 5 false []) slices offset t E).
  reflexivity.
Defined.

(** C3 as stated fails: on a page of 31000 pixels whose driver throws on
    the third capture, the tile loop completes with its two tiles, the
    remainder capture raises [WebDriverException], and the run ends there
    without reaching the merge. On a static page of 12000 pixels the tile
    loop completes without a tile and the remainder capture raises
    [IndexError]. *)
Lemma tiled_path_counterexample :
  let self := Fixtures.handler_on (Fixtures.flaky_page 31000 2) in
  let tile := {| PIL.mode := "RGB"; PIL.size := (980, 15000)%N |} in
  let before :=
    [ExecuteScript (Return body_scrollHeight);
     ExecuteScript (Return documentElement_scrollHeight);
     ExecuteScript (ScrollTo 0 31000); Sleep 5;
     ExecuteScript (Return body_scrollHeight);
     ExecuteScript (Return documentElement_scrollHeight);
     ExecuteScript ChromeOffset; SetWindowSize 980 15000] in
  let loop :=
    [ExecuteScript (ScrollTo 0 0); Sleep 5; GetScreenshotAsPng;
     ExecuteScript (ScrollTo 0 15000); Sleep 5; GetScreenshotAsPng] in
  BrowserHandler.tile_loop 5 self 0 5 (31000 / 15000) before
  = (Ok ([tile; tile], 30000, 2), loop) /\
  BrowserHandler.__get_screenshot_using_cut_and_merger 5 self 980 5 false []
  = (Raise WebDriverException,
     before ++ loop ++
     [ExecuteScript (SetBodyHeight 46000); ExecuteScript ChromeOffset;
      SetWindowSize 980 4500; Sleep 5; ExecuteScript (ScrollTo 0 30000);
      Sleep 5; GetScreenshotAsPng]) /\
  Raise WebDriverException <> @Raise bytes TypeError /\
  let self' := Fixtures.handler_on (Fixtures.static_page 12000) in
  let before' :=
    [ExecuteScript (Return body_scrollHeight);
     ExecuteScript (Return documentElement_scrollHeight);
     ExecuteScript (ScrollTo 0 12000); Sleep 5;
     ExecuteScript (Return body_scrollHeight);
     ExecuteScript (Return documentElement_scrollHeight);
     ExecuteScript ChromeOffset; SetWindowSize 980 15000] in
  BrowserHandler.tile_loop 5 self' 0 5 (12000 / 15000) before'
  = (Ok ([], 0, 0), []) /\
  BrowserHandler.__get_screenshot_using_cut_and_merger 5 self' 980 5 false []
  = (Raise IndexError, before' ++ [ExecuteScript (SetBodyHeight 27000)]) /\
  Raise IndexError <> @Raise bytes TypeError.
Proof.
  cbv zeta. split; [vm_compute; reflexivity|].
  split; [vm_compute; reflexivity|]. split; [discriminate|].
  split; [vm_compute; reflexivity|].
  split; [vm_compute; reflexivity|discriminate].
Qed.

(** C2. A page of stable height 12000 captured with the threshold 10000:
    the height exceeds the threshold, the tiled path computes
    floor(12000 / 15000) = 0 primary captures and a remainder of 12000, and
    the remainder capture raises [IndexError] on [ss_chunks[0]] before any
    capture: the run makes no capture call at all and [get_screenshot]
    returns [None]. The same holds in [main.py] with a viewport of 15000. *)
Theorem tiled_remainder_without_tile_fails :
  let self := Fixtures.handler_on (Fixtures.static_page 12000) in
  let run :=
    BrowserHandler.get_screenshot 5 self true 980 1000 10000 600000 false 5 [] in
  let run' :=
    main.get_screenshot 5 (Fixtures.static_page 12000) true 1366 900 10000 false 20 [] in
  fst (BrowserHandler.get_max_height 5 self 1000 5 []) = Ok 12000 /\
  10000 < 12000 /\ 12000 / 15000 = 0 /\ 12000 mod 15000 <> 0 /\
  fst run = Ok None /\ captures (snd run) = 0%nat /\
  last (snd run) (Sleep 0) = ExecuteScript (SetBodyHeight 27000) /\
  (forall h, fst (BrowserHandler.capture_remaining_section self [] 12000 980
                    15000 0 5 false h) = Raise IndexError) /\
  fst run' = Ok None /\ captures (snd run') = 0%nat.
Proof.
  cbv zeta. repeat split; try (vm_compute; (reflexivity || discriminate)).
Qed.

End TiledRuns.

(** ** The single-shot path *)

Section SingleShot.
Context `{PIL.Codec}.

Lemma page_height_quiet wd h :
  post (methods.get_page_height wd) h
    (fun r t => captures t = 0%nat /\ scrolls t = 0%nat).
Proof. unfold methods.get_page_height. steps; split; reflexivity. Qed.

Lemma module_body_quiet wd max_width mh h :
  post (methods.get_max_height_body wd max_width mh) h
    (fun r t => captures t = 0%nat).
Proof.
  unfold methods.get_max_height_body.
  step. eapply post_weaken; [apply page_height_quiet|].
  intros [prev|e|] t1 (Hc & _); [|exact Hc..].
  steps; try (count_requests; fail).
  eapply post_weaken; [apply page_height_quiet|].
  intros [new|e|] t2 (Hc2 & _); [|count_requests..].
  steps; count_requests.
Qed.

(** The probe of [methods.py] takes no capture. *)
Lemma module_probe_quiet wd max_width : forall fuel mh h,
  post (while fuel (fun _ => true) (methods.get_max_height_body wd max_width) mh) h
    (fun r t => captures t = 0%nat).
Proof.
  induction fuel as [|fuel IH]; intros mh h; cbn [while].
  - reflexivity.
  - apply post_bind. eapply post_weaken; [apply module_body_quiet|].
    intros [[s'|s']|e|] t Hc; cbn beta iota; [| |exact Hc..].
    + eapply post_weaken; [apply IH|]. intros r t' Hc'. count_requests.
    + apply post_ret. count_requests.
Qed.

(** The probe of [BrowserHandler] takes no capture. *)
Lemma handler_probe_quiet self df_ht delay fuel h :
  post (BrowserHandler.get_max_height fuel self df_ht delay) h
    (fun r t => captures t = 0%nat).
Proof.
  unfold BrowserHandler.get_max_height, BrowserHandler.get_max_height_loop.
  apply post_bind.
  assert (Hloop : forall fuel s h,
            post (while fuel
                    (fun '(max_height, calculation_count) => calculation_count <? 5)
                    (BrowserHandler.get_max_height_body self delay) s) h
              (fun r t => captures t = 0%nat)).
  { clear. induction fuel as [|fuel IH]; intros [mh count] h; cbn [while].
    - destruct (count <? 5); reflexivity.
    - destruct (count <? 5); [|reflexivity].
      apply post_bind. eapply post_weaken; [apply handler_body_cases|].
      intros [[s'|s']|e|] t (_ & Hc & _); cbn beta iota; [| |exact Hc..].
      + eapply post_weaken; [apply IH|]. intros r t' Hc'. count_requests.
      + apply post_ret. count_requests. }
  eapply post_weaken; [apply Hloop|].
  intros [[mh c]|e|] t Hc; cbn beta iota; [|exact Hc..].
  apply post_ret. count_requests.
Qed.


End SingleShot.

Section SingleShotRuns.
#[local] Existing Instance Fixtures.codec.



(** C8. In [methods.py] the tile height is the viewport read back after
    the window was resized to the probed height: on two static pages of
    20000 and 40000 pixels, in a window whose inner height follows the
    resize, the tile heights are 20000 and 40000. On the same pages
    [BrowserHandler] resizes the window to its constant 15000 (plus the
    chrome offset, here 0) before the tile loop. *)
Theorem module_tile_height_follows_page :
  fst (methods.cut_and_merger_viewport 5 (Fixtures.resizable_page 20000) 1366 20 [])
  = Ok (20000, 20000) /\
  fst (methods.cut_and_merger_viewport 5 (Fixtures.resizable_page 40000) 1366 20 [])
  = Ok (40000, 40000) /\
  nth_error
    (snd (BrowserHandler.cut_and_merger_slices 5
            (Fixtures.handler_on (Fixtures.resizable_page 20000)) 980 5 false [])) 7
  = Some (SetWindowSize 980 15000) /\
  nth_error
    (snd (BrowserHandler.cut_and_merger_slices 5
            (Fixtures.handler_on (Fixtures.resizable_page 40000)) 980 5 false [])) 7
  = Some (SetWindowSize 980 15000).
Proof. repeat split; vm_compute; reflexivity. Qed.

End SingleShotRuns.

(** ** Driver errors *)

Section Aborts.
Context `{PIL.Codec}.
Variable wd : browser.

Lemma aborts_ret {A} (a : A) : aborts_on_throw wd (ret a).
Proof. intros h t1 c t2 E. destruct t1; discriminate E. Qed.

Lemma aborts_raise {A} e : aborts_on_throw wd (@raise A e).
Proof. intros h t1 c t2 E. destruct t1; discriminate E. Qed.

Lemma aborts_lift {A} (o : outcome A) : aborts_on_throw wd (lift o).
Proof. intros h t1 c t2 E. destruct t1; discriminate E. Qed.

Lemma aborts_sleep d : aborts_on_throw wd (time_sleep d).
Proof.
  intros h t1 c t2 E Hc. unfold time_sleep in E.
  destruct (9223372036 <? Z.abs d), (d <? 0); cbn in E;
    destruct t1 as [|c1 [|c2 t1]]; try discriminate E.
  injection E as <- <-. discriminate Hc.
Qed.

Lemma aborts_call c : aborts_on_throw wd (call wd c).
Proof.
  intros h t1 c' t2 E Hc Ht. unfold call in *.
  destruct (wd h c) as [v|] eqn:Ec; cbn in E;
    (destruct t1 as [|c1 [|c2 t1]]; try discriminate E);
    injection E as <- <-; rewrite app_nil_r in Ht.
  - rewrite Ht in Ec. discriminate Ec.
  - split; reflexivity.
Qed.

Lemma aborts_bind {A B} (m : M A) (f : A -> M B) :
  aborts_on_throw wd m -> (forall a, aborts_on_throw wd (f a)) ->
  aborts_on_throw wd (bind m f).
Proof.
  intros Hm Hf h t1 c t2 E Hc Ht. unfold bind in *.
  specialize (Hm h). destruct (m h) as [[a|e|] t] eqn:Em; cbn [fst snd] in *.
  - specialize (Hf a (h ++ t)).
    destruct (f a (h ++ t)) as [r t'] eqn:Ef; cbn [fst snd] in *.
    apply app_eq_app in E. destruct E as (l & [(Et & E)|(Et & E)]).
    + destruct l as [|c0 l]; cbn in E.
      * rewrite app_nil_r in Et. subst t t'.
        apply (Hf [] c t2 eq_refl Hc). rewrite app_nil_r. exact Ht.
      * injection E as <- ->.
        destruct (Hm t1 c l Et Hc Ht) as (_ & [=]).
    + subst t1. apply (Hf l c t2 E Hc). rewrite <- app_assoc. exact Ht.
  - destruct (Hm t1 c t2 E Hc Ht) as (-> & [= ->]). split; reflexivity.
  - destruct (Hm t1 c t2 E Hc Ht) as (_ & [=]).
Qed.

Lemma aborts_while {S} (cond : S -> bool) (body : S -> M (ctl S)) :
  (forall s, aborts_on_throw wd (body s)) ->
  forall fuel s, aborts_on_throw wd (while fuel cond body s).
Proof.
  intros Hb. induction fuel as [|fuel IH]; intros s; cbn [while].
  - destruct (cond s); [|apply aborts_ret].
    intros h t1 c t2 E. destruct t1; discriminate E.
  - destruct (cond s); [|apply aborts_ret].
    apply aborts_bind; [apply Hb|]. intros [s'|s']; [apply IH|apply aborts_ret].
Qed.

Lemma aborts_try_reraise {A} (m : M A) :
  aborts_on_throw wd m -> aborts_on_throw wd (try_except m (fun e => raise e)).
Proof.
  intros Hm h t1 c t2 E Hc Ht. unfold try_except, raise in *.
  specialize (Hm h). destruct (m h) as [[a|e|] t] eqn:Em; cbn [fst snd] in *;
    rewrite ?app_nil_r in E; exact (Hm t1 c t2 E Hc Ht).
Qed.

(** [try: m except Exception: return a]: a throwing request still ends
    the run, which then returns [a]. *)
Lemma aborts_try_return {A} (m : M A) (a : A) :
  aborts_on_throw wd m ->
  forall h t1 c t2,
    snd (try_except m (fun _ => ret a) h) = t1 ++ c :: t2 ->
    is_request c = true -> wd (h ++ t1) c = Throws ->
    t2 = [] /\ try_except m (fun _ => ret a) h = (Ok a, t1 ++ [c]).
Proof.
  intros Hm h t1 c t2 E Hc Ht. unfold try_except, ret in *.
  specialize (Hm h). destruct (m h) as [[a'|e|] t] eqn:Em; cbn [fst snd] in *;
    rewrite ?app_nil_r in *;
    destruct (Hm t1 c t2 E Hc Ht) as (-> & E'); try discriminate E'.
  split; [reflexivity|]. rewrite E. reflexivity.
Qed.

End Aborts.

Ltac aborts :=
  repeat first
    [ apply aborts_ret | apply aborts_raise | apply aborts_lift
    | apply aborts_sleep | apply aborts_call
    | apply aborts_bind; [|intros ?]
    | apply aborts_while; intros ?
    | apply aborts_try_reraise
    | match goal with
      | |- aborts_on_throw _ (match ?x with _ => _ end) => destruct x eqn:?
      end
    | progress cbv beta zeta
    | progress unfold execute_script, set_window_size, get_screenshot_as_png,
        capture_image, int, floor_div, py_mod,
        methods.get_page_height, methods.get_max_height_body,
        methods.get_max_height, methods.get_window_height,
        methods.capture_remaining_page, methods.cut_and_merger_viewport,
        methods.tile_loop_body, methods.tile_loop,
        methods.get_screenshot_using_cut_and_merger,
        BrowserHandler.__get_actual_height, BrowserHandler.get_max_height_body,
        BrowserHandler.get_max_height_loop, BrowserHandler.get_max_height,
        BrowserHandler.capture_remaining_section, BrowserHandler.tile_loop_body,
        BrowserHandler.tile_loop, BrowserHandler.cut_and_merger_slices,
        BrowserHandler.__get_screenshot_using_cut_and_merger ].

Section DriverErrors.
Context `{PIL.Codec}.

Lemma module_tiled_aborts fuel wd win_width screenshot_delay debug win_height :
  aborts_on_throw wd
    (methods.get_screenshot_using_cut_and_merger fuel wd win_width
       screenshot_delay debug win_height).
Proof. aborts. Qed.

Lemma handler_tiled_aborts fuel self max_width screenshot_delay debug :
  aborts_on_throw (BrowserHandler.webdriver self)
    (BrowserHandler.__get_screenshot_using_cut_and_merger fuel self max_width
       screenshot_delay debug).
Proof. aborts. Qed.

(** C9, as the code has it. When a capture call of a full-page capture
    throws a driver error (in the tile loop or anywhere else), that call is
    the last request of the run: nothing is retried and nothing follows.
    [get_screenshot] catches the error and returns [None] to its caller
    instead of raising; no tile sequence and no composite is returned.
    For [BrowserHandler] the capture type is the cut-and-merge strategy. *)
Theorem capture_failure_returns_none (fuel : nat) (self : BrowserHandler.handler)
  (wd : browser) (df_wd df_ht default_height maximum_length_image : Z)
  (debug : bool) (screenshot_delay : Z) (h : history)
  (t1 t2 : list command) :
  (BrowserHandler.dict_get (BrowserHandler.kwargs self) "crawl_ss_type"
     (BrowserHandler.dict_get (BrowserHandler.kwargs self) "sc_capture_type" 1)
   = BrowserHandler.dict_get (BrowserHandler.kwargs self) "sc_capture_type" 1 ->
   snd (BrowserHandler.get_screenshot fuel self true df_wd df_ht default_height
          maximum_length_image debug screenshot_delay h)
   = t1 ++ GetScreenshotAsPng :: t2 ->
   BrowserHandler.webdriver self (h ++ t1) GetScreenshotAsPng = Throws ->
   t2 = [] /\
   BrowserHandler.get_screenshot fuel self true df_wd df_ht default_height
     maximum_length_image debug screenshot_delay h
   = (Ok None, t1 ++ [GetScreenshotAsPng])) /\
  (snd (main.get_screenshot fuel wd true df_wd df_ht default_height debug
          screenshot_delay h)
   = t1 ++ GetScreenshotAsPng :: t2 ->
   wd (h ++ t1) GetScreenshotAsPng = Throws ->
   t2 = [] /\
   main.get_screenshot fuel wd true df_wd df_ht default_height debug
     screenshot_delay h
   = (Ok None, t1 ++ [GetScreenshotAsPng])).
Proof.
  split.
  - intros Htype. unfold BrowserHandler.get_screenshot. cbv zeta.
    match goal with
    | |- context [try_except ?m ?handler] =>
        assert (Hm : aborts_on_throw (BrowserHandler.webdriver self) m)
    end.
    { aborts. rewrite Htype, Z.eqb_refl in *. discriminate. }
    intros E Ht. unfold bind at 1 in E. unfold bind at 1.
    match type of E with
    | context [try_except ?m ?handler h] =>
        pose proof (aborts_try_return _ m (inr None) Hm h) as Htry;
        destruct (try_except m handler h) as [r t] eqn:Er
    end.
    cbn [fst snd] in Htry.
    assert (Et : t = t1 ++ GetScreenshotAsPng :: t2).
    { destruct r as [[png|early]|e|]; cbn in E;
        repeat match type of E with
               | context [if ?b then _ else _] => destruct b
               end; cbn in E; rewrite ?app_nil_r in E; exact E. }
    destruct (Htry t1 GetScreenshotAsPng t2 Et eq_refl Ht) as (-> & [= -> ->]).
    split; [reflexivity|]. cbn. rewrite app_nil_r. reflexivity.
  - unfold main.get_screenshot. cbv zeta.
    match goal with
    | |- context [try_except ?m ?handler] =>
        assert (Hm : aborts_on_throw wd m) by aborts
    end.
    intros E Ht.
    exact (aborts_try_return _ _ None Hm h t1 GetScreenshotAsPng t2 E eq_refl Ht).
Qed.

End DriverErrors.

Section DriverErrorRuns.
#[local] Existing Instance Fixtures.codec.

(** A page of 31000 pixels whose driver throws on the second capture, in
    the tile loop: the run of each variant ends on that capture and
    returns [None]. *)
Lemma capture_failure_returns_none_witness :
  let wd := Fixtures.flaky_page 31000 1 in
  let run := main.get_screenshot 5 wd true 1366 900 15000 false 20 [] in
  let run' := BrowserHandler.get_screenshot 5 (Fixtures.handler_on wd) true
                980 1000 22000 600000 false 5 [] in
  run = (Ok None, removelast (snd run) ++ [GetScreenshotAsPng]) /\
  run' = (Ok None, removelast (snd run') ++ [GetScreenshotAsPng]).
Proof.
  intros wd run run'. split.
  - apply (proj2 (capture_failure_returns_none 5 (Fixtures.handler_on wd) wd
                    1366 900 15000 600000 false 20 []
                    (removelast (snd run)) [])).
    + vm_compute. reflexivity.
    + vm_compute. reflexivity.
  - apply (proj1 (capture_failure_returns_none 5 (Fixtures.handler_on wd) wd
                    980 1000 22000 600000 false 5 []
                    (removelast (snd run')) [])).
    + reflexivity.
    + vm_compute. reflexivity.
    + vm_compute. reflexivity.
Defined.

(** C9 as stated fails: on a page of 31000 pixels whose driver throws on
    the second capture of the tile loop, [get_screenshot] does not raise:
    the error is caught and the caller receives [None], in both variants. *)
Lemma capture_failure_counterexample :
  let wd := Fixtures.flaky_page 31000 1 in
  let run := main.get_screenshot 5 wd true 1366 900 15000 false 20 [] in
  let run' := BrowserHandler.get_screenshot 5 (Fixtures.handler_on wd) true
                980 1000 22000 600000 false 5 [] in
  captures (snd run) = 2%nat /\
  wd (removelast (snd run)) GetScreenshotAsPng = Throws /\
  last (snd run) (Sleep 0) = GetScreenshotAsPng /\
  fst run = Ok None /\ (forall e, fst run <> Raise e) /\
  captures (snd run') = 2%nat /\
  wd (removelast (snd run')) GetScreenshotAsPng = Throws /\
  last (snd run') (Sleep 0) = GetScreenshotAsPng /\
  fst run' = Ok None /\ (forall e, fst run' <> Raise e).
Proof.
  cbv zeta.
  repeat split; try (vm_compute; reflexivity); intros e; vm_compute; discriminate.
Qed.

End DriverErrorRuns.

(** ** The tiled path on a session without faults *)

Section Tiled.
Context `{PIL.Codec}.

Lemma handler_tile_loop_healthy self scroll_x screenshot_delay max_ss_count :
  healthy (BrowserHandler.webdriver self) -> 0 <= screenshot_delay <= 9223372036 ->
  forall n fuel slices offset ss_count h,
    Z.of_nat n = Z.max 0 (max_ss_count - ss_count) -> (n <= fuel)%nat ->
    post (while fuel (fun '(slices, offset, ss_count) => ss_count <? max_ss_count)
            (BrowserHandler.tile_loop_body self scroll_x screenshot_delay)
            (slices, offset, ss_count)) h
      (fun r t => exists slices' offset' ss_count',
         r = Ok (slices ++ slices', offset', ss_count') /\
         List.length slices' = n /\ captures t = n).
Proof.
  intros Hwd Hdelay.
  induction n as [|n IH]; intros fuel slices offset ss_count h Hn Hf.
  - assert (E : (ss_count <? max_ss_count) = false) by lia.
    destruct fuel; cbn [while]; rewrite E; apply post_ret;
      exists [], offset, ss_count; rewrite app_nil_r; repeat split.
  - assert (E : (ss_count <? max_ss_count) = true) by lia.
    destruct fuel as [|fuel]; [lia|]. cbn [while]. rewrite E.
    unfold BrowserHandler.tile_loop_body at 1.
    healthy_steps Hwd.
    eapply post_weaken; [apply IH; lia|].
    intros r t (slices' & offset' & ss_count' & -> & Hl & Hc).
    exists (img :: slices'), offset', ss_count'.
    rewrite <- app_assoc. cbn [app List.length]. repeat split; [lia|].
    count_requests.
Qed.

Lemma module_tile_loop_healthy wd scroll_x screenshot_delay max_ss_count :
  healthy wd -> 0 <= screenshot_delay <= 9223372036 ->
  forall n fuel ss_chunks offset total_ss_count h,
    Z.of_nat n = Z.max 0 (max_ss_count - total_ss_count) -> (n <= fuel)%nat ->
    post (while fuel
            (fun '(ss_chunks, offset, total_ss_count) =>
               total_ss_count <? max_ss_count)
            (methods.tile_loop_body wd scroll_x screenshot_delay)
            (ss_chunks, offset, total_ss_count)) h
      (fun r t => exists chunks' offset' count',
         r = Ok (ss_chunks ++ chunks', offset', count') /\
         List.length chunks' = n /\ captures t = n).
Proof.
  intros Hwd Hdelay. induction n as [|n IH];
    intros fuel ss_chunks offset total_ss_count h Hn Hf.
  - assert (E : (total_ss_count <? max_ss_count) = false) by lia.
    destruct fuel; cbn [while]; rewrite E; apply post_ret;
      exists [], offset, total_ss_count; rewrite app_nil_r; repeat split.
  - assert (E : (total_ss_count <? max_ss_count) = true) by lia.
    destruct fuel as [|fuel]; [lia|]. cbn [while]. rewrite E.
    unfold methods.tile_loop_body at 1.
    healthy_steps Hwd.
    eapply post_weaken; [apply IH; lia|].
    intros r t (chunks' & offset' & count' & -> & Hl & Hc).
    exists (img :: chunks'), offset', count'.
    rewrite <- app_assoc. cbn [app List.length]. repeat split; [lia|].
    count_requests.
Qed.

(** The remainder step on a session without faults, after at least one
    tile: one capture when the remainder is not zero, none and no tile
    when it is zero. *)
Lemma handler_remainder_count self first rest total_height win_width win_height
  scroll_x screenshot_delay debug h :
  healthy (BrowserHandler.webdriver self) -> 0 <= screenshot_delay <= 9223372036 ->
  win_height <> 0 ->
  post (BrowserHandler.capture_remaining_section self (first :: rest)
          total_height win_width win_height scroll_x screenshot_delay debug) h
    (fun r t =>
       if total_height mod win_height =? 0
       then r = Ok None /\ t = []
       else (exists img, r = Ok (Some img)) /\ captures t = 1%nat).
Proof.
  intros Hwd Hdelay Hw. destruct (total_height mod win_height =? 0) eqn:E.
  - unfold BrowserHandler.capture_remaining_section.
    healthy_steps Hwd; try lia. split; reflexivity.
  - eapply post_weaken;
      [apply handler_remainder_requests; [exact Hwd|exact Hdelay|exact Hw|lia]|].
    intros r t (chrome & img & _ & -> & ->). split; [eexists; reflexivity|reflexivity].
Qed.

Lemma module_remainder_count wd first rest total_height win_width viewport
  scroll_x screenshot_delay h :
  healthy wd -> 0 <= screenshot_delay <= 9223372036 -> viewport <> 0 ->
  post (methods.capture_remaining_page wd (first :: rest)
          total_height win_width viewport scroll_x screenshot_delay) h
    (fun r t =>
       if total_height mod viewport =? 0
       then r = Ok None /\ t = []
       else (exists img, r = Ok (Some img)) /\ captures t = 1%nat).
Proof.
  intros Hwd Hdelay Hw. destruct (total_height mod viewport =? 0) eqn:E.
  - unfold methods.capture_remaining_page.
    healthy_steps Hwd; try lia. split; reflexivity.
  - eapply post_weaken;
      [apply module_remainder_requests; [exact Hwd|exact Hdelay|exact Hw|lia]|].
    intros r t (chrome & img & -> & ->). split; [eexists; reflexivity|reflexivity].
Qed.


End Tiled.

Section TiledCountRuns.
#[local] Existing Instance Fixtures.codec.


End TiledCountRuns.

(** * Further properties of the code *)

(** ** The probes on sequences of readings *)

Section ProbeRuns.


(** The growing page: five turns, five scrolls, a result. *)
Lemma handler_probe_bounded_witness :
  post (BrowserHandler.get_max_height 5
          (Fixtures.handler_on Fixtures.growing_page) 1000 5) []
    (fun r t => r <> Diverge /\ (scrolls t <= 5)%nat /\ captures t = 0%nat).
Proof.
  exact (handler_probe_bounded (Fixtures.handler_on Fixtures.growing_page)
           1000 5 5 [] (le_n 5)).
Defined.

Lemma first_stable_unbounded_at rs : forall k fuel i,
  (forall j, (j < k)%nat -> rs (2 * (i + j))%nat <> rs (2 * (i + j) + 1)%nat) ->
  rs (2 * (i + k))%nat = rs (2 * (i + k) + 1)%nat ->
  (k < fuel)%nat ->
  first_stable_unbounded rs fuel i = Ok (rs (2 * (i + k) + 1)%nat).
Proof.
  induction k as [|k IH]; intros fuel i Hu Hs Hf;
    (destruct fuel as [|fuel]; [lia|]); cbn [first_stable_unbounded].
  - rewrite Nat.add_0_r in Hs. rewrite Hs, Z.eqb_refl.
    rewrite Nat.add_0_r. reflexivity.
  - destruct (rs (2 * i)%nat =? rs (2 * i + 1)%nat) eqn:E.
    + apply Z.eqb_eq in E. specialize (Hu 0%nat ltac:(lia)).
      rewrite Nat.add_0_r in Hu. contradiction.
    + replace (i + S k)%nat with (S i + k)%nat in * by lia.
      apply IH; [|exact Hs|lia].
      intros j Hj. specialize (Hu (S j) ltac:(lia)).
      replace (i + S j)%nat with (S i + j)%nat in Hu by lia. exact Hu.
Qed.

(** The probe of [methods.py] returns the first stable reading, whatever
    it is (zero included: there is no fallback), once its turn is within
    reach: when turn [k] is the first whose two readings agree, the result
    is that reading. *)
Theorem module_probe_returns_first_stable (rs : nat -> Z) (max_width : Z)
  (k fuel : nat) :
  (forall j, (j < k)%nat -> rs (2 * j)%nat <> rs (2 * j + 1)%nat) ->
  rs (2 * k)%nat = rs (2 * k + 1)%nat ->
  (k < fuel)%nat ->
  fst (methods.get_max_height fuel (Fixtures.scripted rs) max_width [])
  = Ok (rs (2 * k)%nat).
Proof.
  intros Hu Hs Hf. rewrite module_probe_on_readings.
  rewrite (first_stable_unbounded_at rs k fuel 0); [rewrite Hs; reflexivity|..].
  - intros j Hj. apply (Hu j Hj).
  - exact Hs.
  - exact Hf.
Qed.

(** Readings 100, 200, 300, 300: the probe of [methods.py] returns 300 on
    its second turn. *)
Lemma module_probe_returns_first_stable_witness :
  fst (methods.get_max_height 2 (Fixtures.scripted Fixtures.settling) 1367 [])
  = Ok 300.
Proof.
  apply (module_probe_returns_first_stable Fixtures.settling 1367 1 2).
  - intros j Hj. assert (j = 0)%nat as -> by lia. vm_compute. discriminate.
  - reflexivity.
  - lia.
Defined.

End ProbeRuns.

(** ** Driver errors inside the tiled paths *)

Section TiledErrors.
Context `{PIL.Codec}.

(** Inside the tiled path of either variant nothing catches a driver
    error: when the session throws on any request, that request is the last
    one the tiled path makes and the tiled path raises
    [WebDriverException]. *)
Theorem tiled_paths_propagate_driver_errors (fuel : nat)
  (self : BrowserHandler.handler) (wd : browser)
  (width screenshot_delay : Z) (debug : bool) (h : history)
  (t1 : list command) (c : command) (t2 : list command) :
  is_request c = true ->
  (snd (BrowserHandler.__get_screenshot_using_cut_and_merger fuel self width
          screenshot_delay debug h) = t1 ++ c :: t2 ->
   BrowserHandler.webdriver self (h ++ t1) c = Throws ->
   t2 = [] /\
   fst (BrowserHandler.__get_screenshot_using_cut_and_merger fuel self width
          screenshot_delay debug h) = Raise WebDriverException) /\
  (snd (methods.get_screenshot_using_cut_and_merger fuel wd width
          screenshot_delay debug 15000 h) = t1 ++ c :: t2 ->
   wd (h ++ t1) c = Throws ->
   t2 = [] /\
   fst (methods.get_screenshot_using_cut_and_merger fuel wd width
          screenshot_delay debug 15000 h) = Raise WebDriverException).
Proof.
  intros Hc. split; intros E Ht.
  - exact (handler_tiled_aborts fuel self width screenshot_delay debug
             h t1 c t2 E Hc Ht).
  - exact (module_tiled_aborts fuel wd width screenshot_delay debug 15000
             h t1 c t2 E Hc Ht).
Qed.

End TiledErrors.

Section TiledErrorRuns.
#[local] Existing Instance Fixtures.codec.

(** A page of 31000 pixels whose driver throws on the second capture: the
    tiled path of [methods.py] raises [WebDriverException]. *)
Lemma tiled_paths_propagate_driver_errors_witness :
  let wd := Fixtures.flaky_page 31000 1 in
  let run := methods.get_screenshot_using_cut_and_merger 5 wd 1366 20 true
               15000 [] in
  fst run = Raise WebDriverException.
Proof.
  intros wd run.
  apply (proj2 (tiled_paths_propagate_driver_errors 5 (Fixtures.handler_on wd)
                  wd 1366 20 true [] (removelast (snd run))
                  GetScreenshotAsPng [] eq_refl)).
  - vm_compute. reflexivity.
  - vm_compute. reflexivity.
Defined.

End TiledErrorRuns.

(** ** What [BrowserHandler.get_screenshot] hands back *)

Section Validity.
Context `{PIL.Codec}.

Lemma valid_screenshot_size (png : option bytes) (size : Z) :
  ScreenshotHelper.is_valid_screenshot png size = true ->
  exists b, png = Some b /\ b <> [] /\ size < 33 + Z.of_nat (List.length b).
Proof.
  unfold ScreenshotHelper.is_valid_screenshot, ScreenshotHelper.getsizeof.
  destruct png as [[|x b]|]; try discriminate.
  intros E. exists (x :: b). repeat split; [discriminate|lia].
Qed.

(** [BrowserHandler.get_screenshot] never hands back a payload that fails
    its validity check: whatever the session, the arguments and the
    strategy (the UI automation included), a returned payload is not empty
    and weighs more than 1000 bytes by [sys.getsizeof] (33 bytes of header
    and the payload); the only other results are [None] and an exception. *)
Theorem get_screenshot_returns_valid_payload (fuel : nat)
  (self : BrowserHandler.handler) (full : bool)
  (df_wd df_ht default_height maximum_length_image : Z) (debug : bool)
  (screenshot_delay : Z) (h : history) (png : bytes) :
  fst (BrowserHandler.get_screenshot fuel self full df_wd df_ht default_height
         maximum_length_image debug screenshot_delay h) = Ok (Some png) ->
  png <> [] /\ 1000 < 33 + Z.of_nat (List.length png).
Proof.
  unfold BrowserHandler.get_screenshot. cbv zeta.
  unfold bind at 1, try_except, bind at 1.
  match goal with
  | |- context [match ?m h with _ => _ end] => destruct (m h) as [[p|e|] t]
  end; cbn.
  - destruct (ScreenshotHelper.is_valid_screenshot p 1000) eqn:E; cbn;
      [|discriminate].
    intros [= ->]. destruct (valid_screenshot_size _ _ E) as (b & [= <-] & Hb & Hs).
    split; assumption.
  - discriminate.
  - discriminate.
Qed.

End Validity.

Section ValidityRuns.
#[local] Existing Instance Fixtures.codec.

(** A static page of 9000 pixels whose screenshot is a payload of 1200
    bytes: the single-shot path returns it. *)
Lemma get_screenshot_returns_valid_payload_witness :
  let png := Fixtures.tile 1200 in
  png <> [] /\ 1000 < 33 + Z.of_nat (List.length png).
Proof.
  intros png.
  apply (get_screenshot_returns_valid_payload 5
           (Fixtures.handler_on (Fixtures.large_shot_page 9000)) true
           980 1000 22000 600000 false 5 [] png).
  vm_compute. reflexivity.
Defined.

End ValidityRuns.

(** ** The requests of the fixed-height and single-shot paths *)

Lemma healthy_png_reply `{PIL.Codec} wd h
  (Q : outcome bytes -> list command -> Prop) :
  healthy wd ->
  (forall b, wd h GetScreenshotAsPng = Returns (VBytes b) ->
             Q (Ok b) [GetScreenshotAsPng]) ->
  post (get_screenshot_as_png wd) h Q.
Proof.
  intros Hwd HQ. destruct (shots_open wd Hwd h) as (b & img & Eb & _).
  unfold post, get_screenshot_as_png, bind, call. rewrite Eb. cbn. apply HQ, Eb.
Qed.

Ltac healthy_reply_step Hwd :=
  lazymatch goal with
  | |- post (get_screenshot_as_png _) _ _ =>
      apply healthy_png_reply; [exact Hwd|intros ? ?]
  | |- _ => healthy_step Hwd
  end; cbn beta iota.

Ltac normalize_history :=
  repeat match goal with
         | E : context [(_ ++ _) ++ _] |- _ => rewrite <- app_assoc in E
         end;
  cbn [app] in *.

Section Paths.
Context `{PIL.Codec}.


End Paths.

Section SingleShotRequests.
Context `{PIL.Codec}.


End SingleShotRequests.

Section PathRuns.
#[local] Existing Instance Fixtures.codec.



End PathRuns.

(** ** The tile loop, request by request *)

Section TileLoop.
Context `{PIL.Codec}.

Lemma handler_tile_loop_requests self scroll_x screenshot_delay max_ss_count :
  healthy (BrowserHandler.webdriver self) -> 0 <= screenshot_delay <= 9223372036 ->
  forall n fuel slices offset ss_count h,
    Z.of_nat n = Z.max 0 (max_ss_count - ss_count) -> (n <= fuel)%nat ->
    post (while fuel (fun '(slices, offset, ss_count) => ss_count <? max_ss_count)
            (BrowserHandler.tile_loop_body self scroll_x screenshot_delay)
            (slices, offset, ss_count)) h
      (fun r t => exists slices',
         r = Ok (slices ++ slices', offset + heights slices',
                 ss_count + Z.of_nat n) /\
         List.length slices' = n /\
         t = tile_requests scroll_x screenshot_delay offset slices').
Proof.
  intros Hwd Hdelay.
  induction n as [|n IH]; intros fuel slices offset ss_count h Hn Hf.
  - assert (E : (ss_count <? max_ss_count) = false) by lia.
    destruct fuel; cbn [while]; rewrite E; apply post_ret;
      exists []; rewrite app_nil_r; unfold heights; cbn;
      rewrite !Z.add_0_r; repeat split.
  - assert (E : (ss_count <? max_ss_count) = true) by lia.
    destruct fuel as [|fuel]; [lia|]. cbn [while]. rewrite E.
    unfold BrowserHandler.tile_loop_body at 1.
    healthy_steps Hwd.
    eapply post_weaken; [apply IH; lia|].
    intros r t (slices' & -> & Hl & ->).
    exists (img :: slices').
    rewrite <- app_assoc, heights_cons. cbn [app List.length tile_requests].
    repeat split; [|lia].
    do 2 f_equal; [f_equal; unfold PIL.height; lia|lia].
Qed.

Lemma module_tile_loop_requests wd scroll_x screenshot_delay max_ss_count :
  healthy wd -> 0 <= screenshot_delay <= 9223372036 ->
  forall n fuel ss_chunks offset total_ss_count h,
    Z.of_nat n = Z.max 0 (max_ss_count - total_ss_count) -> (n <= fuel)%nat ->
    post (while fuel
            (fun '(ss_chunks, offset, total_ss_count) =>
               total_ss_count <? max_ss_count)
            (methods.tile_loop_body wd scroll_x screenshot_delay)
            (ss_chunks, offset, total_ss_count)) h
      (fun r t => exists chunks',
         r = Ok (ss_chunks ++ chunks', offset + heights chunks',
                 total_ss_count + Z.of_nat n) /\
         List.length chunks' = n /\
         t = tile_requests scroll_x screenshot_delay offset chunks').
Proof.
  intros Hwd Hdelay. induction n as [|n IH];
    intros fuel ss_chunks offset total_ss_count h Hn Hf.
  - assert (E : (total_ss_count <? max_ss_count) = false) by lia.
    destruct fuel; cbn [while]; rewrite E; apply post_ret;
      exists []; rewrite app_nil_r; unfold heights; cbn;
      rewrite !Z.add_0_r; repeat split.
  - assert (E : (total_ss_count <? max_ss_count) = true) by lia.
    destruct fuel as [|fuel]; [lia|]. cbn [while]. rewrite E.
    unfold methods.tile_loop_body at 1.
    healthy_steps Hwd.
    eapply post_weaken; [apply IH; lia|].
    intros r t (chunks' & -> & Hl & ->).
    exists (img :: chunks').
    rewrite <- app_assoc, heights_cons. cbn [app List.length tile_requests].
    repeat split; [|lia].
    do 2 f_equal; [f_equal; lia|lia].
Qed.


End TileLoop.

Section TileLoopRuns.
#[local] Existing Instance Fixtures.codec.


End TileLoopRuns.

(** ** What the tiled paths end with *)

Section TiledResult.
Context `{PIL.Codec}.

Lemma captured_app wd h t1 t2 :
  captured wd h (t1 ++ t2) = captured wd h t1 ++ captured wd (h ++ t1) t2.
Proof.
  revert h. induction t1 as [|c t1 IH]; intros h; cbn [app captured].
  - rewrite app_nil_r. reflexivity.
  - rewrite IH, <- !app_assoc. reflexivity.
Qed.

Lemma captured_none wd t : forall h, captures t = 0%nat -> captured wd h t = [].
Proof.
  induction t as [|c t IH]; intros h Hc; [reflexivity|].
  rewrite captures_cons in Hc. cbn [captured].
  destruct c; cbn [is_capture] in Hc; try lia; cbn [app]; apply IH; lia.
Qed.

Lemma captured_shot wd h b img :
  wd h GetScreenshotAsPng = Returns (VBytes b) -> PIL.open b = Ok img ->
  captured wd h [GetScreenshotAsPng] = [img].
Proof. intros Eb Eo. cbn [captured]. rewrite Eb, Eo. reflexivity. Qed.

Lemma healthy_capture_reply wd h
  (Q : outcome PIL.Image -> list command -> Prop) :
  healthy wd ->
  (forall img, captured wd h [GetScreenshotAsPng] = [img] ->
               Q (Ok img) [GetScreenshotAsPng]) ->
  post (capture_image wd) h Q.
Proof.
  intros Hwd HQ. destruct (shots_open wd Hwd h) as (b & img & Eb & Eo).
  unfold post, capture_image, get_screenshot_as_png, bind, call, lift.
  rewrite Eb. cbn. rewrite Eo. cbn. apply HQ. exact (captured_shot wd h b img Eb Eo).
Qed.

(** The tile loop of [methods.py] on a session without faults: the tiles
    it adds are the images of its screenshots, in the order taken. *)
Lemma module_tile_loop_captured wd scroll_x screenshot_delay max_ss_count :
  healthy wd -> 0 <= screenshot_delay <= 9223372036 ->
  forall n fuel ss_chunks offset total_ss_count h,
    Z.of_nat n = Z.max 0 (max_ss_count - total_ss_count) -> (n <= fuel)%nat ->
    post (while fuel
            (fun '(ss_chunks, offset, total_ss_count) =>
               total_ss_count <? max_ss_count)
            (methods.tile_loop_body wd scroll_x screenshot_delay)
            (ss_chunks, offset, total_ss_count)) h
      (fun r t => exists chunks' offset' count',
         r = Ok (ss_chunks ++ chunks', offset', count') /\
         List.length chunks' = n /\ captured wd h t = chunks').
Proof.
  intros Hwd Hdelay. induction n as [|n IH];
    intros fuel ss_chunks offset total_ss_count h Hn Hf.
  - assert (E : (total_ss_count <? max_ss_count) = false) by lia.
    destruct fuel; cbn [while]; rewrite E; apply post_ret;
      exists [], offset, total_ss_count; rewrite app_nil_r; repeat split.
  - assert (E : (total_ss_count <? max_ss_count) = true) by lia.
    destruct fuel as [|fuel]; [lia|]. cbn [while]. rewrite E.
    unfold methods.tile_loop_body at 1.
    repeat first
      [ lazymatch goal with
        | |- post (capture_image _) _ _ =>
            apply healthy_capture_reply; [exact Hwd|intros img Eimg];
            cbn beta iota
        end
      | healthy_step Hwd ].
    eapply post_weaken; [apply IH; lia|].
    intros r t (chunks' & offset' & count' & -> & Hl & Hc).
    exists (img :: chunks'), offset', count'.
    rewrite <- app_assoc. cbn [app List.length]. repeat split; [lia|].
    cbn [captured app] in Eimg |- *. rewrite app_nil_r in Eimg.
    rewrite Eimg. cbn [app]. f_equal.
    rewrite <- Hc. f_equal. rewrite <- !app_assoc. reflexivity.
Qed.

(** The remainder capture of [methods.py] on a session without faults,
    after at least one tile: no request when the remainder is zero, one
    screenshot otherwise, whose image it returns. *)
Lemma module_remainder_captured wd first rest total_height win_width viewport
  scroll_x screenshot_delay h :
  healthy wd -> 0 <= screenshot_delay <= 9223372036 -> viewport <> 0 ->
  post (methods.capture_remaining_page wd (first :: rest)
          total_height win_width viewport scroll_x screenshot_delay) h
    (fun r t =>
       if total_height mod viewport =? 0
       then r = Ok None /\ t = []
       else exists img, r = Ok (Some img) /\ captured wd h t = [img]).
Proof.
  intros Hwd Hdelay Hw. destruct (total_height mod viewport =? 0) eqn:E.
  - unfold methods.capture_remaining_page.
    healthy_steps Hwd; try lia. split; reflexivity.
  - unfold methods.capture_remaining_page, methods.get_window_height.
    repeat first
      [ lazymatch goal with
        | |- post (capture_image _) _ _ =>
            apply healthy_capture_reply; [exact Hwd|intros ? ?]; cbn beta iota
        end
      | healthy_step Hwd ]; try lia.
    eexists. split; [reflexivity|].
    rewrite !captured_app.
    match goal with
    | E : captured wd _ [GetScreenshotAsPng] = [_] |- _ =>
        rewrite ?app_nil_r, <- ?app_assoc in E; cbn [app] in E
    end.
    cbn [captured app]. rewrite <- ?app_assoc. cbn [app].
    assumption.
Qed.



End TiledResult.

Section TiledResultRuns.
#[local] Existing Instance Fixtures.codec.



End TiledResultRuns.

(** ** The other methods of [BrowserHandler] *)

Section HostRules.
Local Open Scope host_scope.

Lemma hpost_ret {A} (a : A) h (Q : Host.result A -> list Host.request -> Prop) :
  Q (Host.Done a) [] -> Host.hpost (Host.hret a) h Q.
Proof. intros HQ. exact HQ. Qed.

Lemma hpost_raise {A} e h (Q : Host.result A -> list Host.request -> Prop) :
  Q (Host.Raised e) [] -> Host.hpost (Host.hraise e) h Q.
Proof. intros HQ. exact HQ. Qed.

Lemma hpost_sleep ms h (Q : Host.result unit -> list Host.request -> Prop) :
  (forall e, e = OverflowError \/ e = ValueError ->
             ~ 0 <= ms <= 9223372036000 ->
             Q (Host.Raised (Host.Builtin e)) []) ->
  (0 <= ms <= 9223372036000 -> Q (Host.Done tt) [Host.Os (Host.Wait ms)]) ->
  Host.hpost (Host.time_sleep ms) h Q.
Proof.
  intros Hn Hp. unfold Host.hpost, Host.time_sleep.
  destruct (Z.ltb_spec 9223372036000 (Z.abs ms)); cbn; [apply Hn; auto; lia|].
  destruct (Z.ltb_spec ms 0); cbn; [apply Hn; auto; lia|apply Hp; lia].
Qed.

Lemma hpost_sleep_nonneg ms h
  (Q : Host.result unit -> list Host.request -> Prop) :
  0 <= ms <= 9223372036000 -> Q (Host.Done tt) [Host.Os (Host.Wait ms)] ->
  Host.hpost (Host.time_sleep ms) h Q.
Proof. intros Hd HQ. apply hpost_sleep; [intros; lia|auto]. Qed.

Lemma hpost_ask w c h (Q : Host.result Host.data -> list Host.request -> Prop) :
  (forall d, Host.on_call w h c = Host.Gives d -> Q (Host.Done d) [Host.Os c]) ->
  (forall e, Host.on_call w h c = Host.Fails e -> Q (Host.Raised e) [Host.Os c]) ->
  Host.hpost (Host.ask w c) h Q.
Proof.
  intros Hg Hf. unfold Host.hpost, Host.ask.
  destruct (Host.on_call w h c) as [d|e]; [apply Hg|apply Hf]; reflexivity.
Qed.

Lemma hpost_bind {A B} (m : Host.H A) (f : A -> Host.H B) h
  (Q : Host.result B -> list Host.request -> Prop) :
  Host.hpost m h (fun r t =>
    match r with
    | Host.Done a => Host.hpost (f a) (h ++ t) (fun r' t' => Q r' (t ++ t'))
    | Host.Raised e => Q (Host.Raised e) t
    | Host.Stuck => Q Host.Stuck t
    end) ->
  Host.hpost (Host.hbind m f) h Q.
Proof.
  unfold Host.hpost, Host.hbind. destruct (m h) as [[a|e|] t]; cbn; auto.
  destruct (f a (h ++ t)) as [r' t']; cbn; auto.
Qed.

Lemma hpost_try {A} (m : Host.H A) (handler : Host.error -> Host.H A) h
  (Q : Host.result A -> list Host.request -> Prop) :
  Host.hpost m h (fun r t =>
    match r with
    | Host.Raised e =>
        Host.hpost (handler e) (h ++ t) (fun r' t' => Q r' (t ++ t'))
    | _ => Q r t
    end) ->
  Host.hpost (Host.htry m handler) h Q.
Proof.
  unfold Host.hpost, Host.htry. destruct (m h) as [[a|e|] t]; cbn; auto.
  destruct (handler e (h ++ t)) as [r' t']; cbn; auto.
Qed.

Lemma hpost_finally {A} (m : Host.H A) (cleanup : Host.H unit) h
  (Q : Host.result A -> list Host.request -> Prop) :
  Host.hpost m h (fun r t =>
    match r with
    | Host.Stuck => Q Host.Stuck t
    | _ =>
        Host.hpost cleanup (h ++ t) (fun r' t' =>
          match r' with
          | Host.Done _ => Q r (t ++ t')
          | Host.Raised e => Q (Host.Raised e) (t ++ t')
          | Host.Stuck => Q Host.Stuck (t ++ t')
          end)
    end) ->
  Host.hpost (Host.hfinally m cleanup) h Q.
Proof.
  unfold Host.hpost, Host.hfinally. destruct (m h) as [[a|e|] t]; cbn; auto;
    destruct (cleanup (h ++ t)) as [[u|e'|] t']; cbn; auto.
Qed.

Lemma hpost_weaken {A} (m : Host.H A) h
  (P Q : Host.result A -> list Host.request -> Prop) :
  Host.hpost m h P -> (forall r t, P r t -> Q r t) -> Host.hpost m h Q.
Proof. unfold Host.hpost. auto. Qed.

Lemma hpost_run {A} (m : Host.H A) h
  (Q : Host.result A -> list Host.request -> Prop) :
  Host.hpost m h Q -> exists r t, m h = (r, t) /\ Q r t.
Proof.
  unfold Host.hpost. intros HQ. destruct (m h) as [r t]. eauto.
Qed.

(** A piece of the capture code run on the host keeps what holds of it on
    every session. *)
Lemma hpost_of_driver {A} w (m : browser -> M A) h
  (P : outcome A -> list command -> Prop)
  (Q : Host.result A -> list Host.request -> Prop) :
  (forall wd, post (m wd) [] P) ->
  (forall r t, P r t -> Q (Host.of_outcome r) (map Host.Driver t)) ->
  Host.hpost (Host.of_driver w m) h Q.
Proof.
  intros Hm HQ. unfold Host.hpost, Host.of_driver.
  specialize (Hm (fun t c => Host.on_driver w (h ++ map Host.Driver t) c)).
  unfold post in Hm.
  destruct (m _ []) as [r t]. cbn in *. apply HQ, Hm.
Qed.

Lemma page_scrolls_app t1 t2 :
  Host.page_scrolls (t1 ++ t2) = (Host.page_scrolls t1 + Host.page_scrolls t2)%nat.
Proof. unfold Host.page_scrolls. rewrite filter_app, length_app. reflexivity. Qed.

Lemma page_scrolls_driver t : Host.page_scrolls (map Host.Driver t) = scrolls t.
Proof.
  unfold Host.page_scrolls, scrolls.
  induction t as [|c t IH]; [reflexivity|]. cbn [map filter Host.is_page_scroll].
  destruct (is_scroll c); cbn [List.length]; rewrite IH; reflexivity.
Qed.

Lemma calls_app c t1 t2 :
  Host.calls c (t1 ++ t2) = (Host.calls c t1 + Host.calls c t2)%nat.
Proof. unfold Host.calls. rewrite filter_app, length_app. reflexivity. Qed.

End HostRules.

(** *** The retried lookups *)

Section Retries.
Local Open Scope host_scope.

Lemma failed_attempts_S c pause n :
  Host.failed_attempts c pause (S n)
  = (Host.Os c :: pause) ++ Host.failed_attempts c pause n.
Proof. reflexivity. Qed.

(** A loop that asks [q] until it is answered, at most [r] times, and
    makes the requests [pause] after each failure. *)
Lemma retry_loop (w : Host.world) (q : Host.call) (pause : list Host.request)
  (cond : Host.data * Z -> bool)
  (body : Host.data * Z -> Host.H (ctl (Host.data * Z))) :
  (forall v retry, cond (v, retry) = (0 <? retry)) ->
  (forall v retry h d, Host.on_call w h q = Host.Gives d ->
     body (v, retry) h = (Host.Done (Break (d, retry)), [Host.Os q])) ->
  (forall v retry h e, Host.on_call w h q = Host.Fails e ->
     body (v, retry) h
     = (Host.Done (Continue (v, retry - 1)), Host.Os q :: pause)) ->
  forall (r fuel : nat) (v : Host.data) (h : list Host.request),
    (r <= fuel)%nat ->
    exists n, (n <= r)%nat /\
      (forall j, (j < n)%nat ->
         exists e, Host.on_call w (h ++ Host.failed_attempts q pause j) q
                   = Host.Fails e) /\
      if (n <? r)%nat then
        exists d,
          Host.on_call w (h ++ Host.failed_attempts q pause n) q = Host.Gives d /\
          Host.hwhile fuel cond body (v, Z.of_nat r) h
          = (Host.Done (d, Z.of_nat (r - n)),
             Host.failed_attempts q pause n ++ [Host.Os q])
      else
        Host.hwhile fuel cond body (v, Z.of_nat r) h
        = (Host.Done (v, 0), Host.failed_attempts q pause r).
Proof.
  intros Hc Hg Hf. induction r as [|r IH]; intros fuel v h Hfuel.
  - exists 0%nat. split; [lia|]. split; [intros j Hj; lia|].
    cbn [Nat.ltb Nat.leb].
    destruct fuel; cbn [Host.hwhile]; rewrite Hc; reflexivity.
  - destruct fuel as [|fuel]; [lia|].
    assert (Ec : (0 <? Z.of_nat (S r)) = true) by (apply Z.ltb_lt; lia).
    cbn [Host.hwhile]. rewrite Hc, Ec. unfold Host.hbind.
    destruct (Host.on_call w h q) as [d|e] eqn:E.
    + exists 0%nat. split; [lia|]. split; [intros j Hj; lia|].
      assert (En : (0 <? S r)%nat = true) by (apply Nat.ltb_lt; lia).
      rewrite En. exists d. cbn [Host.failed_attempts repeat List.concat].
      rewrite app_nil_r. split; [exact E|].
      rewrite (Hg v _ h d E). reflexivity.
    + rewrite (Hf v _ h e E). cbn beta iota.
      replace (Z.of_nat (S r) - 1) with (Z.of_nat r) by lia.
      destruct (IH fuel v (h ++ Host.Os q :: pause) ltac:(lia))
        as (n & Hn & Hfail & Hres).
      exists (S n). split; [lia|]. split.
      * intros [|j] Hj.
        -- cbn [Host.failed_attempts repeat List.concat]. rewrite app_nil_r. eauto.
        -- rewrite failed_attempts_S, app_assoc. apply Hfail. lia.
      * replace (S n <? S r)%nat with (n <? r)%nat
          by (destruct (Nat.ltb_spec n r), (Nat.ltb_spec (S n) (S r)); lia).
        destruct (n <? r)%nat.
        -- destruct Hres as (d & Ed & Erun). exists d.
           rewrite failed_attempts_S, app_assoc. split; [exact Ed|].
           rewrite Erun. cbn [Nat.sub]. rewrite <- app_assoc. reflexivity.
        -- rewrite Hres, failed_attempts_S. reflexivity.
Qed.

Lemma lookup_result (loop : Host.H (Host.data * Z)) h d z t :
  loop h = (Host.Done (d, z), t) ->
  Host.hbind loop (fun '(x, _) => Host.hret x) h = (Host.Done d, t).
Proof.
  intros E. unfold Host.hbind. rewrite E. cbn. rewrite app_nil_r. reflexivity.
Qed.

Lemma script_retry_body self w s (links : Host.data) (retry : Z) h :
  Host.webdriver_is_set self = true ->
  (forall d, Host.on_call w h (Host.ExecuteJs s) = Host.Gives d ->
     Host.htry (links' <- Host.execute_script self w s ;;
                Host.hret (Break (links', retry)))
       (fun e => Host.hret (Continue (links, retry - 1))) h
     = (Host.Done (Break (d, retry)), [Host.Os (Host.ExecuteJs s)])) /\
  (forall e, Host.on_call w h (Host.ExecuteJs s) = Host.Fails e ->
     Host.htry (links' <- Host.execute_script self w s ;;
                Host.hret (Break (links', retry)))
       (fun e => Host.hret (Continue (links, retry - 1))) h
     = (Host.Done (Continue (links, retry - 1)), [Host.Os (Host.ExecuteJs s)])).
Proof.
  intros Hset.
  split; intros x E;
    unfold Host.htry, Host.hbind, Host.execute_script, Host.ask, Host.hret;
    rewrite Hset, E; reflexivity.
Qed.

Lemma script_lookup_retries self w s fuel h :
  Host.webdriver_is_set self = true -> (3 <= fuel)%nat ->
  Host.retried (Host.ExecuteJs s) [] (Host.DStrings [])
    ('(links, _) <-
       Host.hwhile fuel (fun '(links, retry) => 0 <? retry)
         (fun '(links, retry) =>
            Host.htry (links' <- Host.execute_script self w s ;;
                       Host.hret (Break (links', retry)))
              (fun e => Host.hret (Continue (links, retry - 1))))
         (Host.DStrings [], 3) ;;
     Host.hret links) w h.
Proof.
  intros Hset Hfuel.
  destruct (retry_loop w (Host.ExecuteJs s) []
              (fun '(links, retry) => 0 <? retry)
              (fun '(links, retry) =>
                 Host.htry (links' <- Host.execute_script self w s ;;
                            Host.hret (Break (links', retry)))
                   (fun e => Host.hret (Continue (links, retry - 1))))
              (fun v retry => eq_refl)
              (fun v retry h0 d E =>
                 proj1 (script_retry_body self w _ v retry h0 Hset) d E)
              (fun v retry h0 e E =>
                 proj2 (script_retry_body self w _ v retry h0 Hset) e E)
              3%nat fuel (Host.DStrings []) h Hfuel)
    as (n & Hn & Hfail & Hres).
  exists n. split; [exact Hn|]. split; [exact Hfail|].
  destruct (n <? 3)%nat.
  - destruct Hres as (d & Ed & Erun). exists d. split; [exact Ed|].
    eapply lookup_result. exact Erun.
  - eapply lookup_result. exact Hres.
Qed.

Lemma source_retry_body self w (page_source : Host.data) (retry : Z) h :
  Host.webdriver_is_set self = true ->
  (forall d, Host.on_call w h Host.PageSource = Host.Gives d ->
     Host.htry (page_source' <- Host.driver_call self w Host.PageSource ;;
                Host.hret (Break (page_source', retry)))
       (fun e => Host.time_sleep 500 ;;
                 Host.hret (Continue (page_source, retry - 1))) h
     = (Host.Done (Break (d, retry)), [Host.Os Host.PageSource])) /\
  (forall e, Host.on_call w h Host.PageSource = Host.Fails e ->
     Host.htry (page_source' <- Host.driver_call self w Host.PageSource ;;
                Host.hret (Break (page_source', retry)))
       (fun e => Host.time_sleep 500 ;;
                 Host.hret (Continue (page_source, retry - 1))) h
     = (Host.Done (Continue (page_source, retry - 1)),
        [Host.Os Host.PageSource; Host.Os (Host.Wait 500)])).
Proof.
  intros Hset.
  split; intros x E;
    unfold Host.htry, Host.hbind, Host.driver_call, Host.ask, Host.hret,
      Host.time_sleep;
    rewrite Hset, E; reflexivity.
Qed.

(** The three retried lookups never raise and ask the browser at most
    three times. They hand back the first answer the browser gives: when
    [n < 3] attempts fail and the next one is answered, that answer is the
    result, after [n + 1] requests; when three attempts fail the result is
    the empty list for [get_page_links] and [get_page_src_urls] and [None]
    for [get_page_source], which also waits half a second after each
    failure. Without a webdriver the first two make no request and return
    the empty list, the third waits three times and returns [None]. *)
Theorem lookups_retry_three_times (fuel : nat) (self : Host.handler)
  (w : Host.world) (h : list Host.request) :
  (3 <= fuel)%nat ->
  (Host.webdriver_is_set self = true ->
   Host.retried (Host.ExecuteJs Host.AllHrefs) [] (Host.DStrings [])
     (Host.get_page_links fuel self w) w h /\
   Host.retried (Host.ExecuteJs Host.SrcUrls) [] (Host.DStrings [])
     (Host.get_page_src_urls fuel self w) w h /\
   Host.retried Host.PageSource [Host.Os (Host.Wait 500)] Host.DNone
     (Host.get_page_source fuel self w) w h) /\
  (Host.webdriver_is_set self = false ->
   Host.get_page_links fuel self w h = (Host.Done (Host.DStrings []), []) /\
   Host.get_page_src_urls fuel self w h = (Host.Done (Host.DStrings []), []) /\
   Host.get_page_source fuel self w h
   = (Host.Done Host.DNone,
      [Host.Os (Host.Wait 500); Host.Os (Host.Wait 500); Host.Os (Host.Wait 500)])).
Proof.
  intros Hfuel. split.
  - intros Hset. split; [|split].
    + exact (script_lookup_retries self w Host.AllHrefs fuel h Hset Hfuel).
    + exact (script_lookup_retries self w Host.SrcUrls fuel h Hset Hfuel).
    + destruct (retry_loop w Host.PageSource [Host.Os (Host.Wait 500)]
                  (fun '(page_source, retry) => 0 <? retry)
                  (fun '(page_source, retry) =>
                     Host.htry
                       (page_source' <- Host.driver_call self w Host.PageSource ;;
                        Host.hret (Break (page_source', retry)))
                       (fun e => Host.time_sleep 500 ;;
                                 Host.hret (Continue (page_source, retry - 1))))
                  (fun v retry => eq_refl)
                  (fun v retry h0 d E =>
                     proj1 (source_retry_body self w v retry h0 Hset) d E)
                  (fun v retry h0 e E =>
                     proj2 (source_retry_body self w v retry h0 Hset) e E)
                  3%nat fuel Host.DNone h Hfuel)
        as (n & Hn & Hfail & Hres).
      exists n. split; [exact Hn|]. split; [exact Hfail|].
      destruct (n <? 3)%nat.
      * destruct Hres as (d & Ed & Erun). exists d. split; [exact Ed|].
        eapply lookup_result. exact Erun.
      * eapply lookup_result. exact Hres.
  - intros Hunset.
    destruct fuel as [|[|[|fuel]]]; try lia.
    unfold Host.get_page_links, Host.get_page_src_urls, Host.get_page_source,
      Host.hbind, Host.hwhile, Host.htry, Host.execute_script, Host.driver_call,
      Host.hraise, Host.hret, Host.time_sleep.
    rewrite Hunset. cbn. repeat split; destruct fuel; reflexivity.
Qed.

End Retries.

Ltac hstep :=
  lazymatch goal with
  | |- Host.hpost (Host.hbind _ _) _ _ => apply hpost_bind
  | |- Host.hpost (Host.htry _ _) _ _ => apply hpost_try
  | |- Host.hpost (Host.hfinally _ _) _ _ => apply hpost_finally
  | |- Host.hpost (Host.hret _) _ _ => apply hpost_ret
  | |- Host.hpost (Host.hraise _) _ _ => apply hpost_raise
  | |- Host.hpost (Host.time_sleep _) _ _ =>
      first [apply hpost_sleep_nonneg; [lia|]
            |apply hpost_sleep; [intros ? ? ?|intros ?]]
  | |- Host.hpost (Host.ask _ _) _ _ => apply hpost_ask; intros ? ?
  end; cbn beta iota.

Ltac hsteps := repeat hstep.

(** *** Reading the downloaded screenshot *)

Section Download.
Local Open Scope host_scope.

Lemma listing_loop_bounded (w : Host.world) (dir : string) :
  (forall h, exists files,
     Host.on_call w h (Host.Listdir (Some dir)) = Host.Gives (Host.DStrings files)) ->
  forall (r fuel : nat) (image_path : option string) (h : list Host.request),
    (r <= fuel)%nat ->
    Host.hpost
      (Host.hwhile fuel (fun '(image_path, retry) => retry <? 6)
         (fun '(image_path, retry) =>
            files <- (d <- Host.ask w (Host.Listdir (Some dir)) ;;
                      Host.as_strings d) ;;
            match files with
            | [file_name] =>
                image_path' <- Host.path_join (Some dir) file_name ;;
                Host.hret (Break (Some image_path', retry))
            | _ =>
                Host.time_sleep 1000 ;;
                Host.hret (Continue (image_path, retry + 1))
            end)
         (image_path, 6 - Z.of_nat r)) h
      (fun res t =>
         (exists s, res = Host.Done s) /\
         (Host.calls (Host.Listdir (Some dir)) t <= r)%nat /\
         Host.calls (Host.OpenRead dir) t = 0%nat /\
         Host.calls (Host.Rmtree (Some dir)) t = 0%nat).
Proof.
  intros Hls. induction r as [|r IH]; intros fuel image_path h Hfuel.
  - assert (Ec : (6 - Z.of_nat 0 <? 6) = false) by reflexivity.
    destruct fuel; cbn [Host.hwhile]; rewrite Ec; apply hpost_ret;
      repeat split; eauto.
  - destruct fuel as [|fuel]; [lia|].
    assert (Ec : (6 - Z.of_nat (S r) <? 6) = true) by (apply Z.ltb_lt; lia).
    cbn [Host.hwhile]. rewrite Ec.
    destruct (Hls h) as (files & Efiles).
    hstep. hstep. hstep. hstep; [|congruence].
    rewrite Efiles in H. injection H as <-. cbn [Host.as_strings]. hstep.
    destruct files as [|file_name [|other files]].
    + hsteps. cbn [app].
      replace (6 - Z.of_nat (S r) + 1) with (6 - Z.of_nat r) by lia.
      eapply hpost_weaken; [apply IH; lia|].
      intros res t (Hd & Hl & Ho & Hr). split; [exact Hd|].
      change (Host.Os (Host.Listdir (Some dir)) :: Host.Os (Host.Wait 1000) :: t)
        with ([Host.Os (Host.Listdir (Some dir)); Host.Os (Host.Wait 1000)] ++ t).
      rewrite !calls_app, Ho, Hr. cbn. repeat split; lia.
    + unfold Host.path_join.
      destruct (String.prefix "/" file_name);
        [|destruct ((String.length dir =? 0)%nat || Host.ends_with_slash dir)];
        hsteps; cbn; repeat split; eauto; lia.
    + hsteps. cbn [app].
      replace (6 - Z.of_nat (S r) + 1) with (6 - Z.of_nat r) by lia.
      eapply hpost_weaken; [apply IH; lia|].
      intros res t (Hd & Hl & Ho & Hr). split; [exact Hd|].
      change (Host.Os (Host.Listdir (Some dir)) :: Host.Os (Host.Wait 1000) :: t)
        with ([Host.Os (Host.Listdir (Some dir)); Host.Os (Host.Wait 1000)] ++ t).
      rewrite !calls_app, Ho, Hr. cbn. repeat split; lia.
Qed.

Lemma host_sleep_nonneg ms h :
  0 <= ms <= 9223372036000 ->
  Host.time_sleep ms h = (Host.Done tt, [Host.Os (Host.Wait ms)]).
Proof.
  intros Hms. unfold Host.time_sleep.
  destruct (Z.ltb_spec 9223372036000 (Z.abs ms)); [lia|].
  destruct (Z.ltb_spec ms 0); [lia|reflexivity].
Qed.


End Download.

(** *** Keystrokes and clicks *)

Section Keystrokes.
Local Open Scope host_scope.

Lemma for_range_accepted w cmd : forall n h,
  (forall j, (j < n)%nat ->
     exists d, Host.on_call w (h ++ repeat (Host.Os (Host.Subprocess cmd)) j)
                 (Host.Subprocess cmd) = Host.Gives d) ->
  Host.for_range n (Host.subprocess_run w cmd) h
  = (Host.Done tt, repeat (Host.Os (Host.Subprocess cmd)) n).
Proof.
  induction n as [|n IH]; intros h Hall; [reflexivity|].
  cbn [Host.for_range]. unfold Host.hbind at 1, Host.subprocess_run at 1.
  unfold Host.hbind at 1, Host.ask at 1.
  destruct (Hall 0%nat ltac:(lia)) as (d & Ed). cbn [repeat] in Ed.
  rewrite app_nil_r in Ed. rewrite Ed. cbn beta iota.
  unfold Host.hret at 1. cbn beta iota. rewrite app_nil_r.
  rewrite IH; [reflexivity|].
  intros j Hj. destruct (Hall (S j) ltac:(lia)) as (d' & Ed').
  exists d'. rewrite <- app_assoc. exact Ed'.
Qed.

Lemma for_range_rejected w cmd e : forall n j h,
  (j < n)%nat ->
  (forall i, (i < j)%nat ->
     exists d, Host.on_call w (h ++ repeat (Host.Os (Host.Subprocess cmd)) i)
                 (Host.Subprocess cmd) = Host.Gives d) ->
  Host.on_call w (h ++ repeat (Host.Os (Host.Subprocess cmd)) j)
    (Host.Subprocess cmd) = Host.Fails e ->
  Host.for_range n (Host.subprocess_run w cmd) h
  = (Host.Raised e, repeat (Host.Os (Host.Subprocess cmd)) (S j)).
Proof.
  induction n as [|n IH]; intros j h Hj Hall Ej; [lia|].
  cbn [Host.for_range]. unfold Host.hbind at 1, Host.subprocess_run at 1.
  unfold Host.hbind at 1, Host.ask at 1.
  destruct j as [|j].
  - cbn [repeat] in Ej. rewrite app_nil_r in Ej. rewrite Ej. reflexivity.
  - destruct (Hall 0%nat ltac:(lia)) as (d & Ed). cbn [repeat] in Ed.
    rewrite app_nil_r in Ed. rewrite Ed. cbn beta iota.
    unfold Host.hret at 1. cbn beta iota. rewrite app_nil_r.
    rewrite (IH j); [reflexivity|lia| |].
    + intros i Hi. destruct (Hall (S i) ltac:(lia)) as (d' & Ed').
      exists d'. rewrite <- app_assoc. exact Ed'.
    + rewrite <- app_assoc. exact Ej.
Qed.

(** [get_screenshot_xdotool] with a zoom-out count [n] configured: when
    every keystroke is accepted it presses zoom-out [n] times, waits three
    seconds and presses the screenshot keys. When a zoom-out keystroke
    fails with [CalledProcessError], it stops there: the screenshot keys
    are never pressed, and it returns without raising. *)
Theorem xdotool_keystrokes (self : Host.handler) (w : Host.world)
  (h : list Host.request) (n : Z) (rest : list (option Z)) :
  Host.zoom_out self = Some (Some n :: rest) ->
  let zoom := Host.Os (Host.Subprocess Host.zoom_out_command) in
  ((forall j, (j < Z.to_nat n)%nat ->
      exists d, Host.on_call w (h ++ repeat zoom j)
                  (Host.Subprocess Host.zoom_out_command) = Host.Gives d) ->
   (exists d, Host.on_call w
                (h ++ repeat zoom (Z.to_nat n) ++ [Host.Os (Host.Wait 3000)])
                (Host.Subprocess Host.screenshot_command) = Host.Gives d) ->
   Host.get_screenshot_xdotool self w h
   = (Host.Done tt,
      repeat zoom (Z.to_nat n)
      ++ [Host.Os (Host.Wait 3000);
          Host.Os (Host.Subprocess Host.screenshot_command)])) /\
  (forall j, (j < Z.to_nat n)%nat ->
     (forall i, (i < j)%nat ->
        exists d, Host.on_call w (h ++ repeat zoom i)
                    (Host.Subprocess Host.zoom_out_command) = Host.Gives d) ->
     Host.on_call w (h ++ repeat zoom j)
       (Host.Subprocess Host.zoom_out_command) = Host.Fails Host.CalledProcessError ->
     Host.get_screenshot_xdotool self w h = (Host.Done tt, repeat zoom (S j))).
Proof.
  intros Hz zoom. split.
  - intros Hall (d & Ed).
    unfold Host.get_screenshot_xdotool. cbv zeta. rewrite Hz.
    unfold Host.htry, Host.hbind at 1.
    rewrite (for_range_accepted w _ _ h Hall). cbn beta iota.
    unfold Host.hbind at 1. rewrite host_sleep_nonneg by lia. cbn beta iota.
    unfold Host.subprocess_run, Host.hbind, Host.ask.
    rewrite <- app_assoc. fold zoom. rewrite Ed. reflexivity.
  - intros j Hj Hall Ej.
    unfold Host.get_screenshot_xdotool. cbv zeta. rewrite Hz.
    unfold Host.htry, Host.hbind at 1.
    rewrite (for_range_rejected w _ _ _ j h Hj Hall Ej). cbn beta iota.
    unfold Host.hret. rewrite app_nil_r. reflexivity.
Qed.

Lemma for_range_quiet w cmd c : forall n h,
  Host.hpost (Host.for_range n (Host.subprocess_run w cmd)) h
    (fun r t => r <> Host.Stuck /\
                Host.calls (Host.SwitchToFrame c) t = 0%nat).
Proof.
  induction n as [|n IH]; intros h; cbn [Host.for_range].
  - hstep. split; [discriminate|reflexivity].
  - unfold Host.subprocess_run at 1. hstep. hstep. hstep.
    + hstep. eapply hpost_weaken; [apply IH|].
      intros r t (Hr & Hc). split; [exact Hr|].
      rewrite !calls_app, Hc. reflexivity.
    + split; [discriminate|reflexivity].
Qed.

Lemma xdotool_quiet self w c h :
  Host.hpost (Host.get_screenshot_xdotool self w) h
    (fun r t => r <> Host.Stuck /\
                Host.calls (Host.SwitchToFrame c) t = 0%nat).
Proof.
  unfold Host.get_screenshot_xdotool. cbv zeta. hstep. hstep.
  assert (Hzoom : forall h',
    Host.hpost
      match Host.zoom_out self with
      | Some (Some n :: _) =>
          Host.for_range (Z.to_nat n)
            (Host.subprocess_run w Host.zoom_out_command)
      | _ => Host.hret tt
      end h'
      (fun r t => r <> Host.Stuck /\
                  Host.calls (Host.SwitchToFrame c) t = 0%nat)).
  { intros h'. destruct (Host.zoom_out self) as [[|[n|] l]|];
      try (hstep; split; [discriminate|reflexivity]).
    apply for_range_quiet. }
  eapply hpost_weaken; [apply Hzoom|].
  intros [[]|e|] t (Hr & Hc); cbn beta iota.
  - hstep. hstep. unfold Host.subprocess_run. hstep. hstep.
    + hstep. rewrite !calls_app, Hc. split; [discriminate|reflexivity].
    + destruct e; hsteps; rewrite ?calls_app, Hc;
        (split; [discriminate|reflexivity]).
  - destruct e; hsteps; rewrite ?calls_app, ?app_nil_r, Hc;
      (split; [discriminate|try reflexivity]).
  - contradiction.
Qed.

Lemma switch_loop_bounded self w : forall (r fuel : nat) (success0 : bool) h,
  (r <= fuel)%nat ->
  Host.hpost
    (Host.hwhile fuel (fun '(retry, success) => retry <? 6)
       (fun '(retry, success) =>
          Host.htry
            (Host.driver_call self w
               (Host.SwitchToFrame Host.preselection_iframe) ;;
             Host.hret (Break (retry, true)))
            (fun e => Host.time_sleep 1000 ;;
                      Host.hret (Continue (retry + 1, success))))
       (6 - Z.of_nat r, success0)) h
    (fun res t =>
       exists retry success,
         res = Host.Done (retry, success) /\
         (Host.calls (Host.SwitchToFrame Host.preselection_iframe) t <= r)%nat /\
         (success = true ->
          success0 = true \/
          exists t1 d,
            t = t1 ++ [Host.Os (Host.SwitchToFrame Host.preselection_iframe)] /\
            Host.on_call w (h ++ t1)
              (Host.SwitchToFrame Host.preselection_iframe) = Host.Gives d)).
Proof.
  induction r as [|r IH]; intros fuel success0 h Hfuel.
  - assert (Ec : (6 - Z.of_nat 0 <? 6) = false) by reflexivity.
    destruct fuel; cbn [Host.hwhile]; rewrite Ec; apply hpost_ret;
      exists (6 - Z.of_nat 0), success0; repeat split; auto.
  - destruct fuel as [|fuel]; [lia|].
    assert (Ec : (6 - Z.of_nat (S r) <? 6) = true) by (apply Z.ltb_lt; lia).
    cbn [Host.hwhile]. rewrite Ec.
    assert (Hnext : forall t0,
      (Host.calls (Host.SwitchToFrame Host.preselection_iframe) t0 <= 1)%nat ->
      Host.hpost
        (Host.hwhile fuel (fun '(retry, success) => retry <? 6)
           (fun '(retry, success) =>
              Host.htry
                (Host.driver_call self w
                   (Host.SwitchToFrame Host.preselection_iframe) ;;
                 Host.hret (Break (retry, true)))
                (fun e => Host.time_sleep 1000 ;;
                          Host.hret (Continue (retry + 1, success))))
           (6 - Z.of_nat (S r) + 1, success0)) (h ++ t0)
        (fun res t =>
           exists retry success,
             res = Host.Done (retry, success) /\
             (Host.calls (Host.SwitchToFrame Host.preselection_iframe)
                (t0 ++ t) <= S r)%nat /\
             (success = true ->
              success0 = true \/
              exists t1 d,
                t0 ++ t
                = t1 ++ [Host.Os (Host.SwitchToFrame Host.preselection_iframe)] /\
                Host.on_call w (h ++ t1)
                  (Host.SwitchToFrame Host.preselection_iframe) = Host.Gives d))).
    { intros t0 Ht0.
      replace (6 - Z.of_nat (S r) + 1) with (6 - Z.of_nat r) by lia.
      eapply hpost_weaken; [apply IH; lia|].
      intros res t (retry & success & -> & Hc & Hs).
      exists retry, success. split; [reflexivity|].
      split; [rewrite calls_app; lia|].
      intros Es. destruct (Hs Es) as [E0|(t1 & d & -> & Ed)]; [left; exact E0|].
      right. exists (t0 ++ t1), d. rewrite !app_assoc. split; [reflexivity|].
      exact Ed. }
    hstep. hstep. hstep. unfold Host.driver_call at 1.
    destruct (Host.webdriver_is_set self).
    + hstep.
      * hsteps. eexists _, true. split; [reflexivity|].
        split; [cbn; lia|]. intros _. right.
        exists [], d. rewrite !app_nil_r. split; [reflexivity|assumption].
      * hsteps.
        exact (Hnext [Host.Os (Host.SwitchToFrame Host.preselection_iframe);
                      Host.Os (Host.Wait 1000)] ltac:(cbn; lia)).
    + hsteps. exact (Hnext [Host.Os (Host.Wait 1000)] ltac:(cbn; lia)).
Qed.

(** [browser_click_buttons] returns or raises after at most five
    attempts to enter the preselection frame, whatever the browser does.
    It returns [True] only when one of those attempts was answered; when
    the frame never appears it still goes on clicking, and returns [None]
    if those clicks pass. *)
Theorem click_buttons_reports_frame (fuel : nat) (self : Host.handler)
  (w : Host.world) (screenshot_delay : Z) (h : list Host.request) :
  (5 <= fuel)%nat ->
  Host.hpost (Host.browser_click_buttons fuel self w screenshot_delay) h
    (fun r t =>
       r <> Host.Stuck /\ r <> Host.Done (Some false) /\
       (Host.calls (Host.SwitchToFrame Host.preselection_iframe) t <= 5)%nat /\
       (r = Host.Done (Some true) ->
        exists t1 t2 d,
          t = t1 ++ Host.Os (Host.SwitchToFrame Host.preselection_iframe) :: t2 /\
          Host.on_call w (h ++ t1)
            (Host.SwitchToFrame Host.preselection_iframe) = Host.Gives d)).
Proof.
  intros Hfuel. unfold Host.browser_click_buttons, Host.switch_loop.
  hstep. hstep. hstep.
  eapply hpost_weaken; [apply (xdotool_quiet self w Host.preselection_iframe)|].
  intros [[]|e|] tx (Hrx & Hcx); cbn beta iota; [| |contradiction].
  - hstep. hstep;
      [split; [discriminate|]; split; [discriminate|];
       split; [rewrite !calls_app, Hcx; cbn; lia|]; intros Er; discriminate|].
    hstep.
    eapply hpost_weaken;
      [apply (switch_loop_bounded self w 5 fuel false); exact Hfuel|].
    intros res tl (retry & success & -> & Hcl & Hs). cbn beta iota.
    set (n := Host.calls (Host.SwitchToFrame Host.preselection_iframe) tl) in *.
    unfold Host.click_by_class_name, Host.driver_call.
    destruct (Host.webdriver_is_set self), success; hsteps.
    all: split; [discriminate|]; split; [discriminate|].
    all: split; [rewrite !calls_app; fold n; rewrite Hcx; cbn; lia|].
    all: intros Er; try discriminate.
    all: destruct (Hs eq_refl) as [F|(t1 & d' & Et & Ed)]; [discriminate|].
    clearbody n. subst tl.
    exists ([Host.Os (Host.Wait 1000)] ++ tx
            ++ [Host.Os (Host.Wait (1000 * screenshot_delay))] ++ t1).
    eexists. exists d'. split.
    + rewrite <- !app_assoc. cbn [app]. reflexivity.
    + rewrite <- !app_assoc in Ed. exact Ed.
  - split; [discriminate|]. split; [discriminate|].
    split; [rewrite !calls_app, Hcx; cbn; lia|]. intros Er. discriminate.
Qed.

End Keystrokes.

(** *** The scroll loop of the automation strategy *)

Section AutomationScroll.
Local Open Scope host_scope.

Lemma scroll_request_once w x y h
  (Q : Host.result value -> list Host.request -> Prop) :
  (forall r t, r <> Host.Stuck -> Host.page_scrolls t = 1%nat -> Q r t) ->
  Host.hpost (Host.of_driver w (fun wd => Host.webdriver_execute_script wd (ScrollTo x y)))
    h Q.
Proof.
  intros HQ.
  apply hpost_of_driver with (P := fun r t => r <> Diverge /\ scrolls t = 1%nat).
  - intros wd. unfold Host.webdriver_execute_script, execute_script.
    apply post_call; intros; split; try discriminate; reflexivity.
  - intros r t (Hr & Ht). apply HQ.
    + destruct r; cbn; try discriminate. contradiction.
    + rewrite page_scrolls_driver. exact Ht.
Qed.

Lemma resize_request_quiet w width height h
  (Q : Host.result unit -> list Host.request -> Prop) :
  (forall r t, r <> Host.Stuck -> Host.page_scrolls t = 0%nat -> Q r t) ->
  Host.hpost (Host.of_driver w (fun wd => set_window_size wd width height)) h Q.
Proof.
  intros HQ.
  apply hpost_of_driver with (P := fun r t => r <> Diverge /\ scrolls t = 0%nat).
  - intros wd. unfold set_window_size. apply post_bind.
    apply post_call; intros; cbn beta iota.
    + apply post_ret. split; [discriminate|reflexivity].
    + split; [discriminate|reflexivity].
  - intros r t (Hr & Ht). apply HQ.
    + destruct r; cbn; try discriminate. contradiction.
    + rewrite page_scrolls_driver. exact Ht.
Qed.

Lemma actual_height_request_quiet w h
  (Q : Host.result Z -> list Host.request -> Prop) :
  (forall r t, r <> Host.Stuck -> Host.page_scrolls t = 0%nat -> Q r t) ->
  Host.hpost
    (Host.of_driver w
       (fun wd => BrowserHandler.__get_actual_height (Host.capture_self wd)))
    h Q.
Proof.
  intros HQ.
  apply hpost_of_driver with (P := fun r t => r <> Diverge /\ scrolls t = 0%nat).
  - intros wd. eapply post_weaken; [apply actual_height_quiet|].
    intros r t (Hr & Hs & _). split; assumption.
  - intros r t (Hr & Ht). apply HQ.
    + destruct r; cbn; try discriminate. contradiction.
    + rewrite page_scrolls_driver. exact Ht.
Qed.

(** One turn of the scroll loop scrolls at most once, advances the offset
    by the viewport height and keeps [max_height] within
    [maximum_length_image]. *)
Lemma scroll_loop_body_step self w maximum_length_image max_width
  screenshot_delay v offset orig max_height h :
  max_height <= maximum_length_image ->
  Host.hpost
    (Host.scroll_loop_body self w maximum_length_image max_width
       screenshot_delay (Host.DInt v) (offset, orig, max_height)) h
    (fun r t =>
       r <> Host.Stuck /\ (Host.page_scrolls t <= 1)%nat /\
       forall s, r = Host.Done (Continue s) ->
         exists orig' max_height',
           s = (offset + v, orig', max_height') /\
           max_height' <= maximum_length_image).
Proof.
  intros Hmh. unfold Host.scroll_loop_body. cbv zeta.
  unfold Host.window_height, Host.add_height.
  unfold Host.with_webdriver, Host.capture_method, Host.driver_call.
  destruct (Host.webdriver_is_set self).
  - hstep. apply scroll_request_once. intros r t Hr Hs.
    destruct r as [x|e|]; [| |contradiction].
    + hstep. hstep;
        [rewrite ?app_nil_r, ?page_scrolls_app, Hs; cbn;
         split; [discriminate|]; split; [lia|]; intros ? [=]|].
      hstep. hstep.
      * destruct (Host.data_eqb orig d).
        -- hstep. rewrite !page_scrolls_app, Hs. cbn.
           split; [discriminate|]. split; [lia|]. intros ? [=].
        -- hstep. apply actual_height_request_quiet. intros r1 t1 Hr1 Hs1.
           destruct r1 as [new_height|e1|]; [| |contradiction].
           ++ hstep. hstep. hstep.
              ** destruct d0; hsteps;
                   try (rewrite !page_scrolls_app, Hs, Hs1; cbn;
                        split; [discriminate|]; split; [lia|]; intros ? [=]).
                 apply resize_request_quiet. intros r2 t2 Hr2 Hs2.
                 destruct r2 as [[]|e2|]; [| |contradiction].
                 --- hsteps. rewrite !page_scrolls_app, Hs, Hs1, Hs2. cbn.
                     split; [discriminate|]. split; [lia|].
                     intros ? [= <-]. eexists _, _. split; [reflexivity|].
                     destruct ((max_height <? new_height)
                               && (new_height <? maximum_length_image)) eqn:E;
                       [|exact Hmh].
                     apply andb_true_iff in E. lia.
                 --- rewrite !page_scrolls_app, Hs, Hs1, Hs2. cbn.
                     split; [discriminate|]. split; [lia|]. intros ? [=].
              ** rewrite !page_scrolls_app, Hs, Hs1. cbn.
                 split; [discriminate|]. split; [lia|]. intros ? [=].
           ++ rewrite !page_scrolls_app, Hs, Hs1. cbn.
              split; [discriminate|]. split; [lia|]. intros ? [=].
      * rewrite !page_scrolls_app, Hs. cbn.
        split; [discriminate|]. split; [lia|]. intros ? [=].
    + split; [discriminate|]. split; [lia|]. intros ? [=].
  - hsteps. split; [discriminate|]. split; [cbn; lia|]. intros ? [=].
Qed.

Lemma scroll_loop_bounded self w maximum_length_image max_width
  screenshot_delay v :
  0 < v ->
  forall (n fuel : nat) offset orig max_height h,
    max_height <= maximum_length_image ->
    maximum_length_image - offset <= Z.of_nat n * v ->
    (n <= fuel)%nat ->
    Host.hpost
      (Host.hwhile fuel (fun '(offset, _, max_height) => offset <? max_height)
         (Host.scroll_loop_body self w maximum_length_image max_width
            screenshot_delay (Host.DInt v))
         (offset, orig, max_height)) h
      (fun r t => r <> Host.Stuck /\ (Host.page_scrolls t <= n)%nat).
Proof.
  intros Hv. induction n as [|n IH]; intros fuel offset orig max_height h Hmh Hn Hfuel.
  - assert (Ec : (offset <? max_height) = false) by (apply Z.ltb_ge; lia).
    destruct fuel; cbn [Host.hwhile]; rewrite Ec; apply hpost_ret;
      (split; [discriminate|cbn; lia]).
  - destruct fuel as [|fuel]; [lia|]. cbn [Host.hwhile].
    destruct (offset <? max_height) eqn:Ec.
    + hstep. eapply hpost_weaken; [apply scroll_loop_body_step; exact Hmh|].
      intros r t (Hr & Hs & Hc).
      destruct r as [[s|s]|e|]; cbn beta iota; [| | |contradiction].
      * destruct (Hc s eq_refl) as (orig' & mh' & -> & Hmh').
        eapply hpost_weaken; [apply (IH fuel); [exact Hmh'|lia|lia]|].
        intros r' t' (Hr' & Hs'). split; [exact Hr'|].
        rewrite page_scrolls_app. lia.
      * hstep. rewrite app_nil_r. split; [discriminate|lia].
      * split; [discriminate|lia].
    + hstep. split; [discriminate|cbn; lia].
Qed.

Lemma for_range_no_scroll w cmd : forall n h,
  Host.hpost (Host.for_range n (Host.subprocess_run w cmd)) h
    (fun r t => r <> Host.Stuck /\ Host.page_scrolls t = 0%nat).
Proof.
  induction n as [|n IH]; intros h; cbn [Host.for_range].
  - hstep. split; [discriminate|reflexivity].
  - unfold Host.subprocess_run at 1. hstep. hstep. hstep.
    + hstep. eapply hpost_weaken; [apply IH|].
      intros r t (Hr & Hc). split; [exact Hr|].
      rewrite !page_scrolls_app, Hc. reflexivity.
    + split; [discriminate|reflexivity].
Qed.

Lemma xdotool_no_scroll self w h :
  Host.hpost (Host.get_screenshot_xdotool self w) h
    (fun r t => r <> Host.Stuck /\ Host.page_scrolls t = 0%nat).
Proof.
  unfold Host.get_screenshot_xdotool. cbv zeta. hstep. hstep.
  assert (Hzoom : forall h',
    Host.hpost
      match Host.zoom_out self with
      | Some (Some n :: _) =>
          Host.for_range (Z.to_nat n)
            (Host.subprocess_run w Host.zoom_out_command)
      | _ => Host.hret tt
      end h'
      (fun r t => r <> Host.Stuck /\ Host.page_scrolls t = 0%nat)).
  { intros h'. destruct (Host.zoom_out self) as [[|[n|] l]|];
      try (hstep; split; [discriminate|reflexivity]).
    apply for_range_no_scroll. }
  eapply hpost_weaken; [apply Hzoom|].
  intros [[]|e|] t (Hr & Hc); cbn beta iota.
  - hstep. hstep. unfold Host.subprocess_run. hstep. hstep.
    + hstep. rewrite !page_scrolls_app, Hc. split; [discriminate|reflexivity].
    + destruct e; hsteps; rewrite ?page_scrolls_app, Hc;
        (split; [discriminate|reflexivity]).
  - destruct e; hsteps; rewrite ?page_scrolls_app, ?app_nil_r, Hc;
      (split; [discriminate|try reflexivity]).
  - contradiction.
Qed.

Lemma switch_loop_no_scroll self w : forall (r fuel : nat) (success0 : bool) h,
  (r <= fuel)%nat ->
  Host.hpost
    (Host.hwhile fuel (fun '(retry, success) => retry <? 6)
       (fun '(retry, success) =>
          Host.htry
            (Host.driver_call self w
               (Host.SwitchToFrame Host.preselection_iframe) ;;
             Host.hret (Break (retry, true)))
            (fun e => Host.time_sleep 1000 ;;
                      Host.hret (Continue (retry + 1, success))))
       (6 - Z.of_nat r, success0)) h
    (fun res t => (exists s, res = Host.Done s) /\ Host.page_scrolls t = 0%nat).
Proof.
  induction r as [|r IH]; intros fuel success0 h Hfuel.
  - assert (Ec : (6 - Z.of_nat 0 <? 6) = false) by reflexivity.
    destruct fuel; cbn [Host.hwhile]; rewrite Ec; apply hpost_ret;
      (split; [eauto|reflexivity]).
  - destruct fuel as [|fuel]; [lia|].
    assert (Ec : (6 - Z.of_nat (S r) <? 6) = true) by (apply Z.ltb_lt; lia).
    cbn [Host.hwhile]. rewrite Ec.
    replace (6 - Z.of_nat (S r) + 1) with (6 - Z.of_nat r) by lia.
    hstep. hstep. hstep. unfold Host.driver_call at 1.
    destruct (Host.webdriver_is_set self).
    + hstep.
      * hsteps. split; [eauto|reflexivity].
      * hsteps. eapply hpost_weaken; [apply IH; lia|].
        intros res t (Hd & Hs). split; [exact Hd|].
        rewrite !page_scrolls_app, Hs. reflexivity.
    + hsteps. eapply hpost_weaken; [apply IH; lia|].
      intros res t (Hd & Hs). split; [exact Hd|].
      rewrite !page_scrolls_app, Hs. reflexivity.
Qed.

Lemma click_buttons_no_scroll fuel self w screenshot_delay h :
  (5 <= fuel)%nat ->
  Host.hpost (Host.browser_click_buttons fuel self w screenshot_delay) h
    (fun r t => r <> Host.Stuck /\ Host.page_scrolls t = 0%nat).
Proof.
  intros Hfuel. unfold Host.browser_click_buttons, Host.switch_loop.
  hstep. hstep. hstep.
  eapply hpost_weaken; [apply xdotool_no_scroll|].
  intros [[]|e|] tx (Hrx & Hcx); cbn beta iota; [| |contradiction].
  - hstep. hstep;
      [split; [discriminate|];
       rewrite ?app_nil_r, !page_scrolls_app, Hcx; reflexivity|].
    hstep.
    eapply hpost_weaken;
      [apply (switch_loop_no_scroll self w 5 fuel false); exact Hfuel|].
    intros res tl (([retry success] & ->) & Hcl). cbn beta iota.
    unfold Host.click_by_class_name, Host.driver_call.
    destruct (Host.webdriver_is_set self), success; hsteps.
    all: split; [discriminate|].
    all: rewrite !page_scrolls_app, Hcx, Hcl; reflexivity.
  - split; [discriminate|]. rewrite !page_scrolls_app, Hcx. reflexivity.
Qed.

Lemma listing_loop_no_scroll w image_dir_path :
  forall (r fuel : nat) (image_path : option string) h,
    (r <= fuel)%nat ->
    Host.hpost
      (Host.hwhile fuel (fun '(image_path, retry) => retry <? 6)
         (fun '(image_path, retry) =>
            files <- (d <- Host.ask w (Host.Listdir image_dir_path) ;;
                      Host.as_strings d) ;;
            match files with
            | [file_name] =>
                image_path' <- Host.path_join image_dir_path file_name ;;
                Host.hret (Break (Some image_path', retry))
            | _ =>
                Host.time_sleep 1000 ;;
                Host.hret (Continue (image_path, retry + 1))
            end)
         (image_path, 6 - Z.of_nat r)) h
      (fun res t => res <> Host.Stuck /\ Host.page_scrolls t = 0%nat).
Proof.
  induction r as [|r IH]; intros fuel image_path h Hfuel.
  - assert (Ec : (6 - Z.of_nat 0 <? 6) = false) by reflexivity.
    destruct fuel; cbn [Host.hwhile]; rewrite Ec; apply hpost_ret;
      (split; [discriminate|reflexivity]).
  - destruct fuel as [|fuel]; [lia|].
    assert (Ec : (6 - Z.of_nat (S r) <? 6) = true) by (apply Z.ltb_lt; lia).
    cbn [Host.hwhile]. rewrite Ec.
    hstep. hstep. hstep. hstep.
    + destruct d; cbn [Host.as_strings]; hsteps;
        try (split; [discriminate|reflexivity]).
      destruct l as [|file_name [|other files]].
      * hsteps. replace (6 - Z.of_nat (S r) + 1) with (6 - Z.of_nat r) by lia.
        eapply hpost_weaken; [apply IH; lia|].
        intros res t (Hd & Hs). split; [exact Hd|].
        rewrite !page_scrolls_app, Hs. reflexivity.
      * unfold Host.path_join. destruct image_dir_path as [dir|].
        -- destruct (String.prefix "/" file_name);
             [|destruct ((String.length dir =? 0)%nat || Host.ends_with_slash dir)];
             hsteps; (split; [discriminate|reflexivity]).
        -- hsteps. split; [discriminate|reflexivity].
      * hsteps. replace (6 - Z.of_nat (S r) + 1) with (6 - Z.of_nat r) by lia.
        eapply hpost_weaken; [apply IH; lia|].
        intros res t (Hd & Hs). split; [exact Hd|].
        rewrite !page_scrolls_app, Hs. reflexivity.
    + split; [discriminate|reflexivity].
Qed.

Lemma download_no_scroll fuel self w screenshot_delay h :
  (5 <= fuel)%nat ->
  Host.hpost (Host.get_screenshot_by_automation fuel self w screenshot_delay) h
    (fun r t => r <> Host.Stuck /\ Host.page_scrolls t = 0%nat).
Proof.
  intros Hfuel.
  unfold Host.get_screenshot_by_automation, Host.listing_loop. cbv zeta.
  hstep. hstep; [split; [discriminate|reflexivity]|]. hstep.
  eapply hpost_weaken;
    [apply (listing_loop_no_scroll w (Host.tmp_ss_dir self) 5 fuel None);
     exact Hfuel|].
  intros [[image_path retry]|e|] t (Hr & Hs); cbn beta iota; [| |contradiction].
  - hstep. hstep. hstep.
    destruct image_path as [path|].
    + hstep. hstep. hstep. hstep.
      * destruct d; cbn [Host.as_bytes]; hsteps;
          (split; [discriminate|]); rewrite !page_scrolls_app, Hs; reflexivity.
      * hsteps; (split; [discriminate|]);
          rewrite !page_scrolls_app, Hs; reflexivity.
    + hsteps; (split; [discriminate|]);
        rewrite !page_scrolls_app, Hs; reflexivity.
  - split; [discriminate|]. rewrite !page_scrolls_app, Hs. reflexivity.
Qed.

(** The automation strategy stops scrolling by [maximum_length_image],
    however the page grows: with a viewport [v] pixels high, it returns or
    raises after at most [maximum_length_image / v + 1] scrolls down the
    page and the one back to the top. *)
Theorem automation_scrolls_are_bounded (fuel : nat) (self : Host.handler)
  (w : Host.world)
  (maximum_length_image max_height max_width screenshot_delay : Z)
  (debug : bool) (h : list Host.request) (v : Z) :
  Host.on_call w h (Host.ExecuteJs Host.ViewportHeight)
  = Host.Gives (Host.DInt v) ->
  0 < v ->
  (5 <= fuel)%nat -> (Z.to_nat (maximum_length_image / v) + 1 <= fuel)%nat ->
  Host.hpost
    (Host.__get_screenshot_using_automation fuel self w maximum_length_image
       max_height max_width screenshot_delay debug) h
    (fun r t =>
       r <> Host.Stuck /\
       (Host.page_scrolls t <= Z.to_nat (maximum_length_image / v) + 2)%nat).
Proof.
  intros Hvp Hv Hfuel5 Hfuel.
  unfold Host.__get_screenshot_using_automation, Host.scroll_loop. cbv zeta.
  hstep. unfold Host.driver_call at 1, Host.with_webdriver.
  destruct (Host.webdriver_is_set self);
    [|hstep; split; [discriminate|cbn; lia]].
  hstep; [|congruence].
  rewrite Hvp in H. injection H as <-.
  hstep.
  eapply hpost_weaken;
    [apply (scroll_loop_bounded self w maximum_length_image max_width
              screenshot_delay v Hv
              (Z.to_nat (maximum_length_image / v) + 1) fuel);
     [destruct (maximum_length_image <? max_height) eqn:E; lia| |exact Hfuel]|].
  { rewrite Z.sub_0_r.
    destruct (Z.le_gt_cases maximum_length_image 0) as [Hle|Hgt]; [nia|].
    assert (0 <= maximum_length_image / v) by (apply Z.div_pos; lia).
    pose proof (Z.mod_pos_bound maximum_length_image v Hv).
    pose proof (Z.div_mod maximum_length_image v ltac:(lia)).
    nia. }
  intros r t (Hr & Hs).
  destruct r as [s|e|]; cbn beta iota; [| |contradiction].
  - hstep. apply scroll_request_once. intros r1 t1 Hr1 Hs1.
    destruct r1 as [x|e|]; [| |contradiction].
    + hstep.
      eapply hpost_weaken; [apply click_buttons_no_scroll; exact Hfuel5|].
      intros r2 t2 (Hr2 & Hs2).
      destruct r2 as [[[|]|]|e|]; cbn beta iota; [| | | |contradiction].
      * eapply hpost_weaken; [apply download_no_scroll; exact Hfuel5|].
        intros r3 t3 (Hr3 & Hs3). split; [exact Hr3|].
        rewrite !page_scrolls_app, Hs1, Hs2, Hs3. cbn. lia.
      * hstep. split; [discriminate|].
        rewrite !page_scrolls_app, Hs1, Hs2. cbn. lia.
      * hstep. split; [discriminate|].
        rewrite !page_scrolls_app, Hs1, Hs2. cbn. lia.
      * split; [discriminate|].
        rewrite !page_scrolls_app, Hs1, Hs2. cbn. lia.
    + split; [discriminate|]. rewrite !page_scrolls_app, Hs1. cbn. lia.
  - split; [discriminate|]. rewrite !page_scrolls_app. cbn. lia.
Qed.

End AutomationScroll.

(** *** Closing the browser *)

Section Closing.
Local Open Scope host_scope.

(** [quit] and [close] swallow every error of the driver and of the
    removal of the profile directory: [quit] and [close(clean=False)]
    always return, and the only exception [close(clean=True)] raises is the
    [TypeError] of a profile location that is unset, empty or no longer on
    disk, in which case nothing has been removed. *)
Theorem close_raises_only_type_error (self : Host.handler) (w : Host.world)
  (h : list Host.request) :
  fst (Host.quit self w h) = Host.Done tt /\
  fst (Host.close self w false h) = Host.Done tt /\
  (fst (Host.close self w true h) = Host.Done tt \/
   fst (Host.close self w true h) = Host.Raised (Host.Builtin TypeError) /\
   Host.calls (Host.Rmtree None) (snd (Host.close self w true h)) = 0%nat).
Proof.
  split; [|split].
  - change (Host.hpost (Host.quit self w) h (fun r _ => r = Host.Done tt)).
    unfold Host.quit, Host.driver_call.
    destruct (Host.webdriver_is_set self); hsteps; reflexivity.
  - change (Host.hpost (Host.close self w false) h (fun r _ => r = Host.Done tt)).
    unfold Host.close, Host.driver_call.
    destruct (Host.webdriver_is_set self); hsteps; reflexivity.
  - change (Host.hpost (Host.close self w true) h
              (fun r t => r = Host.Done tt \/
                          r = Host.Raised (Host.Builtin TypeError) /\
                          Host.calls (Host.Rmtree None) t = 0%nat)).
    unfold Host.close, Host._browser_cleanup, Host.driver_call.
    assert (Hexists : forall loc h' (Q : Host.result bool -> list Host.request -> Prop),
              (forall b, Q (Host.Done b) [Host.Os (Host.PathExists loc)]) ->
              Host.hpost (Host.path_exists w loc) h' Q).
    { intros loc h' Q HQ. unfold Host.hpost, Host.path_exists.
      destruct (Host.on_call w h' (Host.PathExists loc)) as [[| | | | |[|]| |]|];
        apply HQ. }
    destruct (Host.webdriver_is_set self), (Host.browser_profile_loc self) as [loc|];
      try destruct (String.length loc =? 0)%nat;
      hsteps; try (right; split; reflexivity);
      try (apply Hexists; intros [|]; hsteps;
           first [left; reflexivity|right; split; reflexivity]).
Qed.

End Closing.

(** *** Runs on a host *)

Section HostRuns.

(** The scripts fail once and are answered at the second attempt. *)
Lemma lookups_retry_three_times_witness :
  Host.retried (Host.ExecuteJs Host.AllHrefs) [] (Host.DStrings [])
    (Host.get_page_links 3 HostFixtures.self
       (HostFixtures.host Fixtures.growing_page))
    (HostFixtures.host Fixtures.growing_page) [].
Proof.
  exact (proj1 (proj1 (lookups_retry_three_times 3 HostFixtures.self
                         (HostFixtures.host Fixtures.growing_page) [] (le_n 3))
                  eq_refl)).
Defined.


(** Two zoom-out keystrokes configured and every keystroke accepted. *)
Lemma xdotool_keystrokes_witness :
  Host.get_screenshot_xdotool HostFixtures.self
    (HostFixtures.host Fixtures.growing_page) []
  = (Host.Done tt,
     [Host.Os (Host.Subprocess Host.zoom_out_command);
      Host.Os (Host.Subprocess Host.zoom_out_command);
      Host.Os (Host.Wait 3000);
      Host.Os (Host.Subprocess Host.screenshot_command)]).
Proof.
  apply (proj1 (xdotool_keystrokes HostFixtures.self
                  (HostFixtures.host Fixtures.growing_page) [] 2 [] eq_refl)).
  - intros j Hj. eexists. reflexivity.
  - eexists. reflexivity.
Defined.

Lemma click_buttons_reports_frame_witness :
  Host.hpost
    (Host.browser_click_buttons 5 HostFixtures.self
       (HostFixtures.host Fixtures.growing_page) 2) []
    (fun r t =>
       r <> Host.Stuck /\ r <> Host.Done (Some false) /\
       (Host.calls (Host.SwitchToFrame Host.preselection_iframe) t <= 5)%nat /\
       (r = Host.Done (Some true) ->
        exists t1 t2 d,
          t = t1 ++ Host.Os (Host.SwitchToFrame Host.preselection_iframe) :: t2 /\
          Host.on_call (HostFixtures.host Fixtures.growing_page) ([] ++ t1)
            (Host.SwitchToFrame Host.preselection_iframe) = Host.Gives d)).
Proof.
  exact (click_buttons_reports_frame 5 HostFixtures.self
           (HostFixtures.host Fixtures.growing_page) 2 [] (le_n 5)).
Defined.

(** A page that grows at every reading, a window of 900 pixels and a
    maximum image length of 2000: at most four scrolls. *)
Lemma automation_scrolls_are_bounded_witness :
  Host.hpost
    (Host.__get_screenshot_using_automation 5 HostFixtures.self
       (HostFixtures.host Fixtures.growing_page) 2000 50000 1366 2 false) []
    (fun r t => r <> Host.Stuck /\ (Host.page_scrolls t <= 4)%nat).
Proof.
  exact (automation_scrolls_are_bounded 5 HostFixtures.self
           (HostFixtures.host Fixtures.growing_page) 2000 50000 1366 2 false []
           900 eq_refl ltac:(lia) (le_n 5) ltac:(vm_compute; lia)).
Defined.

End HostRuns.
